(** * Notes SaaS: tenant-scoped authentication core

    A shallow embedding of the authentication, lockout, token, quota
    and notes code of the multi-tenant notes application, followed by
    the properties proved about it.

    Conventions of the embedding:
    - JavaScript numbers that hold counters, limits and timestamps are
      integers ([Z]); [Date.now()] is the parameter [now], in milliseconds.
    - JavaScript strings are [string]s of 8-bit characters; the string
      functions below are the ASCII restriction of the JavaScript ones.
    - A Mongoose collection is the list of its documents in insertion order;
      [findOne] returns the first match.
    - An [async] handler is a function from the store to a response and the
      next store; a thrown exception is [None] until the enclosing
      [try]/[catch] turns it into its response.
    - [doc.save()] validates every path of the document, then runs the
      [pre('save')] hook, then writes; a document that fails a validator is
      not written.
    - What a library decides is a parameter: the decoding of a compact
      token, [bcrypt], the cast of a value to an [ObjectId], the identifiers
      and random values drawn for new documents. *)

From stdpp Require Import base option list gmap strings.
From Stdlib Require Import ZArith Ascii String Lia.

Set Warnings "-register-all".

Local Open Scope string_scope.
Local Open Scope Z_scope.

(** ** JavaScript values and string functions *)

Module Js.

(** JSON values, as they travel inside a token payload. *)
Inductive jval :=
| JNull
| JBool (b : bool)
| JNum (n : Z)
| JStr (s : string)
| JObj (fields : list (string * jval)).

(** [v === s] for a string literal [s]. *)
Definition strict_eq_str (v : option jval) (s : string) : bool :=
  match v with
  | Some (JStr s') => String.eqb s' s
  | _ => false
  end.

Definition is_upper (c : ascii) : bool :=
  let n := nat_of_ascii c in (65 <=? n)%nat && (n <=? 90)%nat.

Definition is_lower (c : ascii) : bool :=
  let n := nat_of_ascii c in (97 <=? n)%nat && (n <=? 122)%nat.

Definition is_digit (c : ascii) : bool :=
  let n := nat_of_ascii c in (48 <=? n)%nat && (n <=? 57)%nat.

(** The class [\s]: tab, line feed, vertical tab, form feed, carriage
    return and space. *)
Definition is_space (c : ascii) : bool :=
  let n := nat_of_ascii c in ((9 <=? n)%nat && (n <=? 13)%nat) || (n =? 32)%nat.

Definition is_hyphen (c : ascii) : bool := (nat_of_ascii c =? 45)%nat.

Definition lower_char (c : ascii) : ascii :=
  if is_upper c then ascii_of_nat (nat_of_ascii c + 32) else c.

(** [s.toLowerCase()] *)
Fixpoint toLowerCase (s : string) : string :=
  match s with
  | EmptyString => EmptyString
  | String c r => String (lower_char c) (toLowerCase r)
  end.

(** [s.replace(/[^...]/g, '')] for a character class given by [keep]. *)
Fixpoint remove_outside (keep : ascii -> bool) (s : string) : string :=
  match s with
  | EmptyString => EmptyString
  | String c r =>
      if keep c then String c (remove_outside keep r) else remove_outside keep r
  end.

(** Drops the longest prefix of characters in the class [p]. *)
Fixpoint drop_while (p : ascii -> bool) (s : string) : string :=
  match s with
  | EmptyString => EmptyString
  | String c r => if p c then drop_while p r else s
  end.

(** [s.replace(/X+/g, '-')] for a character class [X] given by [p]: every
    maximal run of [p]-characters becomes one hyphen.  [in_run] says that
    the previous character already belonged to a run. *)
Fixpoint replace_runs_from (p : ascii -> bool) (in_run : bool) (s : string)
  : string :=
  match s with
  | EmptyString => EmptyString
  | String c r =>
      if p c
      then (if in_run then replace_runs_from p true r
            else String "-"%char (replace_runs_from p true r))
      else String c (replace_runs_from p false r)
  end.

Definition replace_runs (p : ascii -> bool) (s : string) : string :=
  replace_runs_from p false s.

Fixpoint rev_string_onto (s acc : string) : string :=
  match s with
  | EmptyString => acc
  | String c r => rev_string_onto r (String c acc)
  end.

Definition rev_string (s : string) : string := rev_string_onto s EmptyString.

(** [s.trim()] *)
Definition trim (s : string) : string :=
  rev_string (drop_while is_space (rev_string (drop_while is_space s))).

(** [s.split(sep)] for a one-character separator: the pieces between
    occurrences of [sep]; [cur] is the piece being read, reversed. *)
Fixpoint split_from (sep : ascii) (cur : string) (s : string) : list string :=
  match s with
  | EmptyString => [rev_string cur]
  | String c r =>
      if Ascii.eqb c sep
      then rev_string cur :: split_from sep EmptyString r
      else split_from sep (String c cur) r
  end.

Definition split_on (sep : ascii) (s : string) : list string :=
  split_from sep EmptyString s.

(** Truthiness of a string: only the empty string is falsy. *)
Definition truthy_str (s : string) : bool :=
  match s with EmptyString => false | _ => true end.

End Js.

(** ** The Tenant model *)

Module Tenant.

Inductive plan_t := free | pro.

Inductive status_t := active | inactive | suspended | cancelled.

Record subscription_t := {
  status : status_t;
  startDate : Z;
  endDate : option Z
}.

Record usage_t := {
  currentNoteCount : Z;
  currentUserCount : Z;
  storageUsed : Z
}.

Record t := {
  _id : string;
  slug : string;
  name : string;
  plan : plan_t;
  noteLimit : Z;
  subscription : subscription_t;
  usage : usage_t;
  isActive : bool;
  updatedAt : Z
}.

Definition plan_eqb (a b : plan_t) : bool :=
  match a, b with
  | free, free | pro, pro => true
  | _, _ => false
  end.

Definition status_is_active (s : status_t) : bool :=
  match s with active => true | _ => false end.

(** [tenantSchema.virtual('hasUnlimitedNotes')] *)
Definition hasUnlimitedNotes (this : t) : bool :=
  noteLimit this =? -1.

(** [tenantSchema.virtual('remainingNotes')] *)
Definition remainingNotes (this : t) : Z :=
  if hasUnlimitedNotes this then -1
  else Z.max 0 (noteLimit this - currentNoteCount (usage this)).

(** [tenantSchema.virtual('canCreateNotes')] *)
Definition canCreateNotes (this : t) : bool :=
  if negb (isActive this) || negb (status_is_active (status (subscription this)))
  then false
  else hasUnlimitedNotes this
       || (currentNoteCount (usage this) <? noteLimit this).

Definition set_noteLimit (n : Z) (this : t) : t :=
  {| _id := _id this; slug := slug this; name := name this;
     plan := plan this; noteLimit := n;
     subscription := subscription this; usage := usage this;
     isActive := isActive this; updatedAt := updatedAt this |}.

Definition set_updatedAt (now : Z) (this : t) : t :=
  {| _id := _id this; slug := slug this; name := name this;
     plan := plan this; noteLimit := noteLimit this;
     subscription := subscription this; usage := usage this;
     isActive := isActive this; updatedAt := now |}.

Definition set_usage (u : usage_t) (this : t) : t :=
  {| _id := _id this; slug := slug this; name := name this;
     plan := plan this; noteLimit := noteLimit this;
     subscription := subscription this; usage := u;
     isActive := isActive this; updatedAt := updatedAt this |}.

(** [tenantSchema.pre('save', ...)]; [planModified] is
    [this.isModified('plan')]. *)
Definition preSave (now : Z) (planModified : bool) (this : t) : t :=
  let this := set_updatedAt now this in
  if planModified then
    if plan_eqb (plan this) free
       && ((noteLimit this =? -1) || (10 <? noteLimit this))
    then set_noteLimit 3 this
    else if plan_eqb (plan this) pro && (noteLimit this <? 10)
    then set_noteLimit (-1) this
    else this
  else this.

(** The [validate] function of the [noteLimit] path. *)
Definition noteLimit_validator (this : t) : bool :=
  match plan this with
  | free => (0 <? noteLimit this) && (noteLimit this <=? 10)
  | pro => (noteLimit this =? -1) || (0 <? noteLimit this)
  end.

Inductive usage_kind := notes | users | storage.

(** The field updates of [incrementUsage], before its [save]. *)
Definition incrementUsage_fields (type : usage_kind) (amount : Z) (this : t) : t :=
  let u := usage this in
  match type with
  | notes =>
      set_usage {| currentNoteCount := currentNoteCount u + amount;
                   currentUserCount := currentUserCount u;
                   storageUsed := storageUsed u |} this
  | users =>
      set_usage {| currentNoteCount := currentNoteCount u;
                   currentUserCount := currentUserCount u + amount;
                   storageUsed := storageUsed u |} this
  | storage =>
      set_usage {| currentNoteCount := currentNoteCount u;
                   currentUserCount := currentUserCount u;
                   storageUsed := storageUsed u + amount |} this
  end.

End Tenant.

(** ** The User model *)

Module Perm.

Record t := {
  canCreateNotes : bool;
  canEditNotes : bool;
  canDeleteNotes : bool;
  canShareNotes : bool;
  canManageUsers : bool;
  canManageTenant : bool
}.

Definition all_true : t :=
  {| canCreateNotes := true; canEditNotes := true; canDeleteNotes := true;
     canShareNotes := true; canManageUsers := true; canManageTenant := true |}.

(** The permissions object as a JSON value. *)
Definition to_json (p : t) : Js.jval :=
  Js.JObj [("canCreateNotes", Js.JBool (canCreateNotes p));
           ("canEditNotes", Js.JBool (canEditNotes p));
           ("canDeleteNotes", Js.JBool (canDeleteNotes p));
           ("canShareNotes", Js.JBool (canShareNotes p));
           ("canManageUsers", Js.JBool (canManageUsers p));
           ("canManageTenant", Js.JBool (canManageTenant p))].

End Perm.

Module User.

Inductive role_t := admin | member.

Definition role_name (r : role_t) : string :=
  match r with admin => "admin" | member => "member" end.

Record profile_t := { firstName : string; lastName : string }.

Record security_t := {
  lastLogin : option Z;
  loginAttempts : Z;
  lockUntil : option Z
}.

Record t := {
  _id : string;
  email : string;
  password : string;
  tenantId : string;
  role : role_t;
  profile : profile_t;
  security : security_t;
  permissions : Perm.t;
  isActive : bool
}.

Definition set_security (s : security_t) (this : t) : t :=
  {| _id := _id this; email := email this; password := password this;
     tenantId := tenantId this; role := role this; profile := profile this;
     security := s; permissions := permissions this;
     isActive := isActive this |}.

(** [userSchema.virtual('isLocked')]: a [Date] object is truthy, so the
    guard [lockUntil && ...] only excludes [null]. *)
Definition isLocked (now : Z) (this : t) : bool :=
  match lockUntil (security this) with
  | Some l => now <? l
  | None => false
  end.

(** [userSchema.virtual('isAdmin')] *)
Definition isAdmin (this : t) : bool :=
  match role this with admin => true | member => false end.

(** [userSchema.virtual('fullName')] *)
Definition fullName (this : t) : string :=
  let f := firstName (profile this) in
  let l := lastName (profile this) in
  if Js.truthy_str f && Js.truthy_str l then f ++ " " ++ l
  else if Js.truthy_str f then f
  else if Js.truthy_str l then l
  else hd "" (Js.split_on "@"%char (email this)).

(** [userSchema.methods.comparePassword], over the library call
    [bcrypt.compare]. *)
Definition comparePassword (bcrypt_compare : string -> string -> bool)
  (this : t) (candidatePassword : string) : bool :=
  if negb (Js.truthy_str candidatePassword) || negb (Js.truthy_str (password this))
  then false
  else bcrypt_compare candidatePassword (password this).

(** The update documents that the lockout methods hand to [updateOne]:
    [$unset], [$set] and [$inc] on the three security paths. *)
Record update_t := {
  unset_loginAttempts : bool;
  unset_lockUntil : bool;
  set_loginAttempts : option Z;
  set_lockUntil : option Z;
  set_lastLogin : option Z;
  inc_loginAttempts : option Z
}.

(** The guard [this.security.lockUntil && this.security.lockUntil < Date.now()]. *)
Definition lock_expired (now : Z) (this : t) : bool :=
  match lockUntil (security this) with
  | Some l => l <? now
  | None => false
  end.

Definition with_set_lockUntil (l : Z) (u : update_t) : update_t :=
  {| unset_loginAttempts := unset_loginAttempts u;
     unset_lockUntil := unset_lockUntil u;
     set_loginAttempts := set_loginAttempts u;
     set_lockUntil := Some l;
     set_lastLogin := set_lastLogin u;
     inc_loginAttempts := inc_loginAttempts u |}.

(** [userSchema.methods.incLoginAttempts]: the update it builds from the
    in-memory document [this]. *)
Definition incLoginAttempts_update (now : Z) (this : t) : update_t :=
  if lock_expired now this then
    {| unset_loginAttempts := false; unset_lockUntil := true;
       set_loginAttempts := Some 1; set_lockUntil := None;
       set_lastLogin := None; inc_loginAttempts := None |}
  else
    let updates :=
      {| unset_loginAttempts := false; unset_lockUntil := false;
         set_loginAttempts := None; set_lockUntil := None;
         set_lastLogin := None; inc_loginAttempts := Some 1 |} in
    if (5 <=? loginAttempts (security this) + 1) && negb (isLocked now this)
    then with_set_lockUntil (now + 2 * 60 * 60 * 1000) updates
    else updates.

(** [userSchema.methods.resetLoginAttempts] *)
Definition resetLoginAttempts_update (now : Z) : update_t :=
  {| unset_loginAttempts := true; unset_lockUntil := true;
     set_loginAttempts := None; set_lockUntil := None;
     set_lastLogin := Some now; inc_loginAttempts := None |}.

(** The effect of an update document on the stored security fields.  A
    path removed by [$unset] reads back as its schema default ([0] for
    [loginAttempts], [null] for [lockUntil]). *)
Definition apply_update (u : update_t) (s : security_t) : security_t :=
  let attempts :=
    match set_loginAttempts u with
    | Some n => n
    | None =>
        let base := if unset_loginAttempts u then 0 else loginAttempts s in
        match inc_loginAttempts u with
        | Some d => base + d
        | None => base
        end
    end in
  let lock :=
    match set_lockUntil u with
    | Some l => Some l
    | None => if unset_lockUntil u then None else lockUntil s
    end in
  let login :=
    match set_lastLogin u with
    | Some l => Some l
    | None => lastLogin s
    end in
  {| lastLogin := login; loginAttempts := attempts; lockUntil := lock |}.

(** The stored document after [this.incLoginAttempts()], when the stored
    document is the one that was loaded. *)
Definition incLoginAttempts (now : Z) (this : t) : t :=
  set_security (apply_update (incLoginAttempts_update now this) (security this)) this.

(** The stored document after [this.resetLoginAttempts()]. *)
Definition resetLoginAttempts (now : Z) (this : t) : t :=
  set_security (apply_update (resetLoginAttempts_update now) (security this)) this.

Definition set_permissions (p : Perm.t) (this : t) : t :=
  {| _id := _id this; email := email this; password := password this;
     tenantId := tenantId this; role := role this; profile := profile this;
     security := security this; permissions := p;
     isActive := isActive this |}.

Definition set_password (h : string) (this : t) : t :=
  {| _id := _id this; email := email this; password := h;
     tenantId := tenantId this; role := role this; profile := profile this;
     security := security this; permissions := permissions this;
     isActive := isActive this |}.

(** [userSchema.pre('save', ...)]: hashes a modified password and grants
    the two management permissions when the role was set to admin. *)
Definition preSave (bcrypt_hash : string -> string)
  (passwordModified roleModified : bool) (this : t) : t :=
  let this :=
    if passwordModified then set_password (bcrypt_hash (password this)) this
    else this in
  if roleModified && isAdmin this then
    let p := permissions this in
    set_permissions
      {| Perm.canCreateNotes := Perm.canCreateNotes p;
         Perm.canEditNotes := Perm.canEditNotes p;
         Perm.canDeleteNotes := Perm.canDeleteNotes p;
         Perm.canShareNotes := Perm.canShareNotes p;
         Perm.canManageUsers := true;
         Perm.canManageTenant := true |} this
  else this.

End User.

(** ** The document store *)

Module Store.

Record t := {
  users : list User.t;
  tenants : list Tenant.t
}.

(** [User.findById(id)] *)
Definition findUserById (st : t) (id : string) : option User.t :=
  List.find (fun u => String.eqb (User._id u) id) (users st).

(** [User.findOne({ email, isActive: true })] *)
Definition findActiveUserByEmail (st : t) (email : string) : option User.t :=
  List.find (fun u => String.eqb (User.email u) email && User.isActive u)
            (users st).

(** [User.findOne({ email })] *)
Definition findUserByEmail (st : t) (email : string) : option User.t :=
  List.find (fun u => String.eqb (User.email u) email) (users st).

(** [Tenant.findById(id)], also the lookup behind [populate('tenantId')]. *)
Definition findTenantById (st : t) (id : string) : option Tenant.t :=
  List.find (fun t => String.eqb (Tenant._id t) id) (tenants st).

(** [Tenant.findOne({ slug })] *)
Definition findTenantBySlug (st : t) (slug : string) : option Tenant.t :=
  List.find (fun t => String.eqb (Tenant.slug t) slug) (tenants st).

Fixpoint update_first {A} (p : A -> bool) (f : A -> A) (l : list A) : list A :=
  match l with
  | [] => []
  | x :: r => if p x then f x :: r else x :: update_first p f r
  end.

(** [doc.updateOne(update)] on a user document: the update is applied to
    the stored document with the same [_id]. *)
Definition updateUser (st : t) (id : string) (u : User.update_t) : t :=
  {| users :=
       update_first (fun d => String.eqb (User._id d) id)
         (fun d => User.set_security (User.apply_update u (User.security d)) d)
         (users st);
     tenants := tenants st |}.

Definition insertUser (st : t) (u : User.t) : t :=
  {| users := users st ++ [u]; tenants := tenants st |}.

Definition insertTenant (st : t) (t0 : Tenant.t) : t :=
  {| users := users st; tenants := tenants st ++ [t0] |}.

(** Saving an existing tenant document replaces the stored one. *)
Definition replaceTenant (st : t) (t0 : Tenant.t) : t :=
  {| users := users st;
     tenants :=
       update_first (fun d => String.eqb (Tenant._id d) (Tenant._id t0))
         (fun _ => t0) (tenants st) |}.

End Store.

(** ** Schema validation

    [doc.save()] first runs the validators declared in the schema, for
    every path of the document whether it was modified or not, and throws
    when one of them fails; then it runs the [pre('save')] hook and writes
    the document. *)

Module Schema.

(** Regular expressions over character classes, matched by derivatives. *)
Inductive re :=
| Empty
| Eps
| Class (p : ascii -> bool)
| Seq (a b : re)
| Alt (a b : re)
| Star (a : re).

Fixpoint nullable (r : re) : bool :=
  match r with
  | Empty => false
  | Eps => true
  | Class _ => false
  | Seq a b => nullable a && nullable b
  | Alt a b => nullable a || nullable b
  | Star _ => true
  end.

Fixpoint deriv (c : ascii) (r : re) : re :=
  match r with
  | Empty => Empty
  | Eps => Empty
  | Class p => if p c then Eps else Empty
  | Seq a b =>
      if nullable a then Alt (Seq (deriv c a) b) (deriv c b)
      else Seq (deriv c a) b
  | Alt a b => Alt (deriv c a) (deriv c b)
  | Star a => Seq (deriv c a) (Star a)
  end.

(** [/^r$/.test(s)] *)
Fixpoint matches (r : re) (s : string) : bool :=
  match s with
  | EmptyString => nullable r
  | String c rest => matches (deriv c r) rest
  end.

Definition Plus (a : re) : re := Seq a (Star a).
Definition Opt (a : re) : re := Alt a Eps.
Definition chr (c : ascii) : re := Class (Ascii.eqb c).

(** The class [\w]. *)
Definition is_word (c : ascii) : bool :=
  Js.is_lower c || Js.is_upper c || Js.is_digit c || Ascii.eqb c "_"%char.

Definition word : re := Class is_word.

Definition dot_or_dash : re :=
  Class (fun c => Ascii.eqb c "."%char || Ascii.eqb c "-"%char).

(** [/^\w+([.-]?\w+)*@\w+([.-]?\w+)*(\.\w{2,3})+$/] *)
Definition email_pattern : re :=
  let name := Seq (Plus word) (Star (Seq (Opt dot_or_dash) (Plus word))) in
  Seq name
    (Seq (chr "@"%char)
       (Seq name
          (Plus (Seq (chr "."%char) (Seq word (Seq word (Opt word))))))).

(** [/^[a-z0-9-]+$/] *)
Definition slug_pattern : re :=
  Plus (Class (fun c => Js.is_lower c || Js.is_digit c || Js.is_hyphen c)).

Definition len (s : string) : Z := Z.of_nat (String.length s).

(** The validators of [tenantSchema].  The paths of the schema that the
    record [Tenant.t] leaves out ([settings], the two Stripe identifiers)
    are written by none of the handlers below and hold their defaults,
    which their validators accept. *)
Definition validateTenant (d : Tenant.t) : bool :=
  matches slug_pattern (Tenant.slug d)
  && (2 <=? len (Tenant.slug d)) && (len (Tenant.slug d) <=? 50)
  && (2 <=? len (Tenant.name d)) && (len (Tenant.name d) <=? 100)
  && Tenant.noteLimit_validator d
  && (0 <=? Tenant.currentNoteCount (Tenant.usage d))
  && (0 <=? Tenant.currentUserCount (Tenant.usage d))
  && (0 <=? Tenant.storageUsed (Tenant.usage d)).

(** [tenant.save()]: the validators, then the hook; [planModified] is
    [this.isModified('plan')].  [None] when validation throws, and then
    nothing is written. *)
Definition saveTenant (now : Z) (planModified : bool) (d : Tenant.t)
  : option Tenant.t :=
  if validateTenant d then Some (Tenant.preSave now planModified d) else None.

(** The validators of [userSchema]. *)
Definition validateUser (d : User.t) : bool :=
  matches email_pattern (User.email d)
  && (len (User.email d) <=? 255)
  && (6 <=? len (User.password d))
  && Js.truthy_str (User.tenantId d)
  && (len (User.firstName (User.profile d)) <=? 50)
  && (len (User.lastName (User.profile d)) <=? 50)
  && (User.loginAttempts (User.security d) <=? 5).

End Schema.

(** ** The token service ([utils/jwt.js]) *)

Module Jwt.

(** A JavaScript object used as a record of claims. *)
Abbreviation obj := (gmap string Js.jval).

(** An object literal [{ k1: e1, ..., kn: en }] whose values may be
    [undefined] ([None]).  A key whose value is [undefined] does not
    survive [JSON.stringify], so it is left out. *)
Fixpoint literal (fields : list (string * option Js.jval)) : obj :=
  match fields with
  | [] => ∅
  | (k, Some v) :: r => <[k := v]> (literal r)
  | (_, None) :: r => literal r
  end.

(** The environment: [JWT_SECRET] and the two lifetimes, in seconds. *)
Record config := {
  JWT_SECRET : string;
  JWT_EXPIRES_IN : Z;
  JWT_REFRESH_EXPIRES_IN : Z
}.

(** The fallbacks used when the environment sets nothing: 7 and 30 days. *)
Definition default_config : config :=
  {| JWT_SECRET := "fallback-secret-key-for-development-only";
     JWT_EXPIRES_IN := 7 * 24 * 60 * 60;
     JWT_REFRESH_EXPIRES_IN := 30 * 24 * 60 * 60 |}.

(** *** The library [jsonwebtoken], symbolically

    A token is its payload together with the key that signed it: the
    signature of a token verifies under a secret exactly when the secret
    is the signing key. *)
Record token := {
  payload : obj;
  signing_key : string
}.

Record sign_options := {
  expiresIn : Z;
  issuer : string;
  audience : string
}.

(** [Math.floor(Date.now() / 1000)] *)
Definition seconds (now : Z) : Z := now / 1000.

(** [jwt.sign(payload, secret, options)] on a payload without registered
    claims: adds [iat], [exp], [iss] and [aud]. *)
Definition sign (p : obj) (secret : string) (o : sign_options) (now : Z) : token :=
  let iat := seconds now in
  {| payload :=
       <["aud" := Js.JStr (audience o)]>
         (<["iss" := Js.JStr (issuer o)]>
            (<["exp" := Js.JNum (iat + expiresIn o)]>
               (<["iat" := Js.JNum iat]> p)));
     signing_key := secret |}.

Record verify_options := {
  v_issuer : string;
  v_audience : list string
}.

Definition exp_ok (p : obj) (now : Z) : bool :=
  match p !! "exp" with
  | None => true
  | Some (Js.JNum e) => seconds now <? e
  | Some _ => false
  end.

Definition aud_ok (p : obj) (allowed : list string) : bool :=
  match p !! "aud" with
  | Some (Js.JStr a) => existsb (String.eqb a) allowed
  | _ => false
  end.

Definition iss_ok (p : obj) (iss : string) : bool :=
  Js.strict_eq_str (p !! "iss") iss.

(** [jwt.verify(token, secret, options)]: [None] when it throws. *)
Definition verify (tk : token) (secret : string) (o : verify_options) (now : Z)
  : option obj :=
  if String.eqb (signing_key tk) secret
     && exp_ok (payload tk) now
     && aud_ok (payload tk) (v_audience o)
     && iss_ok (payload tk) (v_issuer o)
  then Some (payload tk)
  else None.

(** *** The functions of [utils/jwt.js] *)

(** [generateToken(payload)] *)
Definition generateToken (cfg : config) (p : obj) (now : Z) : token :=
  let tokenPayload :=
    literal [("userId", p !! "userId");
             ("email", p !! "email");
             ("tenantId", p !! "tenantId");
             ("tenantSlug", p !! "tenantSlug");
             ("role", p !! "role");
             ("permissions", p !! "permissions");
             ("tokenType", Some (Js.JStr "access"))] in
  sign tokenPayload (JWT_SECRET cfg)
    {| expiresIn := JWT_EXPIRES_IN cfg;
       issuer := "notes-saas";
       audience := "notes-saas-users" |} now.

(** [generateRefreshToken(payload)]; [uuid] is the value drawn by
    [crypto.randomUUID()]. *)
Definition generateRefreshToken (cfg : config) (p : obj) (uuid : string) (now : Z)
  : token :=
  let tokenPayload :=
    literal [("userId", p !! "userId");
             ("tenantId", p !! "tenantId");
             ("tokenType", Some (Js.JStr "refresh"));
             ("jti", Some (Js.JStr uuid))] in
  sign tokenPayload (JWT_SECRET cfg)
    {| expiresIn := JWT_REFRESH_EXPIRES_IN cfg;
       issuer := "notes-saas";
       audience := "notes-saas-refresh" |} now.

(** [verifyToken(token)]: [None] when it throws
    ['Invalid or expired token']. *)
Definition verifyToken (cfg : config) (tk : token) (now : Z) : option obj :=
  verify tk (JWT_SECRET cfg)
    {| v_issuer := "notes-saas";
       v_audience := ["notes-saas-users"; "notes-saas-refresh"] |} now.

(** [extractTokenFromHeader(authHeader)] *)
Definition extractTokenFromHeader (authHeader : option string) : option string :=
  match authHeader with
  | None => None
  | Some h =>
      if negb (Js.truthy_str h) then None
      else
        match Js.split_on " "%char h with
        | [scheme; credential] =>
            if String.eqb scheme "Bearer" then Some credential else None
        | _ => None
        end
  end.

(** The token payload built by the login, registration and refresh
    handlers. *)
Definition tokenPayload (userId email tenantId tenantSlug : string)
  (role : User.role_t) (permissions : Perm.t) : obj :=
  literal [("userId", Some (Js.JStr userId));
           ("email", Some (Js.JStr email));
           ("tenantId", Some (Js.JStr tenantId));
           ("tenantSlug", Some (Js.JStr tenantSlug));
           ("role", Some (Js.JStr (User.role_name role)));
           ("permissions", Some (Perm.to_json permissions))].

End Jwt.

(** ** Responses *)

Module Http.

Record user_view := {
  uv_id : string;
  uv_email : string;
  uv_role : User.role_t;
  uv_fullName : string;
  uv_profile : option User.profile_t;
  uv_permissions : Perm.t;
  uv_isAdmin : bool
}.

Record tenant_view := {
  tv_id : string;
  tv_slug : string;
  tv_name : string;
  tv_plan : Tenant.plan_t;
  tv_noteLimit : Z;
  tv_hasUnlimitedNotes : bool;
  tv_remainingNotes : Js.jval;
  tv_canCreateNotes : bool;
  tv_usage : list (string * Z)
}.

Record tokens_view := {
  accessToken : Jwt.token;
  refreshToken : Jwt.token;
  expiresIn : string
}.

(** The JSON bodies sent by the handlers. *)
Inductive body :=
| Error (error code : string)
| Locked (error code : string) (lockUntil : option Z)
| Session (message : string) (user : user_view) (tenant : tenant_view)
    (tokens : tokens_view)
| Refreshed (newAccessToken : Jwt.token) (newExpiresIn : string)
| Upgraded (message : string) (tenant : tenant_view)
    (subscription : Tenant.subscription_t).

(** The cookies set by [setAuthCookies]. *)
Record cookies_t := {
  c_authToken : Jwt.token;
  c_refreshToken : Jwt.token;
  c_tenantSlug : string;
  c_userEmail : string;
  c_userRole : User.role_t
}.

Record response := {
  status : Z;
  json : body;
  cookies : option cookies_t
}.

(** [res.status(s).json({ error, code })] *)
Definition fail (s : Z) (error code : string) : response :=
  {| status := s; json := Error error code; cookies := None |}.

(** The [code] field of a body, when it has one. *)
Definition code_of (r : response) : option string :=
  match json r with
  | Error _ c => Some c
  | Locked _ c _ => Some c
  | _ => None
  end.

Definition usage_fields (u : Tenant.usage_t) : list (string * Z) :=
  [("currentNoteCount", Tenant.currentNoteCount u);
   ("currentUserCount", Tenant.currentUserCount u);
   ("storageUsed", Tenant.storageUsed u)].

(** The principal [req.auth]. *)
Record auth_t := {
  userId : string;
  tenantId : string;
  tenantSlug : string;
  role : User.role_t;
  permissions : Perm.t;
  isAdmin : bool
}.

End Http.

(** ** User objects of the mock-aware revision

    In the revision with hardcoded development accounts a user is a plain
    object whose [tenantId] is either an embedded tenant object or, when no
    tenant document was found, the raw string stored in the user
    document. *)

Module TenantObj.

Record t := {
  _id : string;
  slug : string;
  name : string;
  plan : Tenant.plan_t;
  noteLimit : Z;
  isActive : bool;
  usage : list (string * Z)
}.

End TenantObj.

Module UserObj.

Inductive tenant_ref :=
| Embedded (o : TenantObj.t)
| Raw (s : string).

Record t := {
  _id : string;
  email : string;
  password : option string;
  tenantId : tenant_ref;
  role : User.role_t;
  fullName : string;
  profile : option User.profile_t;
  isActive : bool;
  permissions : Perm.t
}.

(** [{ ...user.toObject(), tenantId: { _id: user.tenantId, slug: ..., ... } }] *)
Definition of_document (u : User.t) (tn : Tenant.t) : t :=
  {| _id := User._id u; email := User.email u;
     password := Some (User.password u);
     tenantId :=
       Embedded {| TenantObj._id := User.tenantId u;
                   TenantObj.slug := Tenant.slug tn;
                   TenantObj.name := Tenant.name tn;
                   TenantObj.plan := Tenant.plan tn;
                   TenantObj.noteLimit := Tenant.noteLimit tn;
                   TenantObj.isActive := Tenant.isActive tn;
                   TenantObj.usage := Http.usage_fields (Tenant.usage tn) |};
     role := User.role u; fullName := User.fullName u;
     profile := Some (User.profile u);
     isActive := User.isActive u; permissions := User.permissions u |}.

(** The fields of a user document whose tenant was not found. *)
Definition of_unresolved (u : User.t) : t :=
  {| _id := User._id u; email := User.email u;
     password := Some (User.password u);
     tenantId := Raw (User.tenantId u);
     role := User.role u; fullName := User.fullName u;
     profile := Some (User.profile u);
     isActive := User.isActive u; permissions := User.permissions u |}.

(** [!user.tenantId || !user.tenantId.isActive]: a string has no
    [isActive] property. *)
Definition tenant_unusable (u : t) : bool :=
  match tenantId u with
  | Embedded o => negb (TenantObj.isActive o)
  | Raw _ => true
  end.

End UserObj.

(** The hardcoded development accounts. *)
Module Mock.

Definition hash : string :=
  "$2a$10$92IXUNpkjO0rOQ5byMi.Ye4oKoEa3Ro9llC/.og/at2.uheWG/igi".

Definition acme : TenantObj.t :=
  {| TenantObj._id := "mock-tenant-acme"; TenantObj.slug := "acme";
     TenantObj.name := "Acme Corporation"; TenantObj.plan := Tenant.free;
     TenantObj.noteLimit := 3; TenantObj.isActive := true;
     TenantObj.usage := [("currentNoteCount", 0)] |}.

Definition globex : TenantObj.t :=
  {| TenantObj._id := "mock-tenant-globex"; TenantObj.slug := "globex";
     TenantObj.name := "Globex Corporation"; TenantObj.plan := Tenant.pro;
     TenantObj.noteLimit := -1; TenantObj.isActive := true;
     TenantObj.usage := [("currentNoteCount", 0)] |}.

Definition member_permissions : Perm.t :=
  {| Perm.canCreateNotes := true; Perm.canEditNotes := true;
     Perm.canDeleteNotes := true; Perm.canShareNotes := true;
     Perm.canManageUsers := false; Perm.canManageTenant := false |}.

Definition account (id email : string) (pw : option string) (tn : TenantObj.t)
  (r : User.role_t) (full : string) (p : Perm.t) : UserObj.t :=
  {| UserObj._id := id; UserObj.email := email; UserObj.password := pw;
     UserObj.tenantId := UserObj.Embedded tn; UserObj.role := r;
     UserObj.fullName := full; UserObj.profile := None;
     UserObj.isActive := true; UserObj.permissions := p |}.

(** The four accounts; [pw] is the [password] field, present in the
    controller's table and absent from the middleware's. *)
Definition accounts (pw : option string) : list UserObj.t :=
  [account "mock-admin-acme" "admin@acme.test" pw acme User.admin
     "Admin User" Perm.all_true;
   account "mock-user-acme" "user@acme.test" pw acme User.member
     "Regular User" member_permissions;
   account "mock-admin-globex" "admin@globex.test" pw globex User.admin
     "Globex Admin" Perm.all_true;
   account "mock-user-globex" "user@globex.test" pw globex User.member
     "Globex Member" member_permissions].

End Mock.

(** ** The session resolver ([middleware/auth.js]) *)

Module AuthRequest.

(** The parts of a request read by [authenticate]: the [Authorization]
    header and the [authToken] cookie. *)
Record t := {
  authorization : option string;
  cookie_authToken : option string
}.

(** [!token] *)
Definition falsy (tk : option string) : bool :=
  match tk with
  | Some s => negb (Js.truthy_str s)
  | None => true
  end.

End AuthRequest.

(** The store-only revision. *)
Module AuthMiddleware.

Record context := {
  req_user : User.t;
  req_tenant : Tenant.t;
  req_auth : Http.auth_t
}.

Inductive result :=
| Respond (r : Http.response)
| Next (c : context).

Section WithEnvironment.

Variable cfg : Jwt.config.

(** Decoding of the compact serialisation carried by the header; [None]
    for a malformed string, on which [jwt.verify] throws. *)
Variable decodeCompact : string -> option Jwt.token.

(** Mongoose's cast of a value other than [null] to an [ObjectId], given
    as the hexadecimal string of the identifier; [None] when the cast
    throws a [CastError], as it does for a string that does not spell an
    [ObjectId]. *)
Variable castObjectId : Js.jval -> option string.

(** [verifyToken(token)] on the string taken from the request. *)
Definition verifyToken (now : Z) (s : string) : option Jwt.obj :=
  match decodeCompact s with
  | Some tk => Jwt.verifyToken cfg tk now
  | None => None
  end.

(** [User.findById(id)]: [None] when the query throws a [CastError],
    [Some None] when it resolves to [null].  An [undefined] identifier is
    queried as [null], which no document has as its [_id]. *)
Definition findById (st : Store.t) (id : option Js.jval)
  : option (option User.t) :=
  match id with
  | None | Some Js.JNull => Some None
  | Some v =>
      match castObjectId v with
      | Some s => Some (Store.findUserById st s)
      | None => None
      end
  end.

(** The answer of the [catch] that encloses the body of [authenticate]. *)
Definition service_error : Http.response :=
  Http.fail 500 "Authentication service error." "AUTH_SERVICE_ERROR".

(** [authenticate(req, res, next)] *)
Definition authenticate (st : Store.t) (now : Z) (req : AuthRequest.t) : result :=
  let authHeader := AuthRequest.authorization req in
  let token := Jwt.extractTokenFromHeader authHeader in
  if AuthRequest.falsy token then
    Respond (Http.fail 401 "Access denied. No token provided." "NO_TOKEN")
  else
    match verifyToken now (default "" token) with
    | None => Respond (Http.fail 401 "Invalid or expired token." "INVALID_TOKEN")
    | Some decoded =>
        if negb (Js.strict_eq_str (decoded !! "tokenType") "access") then
          Respond (Http.fail 401 "Invalid token type." "INVALID_TOKEN_TYPE")
        else
          match findById st (decoded !! "userId") with
          | None => Respond service_error
          | Some None => Respond (Http.fail 401 "User not found." "USER_NOT_FOUND")
          | Some (Some user) =>
              if negb (User.isActive user) then
                Respond (Http.fail 401 "User account is deactivated." "USER_INACTIVE")
              else
                match Store.findTenantById st (User.tenantId user) with
                | None =>
                    Respond (Http.fail 401 "Tenant account is inactive." "TENANT_INACTIVE")
                | Some tenant =>
                    if negb (Tenant.isActive tenant) then
                      Respond (Http.fail 401 "Tenant account is inactive." "TENANT_INACTIVE")
                    else if negb (Js.strict_eq_str (decoded !! "tenantId") (Tenant._id tenant))
                    then
                      Respond (Http.fail 401 "Token tenant mismatch." "TENANT_MISMATCH")
                    else
                      Next {| req_user := user;
                              req_tenant := tenant;
                              req_auth :=
                                {| Http.userId := User._id user;
                                   Http.tenantId := Tenant._id tenant;
                                   Http.tenantSlug := Tenant.slug tenant;
                                   Http.role := User.role user;
                                   Http.permissions := User.permissions user;
                                   Http.isAdmin := User.isAdmin user |} |}
                end
          end
    end.

End WithEnvironment.

End AuthMiddleware.

(** The revision with development accounts and the cookie channel. *)
Module AuthMiddleware2.

Record context := {
  req_user : UserObj.t;
  req_tenant : TenantObj.t;
  req_auth : Http.auth_t
}.

Inductive result :=
| Respond (r : Http.response)
| Next (c : context).

Section WithEnvironment.

Variable cfg : Jwt.config.
Variable decodeCompact : string -> option Jwt.token.
Variable castObjectId : Js.jval -> option string.

(** [mongoose.connection.readyState === 1] *)
Variable dbConnected : bool.

(** The table [mockUsers] of the middleware, keyed by user id.  An object
    literal is modelled as the finite map of its own keys: the identifiers
    found in tokens are never names inherited from [Object.prototype]. *)
Definition mockUsers : gmap string UserObj.t :=
  list_to_map (map (fun u => (UserObj._id u, u)) (Mock.accounts None)).

(** [mockUsers[decoded.userId]] *)
Definition mockUser (id : option Js.jval) : option UserObj.t :=
  match id with
  | Some (Js.JStr s) => mockUsers !! s
  | _ => None
  end.

(** The user object of a request: a development account, else the stored
    user with its tenant embedded when a tenant with that slug exists.
    [None] when the query of the stored user throws. *)
Definition loadUser (st : Store.t) (id : option Js.jval)
  : option (option UserObj.t) :=
  match mockUser id with
  | Some m => Some (Some m)
  | None =>
      if dbConnected then
        match AuthMiddleware.findById castObjectId st id with
        | None => None
        | Some None => Some None
        | Some (Some u) =>
            match Store.findTenantBySlug st (User.tenantId u) with
            | Some tn => Some (Some (UserObj.of_document u tn))
            | None => Some (Some (UserObj.of_unresolved u))
            end
        end
      else Some None
  end.

(** [authenticate(req, res, next)] *)
Definition authenticate (st : Store.t) (now : Z) (req : AuthRequest.t) : result :=
  let authHeader := AuthRequest.authorization req in
  let token := Jwt.extractTokenFromHeader authHeader in
  let token :=
    if AuthRequest.falsy token
       && negb (AuthRequest.falsy (AuthRequest.cookie_authToken req))
    then AuthRequest.cookie_authToken req
    else token in
  if AuthRequest.falsy token then
    Respond (Http.fail 401 "Access denied. No token provided." "NO_TOKEN")
  else
    match AuthMiddleware.verifyToken cfg decodeCompact now (default "" token) with
    | None => Respond (Http.fail 401 "Invalid or expired token." "INVALID_TOKEN")
    | Some decoded =>
        if negb (Js.strict_eq_str (decoded !! "tokenType") "access") then
          Respond (Http.fail 401 "Invalid token type." "INVALID_TOKEN_TYPE")
        else
          match loadUser st (decoded !! "userId") with
          | None => Respond AuthMiddleware.service_error
          | Some None => Respond (Http.fail 401 "User not found." "USER_NOT_FOUND")
          | Some (Some user) =>
              if negb (UserObj.isActive user) then
                Respond (Http.fail 401 "User account is deactivated." "USER_INACTIVE")
              else
                match UserObj.tenantId user with
                | UserObj.Raw _ =>
                    Respond (Http.fail 401 "Tenant account is inactive." "TENANT_INACTIVE")
                | UserObj.Embedded tenant =>
                    if negb (TenantObj.isActive tenant) then
                      Respond (Http.fail 401 "Tenant account is inactive." "TENANT_INACTIVE")
                    else if negb (Js.strict_eq_str (decoded !! "tenantId")
                                    (TenantObj._id tenant))
                    then
                      Respond (Http.fail 401 "Token tenant mismatch." "TENANT_MISMATCH")
                    else
                      Next {| req_user := user;
                              req_tenant := tenant;
                              req_auth :=
                                {| Http.userId := UserObj._id user;
                                   Http.tenantId := TenantObj._id tenant;
                                   Http.tenantSlug := TenantObj.slug tenant;
                                   Http.role := UserObj.role user;
                                   Http.permissions := UserObj.permissions user;
                                   Http.isAdmin :=
                                     match UserObj.role user with
                                     | User.admin => true
                                     | User.member => false
                                     end |} |}
                end
          end
    end.

End WithEnvironment.

End AuthMiddleware2.

(** ** The authentication controller ([controllers/authController.js]) *)

Module AuthBody.

Record credentials := {
  email : string;
  password : string
}.

Record registration := {
  r_email : string;
  r_password : string;
  r_tenantName : string;
  r_firstName : option string;
  r_lastName : option string
}.

End AuthBody.

(** The store-only revision. *)
Module AuthController.

Definition invalid_credentials : Http.response :=
  Http.fail 401 "Invalid email or password" "INVALID_CREDENTIALS".

Definition tenant_inactive : Http.response :=
  Http.fail 403 "Organization account is inactive" "TENANT_INACTIVE".

Definition user_view (u : User.t) : Http.user_view :=
  {| Http.uv_id := User._id u; Http.uv_email := User.email u;
     Http.uv_role := User.role u; Http.uv_fullName := User.fullName u;
     Http.uv_profile := Some (User.profile u);
     Http.uv_permissions := User.permissions u;
     Http.uv_isAdmin := User.isAdmin u |}.

Definition tenant_view (t : Tenant.t) : Http.tenant_view :=
  {| Http.tv_id := Tenant._id t; Http.tv_slug := Tenant.slug t;
     Http.tv_name := Tenant.name t; Http.tv_plan := Tenant.plan t;
     Http.tv_noteLimit := Tenant.noteLimit t;
     Http.tv_hasUnlimitedNotes := Tenant.hasUnlimitedNotes t;
     Http.tv_remainingNotes := Js.JNum (Tenant.remainingNotes t);
     Http.tv_canCreateNotes := Tenant.canCreateNotes t;
     Http.tv_usage := Http.usage_fields (Tenant.usage t) |}.

Definition session (s : Z) (message : string) (cfg : Jwt.config) (now : Z)
  (uuid : string) (u : User.t) (t : Tenant.t) : Http.response :=
  let tokenPayload :=
    Jwt.tokenPayload (User._id u) (User.email u) (Tenant._id t) (Tenant.slug t)
      (User.role u) (User.permissions u) in
  {| Http.status := s;
     Http.json :=
       Http.Session message (user_view u) (tenant_view t)
         {| Http.accessToken := Jwt.generateToken cfg tokenPayload now;
            Http.refreshToken := Jwt.generateRefreshToken cfg tokenPayload uuid now;
            Http.expiresIn := "7d" |};
     Http.cookies := None |}.

(** The slug derived from the organisation name:
    [.toLowerCase().replace(/[^a-z0-9\s-]/g, '').replace(/\s+/g, '-')
     .replace(/-+/g, '-').trim()] *)
Definition slug_char (c : ascii) : bool :=
  Js.is_lower c || Js.is_digit c || Js.is_space c || Js.is_hyphen c.

Definition tenantSlug (tenantName : string) : string :=
  Js.trim
    (Js.replace_runs Js.is_hyphen
       (Js.replace_runs Js.is_space
          (Js.remove_outside slug_char (Js.toLowerCase tenantName)))).

Section WithEnvironment.

Variable cfg : Jwt.config.

(** [bcrypt.compare] and [bcrypt.hash] with a fresh salt of cost 12. *)
Variable bcrypt_compare : string -> string -> bool.
Variable bcrypt_hash : string -> string.

Variable castObjectId : Js.jval -> option string.

(** The call [verifyToken(token)] in [refreshToken]; [None] when it
    throws.  The file is an ES module that imports [generateToken] and
    [generateRefreshToken] from [utils/jwt.js] and no other name of it, and
    declares no [verifyToken] of its own: evaluating the identifier throws
    a [ReferenceError], whatever the argument. *)
Definition verifyToken_call (token : string) : option Jwt.obj := None.

(** [login(req, res)]; [uuid] is the identifier drawn for the refresh
    token. *)
Definition login (st : Store.t) (now : Z) (uuid : string)
  (body : AuthBody.credentials) : Http.response * Store.t :=
  match Store.findActiveUserByEmail st (Js.toLowerCase (AuthBody.email body)) with
  | None => (invalid_credentials, st)
  | Some user =>
      if User.isLocked now user then
        ({| Http.status := 423;
            Http.json :=
              Http.Locked
                "Account is temporarily locked due to too many failed login attempts"
                "ACCOUNT_LOCKED" (User.lockUntil (User.security user));
            Http.cookies := None |}, st)
      else if negb (User.comparePassword bcrypt_compare user (AuthBody.password body))
      then
        (invalid_credentials,
         Store.updateUser st (User._id user) (User.incLoginAttempts_update now user))
      else
        match Store.findTenantById st (User.tenantId user) with
        | None => (tenant_inactive, st)
        | Some tenant =>
            if negb (Tenant.isActive tenant) then (tenant_inactive, st)
            else
              let st := Store.updateUser st (User._id user)
                          (User.resetLoginAttempts_update now) in
              (session 200 "Login successful" cfg now uuid user tenant, st)
        end
  end.

Definition registration_error : Http.response :=
  Http.fail 500 "Registration service error" "REGISTRATION_SERVICE_ERROR".

(** [new Tenant({ slug, name, plan: 'free', noteLimit: 3, isActive: true })]
    with the schema's setters and defaults. *)
Definition newTenant (id : string) (now : Z) (slug name : string) : Tenant.t :=
  {| Tenant._id := id;
     Tenant.slug := Js.trim (Js.toLowerCase slug);
     Tenant.name := Js.trim name;
     Tenant.plan := Tenant.free;
     Tenant.noteLimit := 3;
     Tenant.subscription :=
       {| Tenant.status := Tenant.active; Tenant.startDate := now;
          Tenant.endDate := None |};
     Tenant.usage :=
       {| Tenant.currentNoteCount := 0; Tenant.currentUserCount := 0;
          Tenant.storageUsed := 0 |};
     Tenant.isActive := true;
     Tenant.updatedAt := now |}.

(** [new User({ email, password, tenantId, role: 'admin', profile,
    permissions: all true, isActive: true })] *)
Definition newUser (id : string) (body : AuthBody.registration) (tenant : Tenant.t)
  : User.t :=
  {| User._id := id;
     User.email := Js.trim (Js.toLowerCase (Js.toLowerCase (AuthBody.r_email body)));
     User.password := AuthBody.r_password body;
     User.tenantId := Tenant._id tenant;
     User.role := User.admin;
     User.profile :=
       {| User.firstName := Js.trim (default "" (AuthBody.r_firstName body));
          User.lastName := Js.trim (default "" (AuthBody.r_lastName body)) |};
     User.security :=
       {| User.lastLogin := None; User.loginAttempts := 0;
          User.lockUntil := None |};
     User.permissions := Perm.all_true;
     User.isActive := true |}.

(** [register(req, res)]; [tenantOid] and [userOid] are the identifiers
    given to the two new documents. *)
Definition register (st : Store.t) (now : Z) (tenantOid userOid uuid : string)
  (body : AuthBody.registration) : Http.response * Store.t :=
  match Store.findUserByEmail st (Js.toLowerCase (AuthBody.r_email body)) with
  | Some _ =>
      (Http.fail 409 "User with this email already exists" "USER_EXISTS", st)
  | None =>
      let slug := tenantSlug (AuthBody.r_tenantName body) in
      match Store.findTenantBySlug st slug with
      | Some _ =>
          (Http.fail 409 "Organization name already taken" "TENANT_EXISTS", st)
      | None =>
          let tenant := newTenant tenantOid now slug (AuthBody.r_tenantName body) in
          if negb (Schema.validateTenant tenant) then (registration_error, st)
          else
            let tenant := Tenant.preSave now true tenant in
            let st := Store.insertTenant st tenant in
            let user := newUser userOid body tenant in
            if negb (Schema.validateUser user) then (registration_error, st)
            else
              let user := User.preSave bcrypt_hash true true user in
              let st := Store.insertUser st user in
              let tenant := Tenant.incrementUsage_fields Tenant.users 1 tenant in
              if negb (Schema.validateTenant tenant) then (registration_error, st)
              else
                let tenant := Tenant.preSave now false tenant in
                let st := Store.replaceTenant st tenant in
                (session 201 "Registration successful" cfg now uuid user tenant, st)
      end
  end.

(** [refreshToken(req, res)] *)
Definition refreshToken (st : Store.t) (now : Z) (token : option string)
  : Http.response :=
  if AuthRequest.falsy token then
    Http.fail 401 "Refresh token required" "REFRESH_TOKEN_REQUIRED"
  else
    match verifyToken_call (default "" token) with
    | None => Http.fail 401 "Invalid refresh token" "INVALID_REFRESH_TOKEN"
    | Some decoded =>
        if negb (Js.strict_eq_str (decoded !! "tokenType") "refresh") then
          Http.fail 401 "Invalid token type" "INVALID_TOKEN_TYPE"
        else
          let invalid := Http.fail 401 "Invalid user or tenant" "INVALID_USER_TENANT" in
          match AuthMiddleware.findById castObjectId st (decoded !! "userId") with
          | None =>
              Http.fail 500 "Token refresh service error" "TOKEN_REFRESH_SERVICE_ERROR"
          | Some None => invalid
          | Some (Some user) =>
              if negb (User.isActive user) then invalid
              else
                match Store.findTenantById st (User.tenantId user) with
                | None => invalid
                | Some tenant =>
                    if negb (Tenant.isActive tenant) then invalid
                    else
                      {| Http.status := 200;
                         Http.json :=
                           Http.Refreshed
                             (Jwt.generateToken cfg
                                (Jwt.tokenPayload (User._id user) (User.email user)
                                   (Tenant._id tenant) (Tenant.slug tenant)
                                   (User.role user) (User.permissions user)) now)
                             "7d";
                         Http.cookies := None |}
                end
          end
    end.

End WithEnvironment.

End AuthController.

(** The revision with development accounts. *)
Module AuthController2.

(** The table [mockUsers] of the controller, keyed by e-mail address.  An
    object literal is modelled as the finite map of its own keys: an
    address that passed the request's e-mail check is never a name
    inherited from [Object.prototype]. *)
Definition mockUsers : gmap string UserObj.t :=
  list_to_map (map (fun u => (UserObj.email u, u)) (Mock.accounts (Some Mock.hash))).

Definition login_error : Http.response :=
  Http.fail 500 "Login service error" "LOGIN_SERVICE_ERROR".

Definition invalid_refresh : Http.response :=
  Http.fail 401 "Invalid refresh token" "INVALID_REFRESH_TOKEN".

Section WithEnvironment.

Variable cfg : Jwt.config.
Variable bcrypt_compare : string -> string -> bool.

(** [mongoose.connection.readyState === 1] *)
Variable dbConnected : bool.

Variable castObjectId : Js.jval -> option string.

(** The call [jwt.verify(refreshToken, process.env.JWT_REFRESH_SECRET)] in
    [refreshToken]; [None] when it throws.  The file is an ES module that
    neither imports nor declares the name [jwt]: evaluating the identifier
    throws a [ReferenceError], whatever the arguments. *)
Definition jwt_verify_call (token : string) : option Jwt.obj := None.

(** The part of [login] after a user object has been chosen: the tenant
    check, the tokens, the cookies and the response. *)
Definition login_finish (st : Store.t) (now : Z) (uuid : string) (user : UserObj.t)
  : Http.response * Store.t :=
  match UserObj.tenantId user with
  | UserObj.Raw _ => (AuthController.tenant_inactive, st)
  | UserObj.Embedded tenant =>
      if negb (TenantObj.isActive tenant) then (AuthController.tenant_inactive, st)
      else
        let tokenPayload :=
          Jwt.tokenPayload (UserObj._id user) (UserObj.email user)
            (TenantObj._id tenant) (TenantObj.slug tenant)
            (UserObj.role user) (UserObj.permissions user) in
        let accessToken := Jwt.generateToken cfg tokenPayload now in
        let refreshToken := Jwt.generateRefreshToken cfg tokenPayload uuid now in
        let unlimited := TenantObj.noteLimit tenant =? -1 in
        ({| Http.status := 200;
            Http.json :=
              Http.Session "Login successful"
                {| Http.uv_id := UserObj._id user;
                   Http.uv_email := UserObj.email user;
                   Http.uv_role := UserObj.role user;
                   Http.uv_fullName := UserObj.fullName user;
                   Http.uv_profile := UserObj.profile user;
                   Http.uv_permissions := UserObj.permissions user;
                   Http.uv_isAdmin :=
                     match UserObj.role user with
                     | User.admin => true
                     | User.member => false
                     end |}
                {| Http.tv_id := TenantObj._id tenant;
                   Http.tv_slug := TenantObj.slug tenant;
                   Http.tv_name := TenantObj.name tenant;
                   Http.tv_plan := TenantObj.plan tenant;
                   Http.tv_noteLimit := TenantObj.noteLimit tenant;
                   Http.tv_hasUnlimitedNotes := unlimited;
                   Http.tv_remainingNotes :=
                     if unlimited then Js.JStr "Unlimited"
                     else Js.JNum (TenantObj.noteLimit tenant);
                   Http.tv_canCreateNotes := true;
                   Http.tv_usage := TenantObj.usage tenant |}
                {| Http.accessToken := accessToken;
                   Http.refreshToken := refreshToken;
                   Http.expiresIn := "7d" |};
            Http.cookies :=
              Some {| Http.c_authToken := accessToken;
                      Http.c_refreshToken := refreshToken;
                      Http.c_tenantSlug := TenantObj.slug tenant;
                      Http.c_userEmail := UserObj.email user;
                      Http.c_userRole := UserObj.role user |} |}, st)
  end.

(** [login(req, res)].  A stored user whose tenant is found is replaced
    by a plain object, which has the [isLocked] property but none of the
    document's methods: calling [user.comparePassword] on it throws, and
    the handler answers from its [catch]. *)
Definition login (st : Store.t) (now : Z) (uuid : string)
  (body : AuthBody.credentials) : Http.response * Store.t :=
  let lowerEmail := Js.toLowerCase (AuthBody.email body) in
  match mockUsers !! lowerEmail with
  | Some mock =>
      if negb (bcrypt_compare (AuthBody.password body)
                 (default "" (UserObj.password mock)))
      then (AuthController.invalid_credentials, st)
      else login_finish st now uuid mock
  | None =>
      if dbConnected then
        match Store.findActiveUserByEmail st lowerEmail with
        | None => (AuthController.invalid_credentials, st)
        | Some user =>
            let tenant := Store.findTenantBySlug st (User.tenantId user) in
            if User.isLocked now user then
              ({| Http.status := 423;
                  Http.json :=
                    Http.Locked
                      "Account is temporarily locked due to too many failed login attempts"
                      "ACCOUNT_LOCKED" (User.lockUntil (User.security user));
                  Http.cookies := None |}, st)
            else
              match tenant with
              | Some _ => (login_error, st)
              | None =>
                  if negb (User.comparePassword bcrypt_compare user
                             (AuthBody.password body))
                  then
                    (AuthController.invalid_credentials,
                     Store.updateUser st (User._id user)
                       (User.incLoginAttempts_update now user))
                  else
                    let st := Store.updateUser st (User._id user)
                                (User.resetLoginAttempts_update now) in
                    login_finish st now uuid (UserObj.of_unresolved user)
              end
        end
      else (AuthController.invalid_credentials, st)
  end.

(** [refreshToken(req, res)].  Every exception, including the one raised
    by reading [user.tenantId._id] of a user without tenant, ends in the
    handler's [catch]. *)
Definition refreshToken (st : Store.t) (now : Z) (token : option string)
  : Http.response :=
  if AuthRequest.falsy token then
    Http.fail 401 "Refresh token is required" "REFRESH_TOKEN_REQUIRED"
  else
    match jwt_verify_call (default "" token) with
    | None => invalid_refresh
    | Some decoded =>
        match AuthMiddleware.findById castObjectId st (decoded !! "userId") with
        | None => invalid_refresh
        | Some None => invalid_refresh
        | Some (Some user) =>
            if negb (User.isActive user) then invalid_refresh
            else
              match Store.findTenantById st (User.tenantId user) with
              | None => invalid_refresh
              | Some tenant =>
                  {| Http.status := 200;
                     Http.json :=
                       Http.Refreshed
                         (Jwt.generateToken cfg
                            (Jwt.tokenPayload (User._id user) (User.email user)
                               (Tenant._id tenant) (Tenant.slug tenant)
                               (User.role user) (User.permissions user)) now)
                         "7d";
                     Http.cookies := None |}
              end
        end
    end.

End WithEnvironment.

End AuthController2.

(** ** The tenant controller ([controllers/tenantController.js]) *)

Module TenantController.

(** [Tenant.findOne({ slug, _id: tenantId })] *)
Definition findOwnTenant (st : Store.t) (slug tenantId : string) : option Tenant.t :=
  List.find
    (fun t => String.eqb (Tenant.slug t) slug && String.eqb (Tenant._id t) tenantId)
    (Store.tenants st).

(** The assignments of [upgradeTenant] before its [save]. *)
Definition upgraded (now : Z) (t : Tenant.t) : Tenant.t :=
  {| Tenant._id := Tenant._id t; Tenant.slug := Tenant.slug t;
     Tenant.name := Tenant.name t;
     Tenant.plan := Tenant.pro;
     Tenant.noteLimit := -1;
     Tenant.subscription :=
       {| Tenant.status := Tenant.active;
          Tenant.startDate := now;
          Tenant.endDate := Some (now + 365 * 24 * 60 * 60 * 1000) |};
     Tenant.usage := Tenant.usage t;
     Tenant.isActive := Tenant.isActive t;
     Tenant.updatedAt := Tenant.updatedAt t |}.

(** [upgradeTenant(req, res)] for the route parameter [slug] and the
    principal [auth]. *)
Definition upgradeTenant (st : Store.t) (now : Z) (slug : string)
  (auth : Http.auth_t) : Http.response * Store.t :=
  if negb (Http.isAdmin auth) then
    (Http.fail 403 "Only administrators can upgrade subscriptions" "ADMIN_REQUIRED", st)
  else
    match findOwnTenant st slug (Http.tenantId auth) with
    | None => (Http.fail 404 "Tenant not found or access denied" "TENANT_NOT_FOUND", st)
    | Some tenant =>
        match Tenant.plan tenant with
        | Tenant.pro =>
            (Http.fail 400 "Tenant is already on Pro plan" "ALREADY_PRO", st)
        | Tenant.free =>
            match Schema.saveTenant now true (upgraded now tenant) with
            | None =>
                (Http.fail 500 "Tenant upgrade service error"
                   "TENANT_UPGRADE_SERVICE_ERROR", st)
            | Some tenant =>
                ({| Http.status := 200;
                    Http.json :=
                      Http.Upgraded "Successfully upgraded to Pro plan"
                        (AuthController.tenant_view tenant)
                        (Tenant.subscription tenant);
                    Http.cookies := None |},
                 Store.replaceTenant st tenant)
            end
        end
    end.

End TenantController.

(** ** The expiry helper of [utils/jwt.js] *)

Module JwtUtil.

(** [isTokenExpired(exp)]: [Date.now() >= exp * 1000], for an [exp] claim
    in seconds. *)
Definition isTokenExpired (now exp : Z) : bool := exp * 1000 <=? now.

End JwtUtil.

(** ** The usage counters of the Tenant model *)

Module TenantMethods.

(** The field update of [decrementUsage], before its [save]. *)
Definition decrementUsage_fields (type : Tenant.usage_kind) (amount : Z)
  (this : Tenant.t) : Tenant.t :=
  let u := Tenant.usage this in
  match type with
  | Tenant.notes =>
      Tenant.set_usage
        {| Tenant.currentNoteCount := Z.max 0 (Tenant.currentNoteCount u - amount);
           Tenant.currentUserCount := Tenant.currentUserCount u;
           Tenant.storageUsed := Tenant.storageUsed u |} this
  | Tenant.users =>
      Tenant.set_usage
        {| Tenant.currentNoteCount := Tenant.currentNoteCount u;
           Tenant.currentUserCount := Z.max 0 (Tenant.currentUserCount u - amount);
           Tenant.storageUsed := Tenant.storageUsed u |} this
  | Tenant.storage =>
      Tenant.set_usage
        {| Tenant.currentNoteCount := Tenant.currentNoteCount u;
           Tenant.currentUserCount := Tenant.currentUserCount u;
           Tenant.storageUsed := Z.max 0 (Tenant.storageUsed u - amount) |} this
  end.

(** [tenant.incrementUsage(type, amount)]: the field update, then
    [this.save()].  [None] when the save throws. *)
Definition incrementUsage (now : Z) (type : Tenant.usage_kind) (amount : Z)
  (this : Tenant.t) : option Tenant.t :=
  Schema.saveTenant now false (Tenant.incrementUsage_fields type amount this).

(** [tenant.decrementUsage(type, amount)] *)
Definition decrementUsage (now : Z) (type : Tenant.usage_kind) (amount : Z)
  (this : Tenant.t) : option Tenant.t :=
  Schema.saveTenant now false (decrementUsage_fields type amount this).

(** The counter that [type] names. *)
Definition counter (type : Tenant.usage_kind) (this : Tenant.t) : Z :=
  match type with
  | Tenant.notes => Tenant.currentNoteCount (Tenant.usage this)
  | Tenant.users => Tenant.currentUserCount (Tenant.usage this)
  | Tenant.storage => Tenant.storageUsed (Tenant.usage this)
  end.

End TenantMethods.

(** ** Permission checks of the User model *)

Module Permission.

(** The six flags of [userSchema.permissions]. *)
Inductive name :=
| canCreateNotes | canEditNotes | canDeleteNotes
| canShareNotes | canManageUsers | canManageTenant.

(** [permissions[permission]] *)
Definition get (n : name) (p : Perm.t) : bool :=
  match n with
  | canCreateNotes => Perm.canCreateNotes p
  | canEditNotes => Perm.canEditNotes p
  | canDeleteNotes => Perm.canDeleteNotes p
  | canShareNotes => Perm.canShareNotes p
  | canManageUsers => Perm.canManageUsers p
  | canManageTenant => Perm.canManageTenant p
  end.

(** [userSchema.methods.hasPermission] *)
Definition hasPermission (this : User.t) (permission : name) : bool :=
  if negb (User.isActive this) then false
  else
    match User.role this with
    | User.admin => true
    | User.member => get permission (User.permissions this)
    end.

End Permission.

(** ** Authorization middleware ([middleware/auth.js])

    The functions below are the same text in both revisions of the
    file. *)

Module Authorization.

(** The bodies these middlewares answer with. *)
Inductive denial :=
| AuthRequired
| InsufficientPermissions (required : list string) (current : string)
| PermissionDenied (required : Permission.name)
| TenantContextRequired.

Definition status (d : denial) : Z :=
  match d with
  | AuthRequired => 401
  | InsufficientPermissions _ _ => 403
  | PermissionDenied _ => 403
  | TenantContextRequired => 401
  end.

Definition code (d : denial) : string :=
  match d with
  | AuthRequired => "AUTH_REQUIRED"
  | InsufficientPermissions _ _ => "INSUFFICIENT_PERMISSIONS"
  | PermissionDenied _ => "PERMISSION_DENIED"
  | TenantContextRequired => "TENANT_CONTEXT_REQUIRED"
  end.

(** A middleware either answers or calls [next()]. *)
Inductive verdict :=
| Deny (d : denial)
| Pass.

(** The argument of [authorize]: one role or an array of roles. *)
Inductive roles_arg :=
| One (r : string)
| Many (l : list string).

(** [Array.isArray(roles) ? roles : [roles]] *)
Definition allowedRoles (roles : roles_arg) : list string :=
  match roles with
  | One r => [r]
  | Many l => l
  end.

(** [authorize(roles)(req, res, next)]; [auth] is [req.auth]. *)
Definition authorize (roles : roles_arg) (auth : option Http.auth_t) : verdict :=
  match auth with
  | None => Deny AuthRequired
  | Some a =>
      let allowed := allowedRoles roles in
      let current := User.role_name (Http.role a) in
      if (0 <? Z.of_nat (List.length allowed))
         && negb (existsb (String.eqb current) allowed)
      then Deny (InsufficientPermissions allowed current)
      else Pass
  end.

(** [requirePermission(permission)(req, res, next)]; [permissions] is
    [req.user.permissions], set together with [req.auth]. *)
Definition requirePermission (permission : Permission.name)
  (auth : option Http.auth_t) (permissions : Perm.t) : verdict :=
  match auth with
  | None => Deny AuthRequired
  | Some a =>
      if Http.isAdmin a then Pass
      else if negb (Permission.get permission permissions)
      then Deny (PermissionDenied permission)
      else Pass
  end.

(** [ensureTenantIsolation(req, res, next)] *)
Definition ensureTenantIsolation (auth : option Http.auth_t) : verdict :=
  match auth with
  | None => Deny TenantContextRequired
  | Some a =>
      if negb (Js.truthy_str (Http.tenantId a)) then Deny TenantContextRequired
      else Pass
  end.

(** What a chain of middlewares ends with: the answer of the resolver,
    the answer of a later middleware, or the context handed on. *)
Inductive chain_result :=
| Rejected (r : Http.response)
| Denied (d : denial)
| Granted (c : AuthMiddleware.context).

(** The chain [[authenticate, m]] of the store-only revision. *)
Definition after_authenticate (m : option Http.auth_t -> verdict)
  (r : AuthMiddleware.result) : chain_result :=
  match r with
  | AuthMiddleware.Respond resp => Rejected resp
  | AuthMiddleware.Next c =>
      match m (Some (AuthMiddleware.req_auth c)) with
      | Deny d => Denied d
      | Pass => Granted c
      end
  end.

Section WithEnvironment.

Variable cfg : Jwt.config.
Variable decodeCompact : string -> option Jwt.token.
Variable castObjectId : Js.jval -> option string.

(** [adminOnly] *)
Definition adminOnly (st : Store.t) (now : Z) (req : AuthRequest.t) : chain_result :=
  after_authenticate (authorize (Many ["admin"]))
    (AuthMiddleware.authenticate cfg decodeCompact castObjectId st now req).

(** [memberOrAdmin] *)
Definition memberOrAdmin (st : Store.t) (now : Z) (req : AuthRequest.t)
  : chain_result :=
  after_authenticate (authorize (Many ["admin"; "member"]))
    (AuthMiddleware.authenticate cfg decodeCompact castObjectId st now req).

(** [authenticated] *)
Definition authenticated (st : Store.t) (now : Z) (req : AuthRequest.t)
  : chain_result :=
  after_authenticate ensureTenantIsolation
    (AuthMiddleware.authenticate cfg decodeCompact castObjectId st now req).

End WithEnvironment.

End Authorization.

(** ** The Note model *)

Module Note.

Inductive status_t := draft | published | archived.

Inductive visibility_t := private | shared | public.

Record metadata_t := {
  wordCount : Z;
  characterCount : Z;
  readingTime : Z
}.

Record sharing_t := {
  isShared : bool;
  shareToken : option string
}.

Record version_t := {
  v_content : string;
  v_title : string;
  v_createdBy : string;
  v_changeDescription : string
}.

(** The paths of [noteSchema] that the model's hooks and methods and the
    handlers of the notes controller read or write. *)
Record t := {
  _id : string;
  title : string;
  content : string;
  tenantId : string;
  userId : string;
  metadata : metadata_t;
  tags : list string;
  category : option string;
  status : status_t;
  visibility : visibility_t;
  sharing : sharing_t;
  versions : list version_t;
  isDeleted : bool;
  deletedAt : option Z;
  deletedBy : option string;
  isPinned : bool;
  isFavorite : bool;
  createdAt : Z;
  updatedAt : Z
}.

Definition set_updatedAt (now : Z) (this : t) : t :=
  {| _id := _id this; title := title this; content := content this;
     tenantId := tenantId this; userId := userId this;
     metadata := metadata this; tags := tags this; category := category this;
     status := status this; visibility := visibility this;
     sharing := sharing this; versions := versions this;
     isDeleted := isDeleted this; deletedAt := deletedAt this;
     deletedBy := deletedBy this; isPinned := isPinned this;
     isFavorite := isFavorite this; createdAt := createdAt this;
     updatedAt := now |}.

Definition set_metadata (m : metadata_t) (this : t) : t :=
  {| _id := _id this; title := title this; content := content this;
     tenantId := tenantId this; userId := userId this;
     metadata := m; tags := tags this; category := category this;
     status := status this; visibility := visibility this;
     sharing := sharing this; versions := versions this;
     isDeleted := isDeleted this; deletedAt := deletedAt this;
     deletedBy := deletedBy this; isPinned := isPinned this;
     isFavorite := isFavorite this; createdAt := createdAt this;
     updatedAt := updatedAt this |}.

Definition set_tags (l : list string) (this : t) : t :=
  {| _id := _id this; title := title this; content := content this;
     tenantId := tenantId this; userId := userId this;
     metadata := metadata this; tags := l; category := category this;
     status := status this; visibility := visibility this;
     sharing := sharing this; versions := versions this;
     isDeleted := isDeleted this; deletedAt := deletedAt this;
     deletedBy := deletedBy this; isPinned := isPinned this;
     isFavorite := isFavorite this; createdAt := createdAt this;
     updatedAt := updatedAt this |}.

Definition set_sharing (s : sharing_t) (this : t) : t :=
  {| _id := _id this; title := title this; content := content this;
     tenantId := tenantId this; userId := userId this;
     metadata := metadata this; tags := tags this; category := category this;
     status := status this; visibility := visibility this;
     sharing := s; versions := versions this;
     isDeleted := isDeleted this; deletedAt := deletedAt this;
     deletedBy := deletedBy this; isPinned := isPinned this;
     isFavorite := isFavorite this; createdAt := createdAt this;
     updatedAt := updatedAt this |}.

Definition set_versions (l : list version_t) (this : t) : t :=
  {| _id := _id this; title := title this; content := content this;
     tenantId := tenantId this; userId := userId this;
     metadata := metadata this; tags := tags this; category := category this;
     status := status this; visibility := visibility this;
     sharing := sharing this; versions := l;
     isDeleted := isDeleted this; deletedAt := deletedAt this;
     deletedBy := deletedBy this; isPinned := isPinned this;
     isFavorite := isFavorite this; createdAt := createdAt this;
     updatedAt := updatedAt this |}.

Definition set_deleted (d : bool) (at_ : option Z) (by_ : option string) (this : t)
  : t :=
  {| _id := _id this; title := title this; content := content this;
     tenantId := tenantId this; userId := userId this;
     metadata := metadata this; tags := tags this; category := category this;
     status := status this; visibility := visibility this;
     sharing := sharing this; versions := versions this;
     isDeleted := d; deletedAt := at_;
     deletedBy := by_; isPinned := isPinned this;
     isFavorite := isFavorite this; createdAt := createdAt this;
     updatedAt := updatedAt this |}.

(** The class [[#*`_~\[\]]]. *)
Definition is_markdown (c : ascii) : bool :=
  existsb (Ascii.eqb c) (list_ascii_of_string "#*`_~[]").

(** The line feed. *)
Definition is_newline (c : ascii) : bool := (nat_of_ascii c =? 10)%nat.

(** [s.replace(/X+/g, ' ')] for a character class [X] given by [p]. *)
Fixpoint blank_runs_from (p : ascii -> bool) (in_run : bool) (s : string) : string :=
  match s with
  | EmptyString => EmptyString
  | String c r =>
      if p c
      then (if in_run then blank_runs_from p true r
            else String " "%char (blank_runs_from p true r))
      else String c (blank_runs_from p false r)
  end.

(** [noteSchema.virtual('excerpt')] *)
Definition excerpt (this : t) : string :=
  if negb (Js.truthy_str (content this)) then ""
  else
    let plainText :=
      Js.trim
        (blank_runs_from is_newline false
           (Js.remove_outside (fun c => negb (is_markdown c)) (content this))) in
    if 150 <? Schema.len plainText
    then String.substring 0 150 plainText ++ "..."
    else plainText.

(** [Math.ceil(a / b)] for integers [a] and a positive integer [b]. *)
Definition ceil_div (a b : Z) : Z := - ((- a) / b).

(** [noteSchema.virtual('estimatedReadingTime')] *)
Definition estimatedReadingTime (this : t) : Z :=
  ceil_div (wordCount (metadata this)) 200.

(** [content.split(/\s+/).filter(word => word.length > 0).length]: the
    number of maximal runs of characters outside [\s]. *)
Fixpoint count_words (in_word : bool) (s : string) : Z :=
  match s with
  | EmptyString => 0
  | String c r =>
      if Js.is_space c then count_words false r
      else (if in_word then 0 else 1) + count_words true r
  end.

(** [list.slice(-n)] *)
Definition last_n {A} (n : nat) (l : list A) : list A :=
  skipn (List.length l - n) l.

(** [noteSchema.pre('save', ...)].  [contentModified] is
    [this.isModified('content')]; [generateShareToken] is the outcome of
    [this.generateShareToken()], [None] when the call throws.  The result
    is [None] when the hook throws. *)
Definition preSave (now : Z) (contentModified : bool)
  (generateShareToken : option string) (this : t) : option t :=
  let this := set_updatedAt now this in
  let this :=
    if contentModified then
      let words := count_words false (content this) in
      set_metadata
        {| wordCount := words;
           characterCount := Schema.len (content this);
           readingTime := ceil_div words 200 |} this
    else this in
  let this :=
    if (10 <? List.length (tags this))%nat
    then set_tags (firstn 10 (tags this)) this
    else this in
  let token :=
    if isShared (sharing this)
       && negb (Js.truthy_str (default "" (shareToken (sharing this))))
    then
      match generateShareToken with
      | Some tk => Some (set_sharing {| isShared := true; shareToken := Some tk |} this)
      | None => None
      end
    else Some this in
  match token with
  | None => None
  | Some this =>
      Some (if (50 <? List.length (versions this))%nat
            then set_versions (last_n 50 (versions this)) this
            else this)
  end.

(** The validators of [noteSchema], on the paths of the record. *)
Definition validate (d : t) : bool :=
  Js.truthy_str (title d)
  && (1 <=? Schema.len (title d)) && (Schema.len (title d) <=? 200)
  && Js.truthy_str (content d) && (Schema.len (content d) <=? 50000)
  && Js.truthy_str (tenantId d) && Js.truthy_str (userId d)
  && forallb (fun tag => Schema.len tag <=? 30) (tags d)
  && match category d with
     | Some c => Schema.len c <=? 50
     | None => true
     end
  && (0 <=? wordCount (metadata d))
  && (0 <=? characterCount (metadata d))
  && (0 <=? readingTime (metadata d)).

(** The assignments of [softDelete(deletedBy)], before its [save]. *)
Definition softDelete_fields (now : Z) (deletedBy : string) (this : t) : t :=
  set_deleted true (Some now) (Some deletedBy) this.

(** The assignments of [restore()], before its [save]. *)
Definition restore_fields (this : t) : t :=
  set_deleted false None None this.

(** [this.save()] of a note: the validators of every path, then the
    hook.  [None] when validation or the hook throws, and then nothing is
    written. *)
Definition save (now : Z) (contentModified : bool)
  (generateShareToken : option string) (this : t) : option t :=
  if validate this then preSave now contentModified generateShareToken this
  else None.

(** [note.softDelete(deletedBy)] *)
Definition softDelete (now : Z) (generateShareToken : option string)
  (deletedBy : string) (this : t) : option t :=
  save now false generateShareToken (softDelete_fields now deletedBy this).

(** [note.restore()] *)
Definition restore (now : Z) (generateShareToken : option string) (this : t)
  : option t :=
  save now false generateShareToken (restore_fields this).

(** [note.createVersion(changeDescription)] *)
Definition createVersion (now : Z) (generateShareToken : option string)
  (changeDescription : string) (this : t) : option t :=
  let version :=
    {| v_content := content this; v_title := title this;
       v_createdBy := userId this;
       v_changeDescription := changeDescription |} in
  let all := (versions this ++ [version])%list in
  let this :=
    set_versions (if (50 <? List.length all)%nat then last_n 50 all else all) this in
  save now false generateShareToken this.

End Note.

(** ** The notes collection beside the store *)

Module NoteStore.

Record t := {
  db : Store.t;
  notes : list Note.t
}.

Definition with_db (d : Store.t) (st : t) : t :=
  {| db := d; notes := notes st |}.

Definition insertNote (st : t) (n : Note.t) : t :=
  {| db := db st; notes := (notes st ++ [n])%list |}.

(** Saving a stored note replaces the document with its [_id]. *)
Definition replaceNote (st : t) (n : Note.t) : t :=
  {| db := db st;
     notes :=
       Store.update_first (fun d => String.eqb (Note._id d) (Note._id n))
         (fun _ => n) (notes st) |}.

End NoteStore.

(** ** The notes controller: creation, update and deletion *)

Module NoteBody.

(** The body of [POST /api/notes]. *)
Record create := {
  title : string;
  content : string;
  category : option string;
  tags : option (list string);
  status : option Note.status_t;
  visibility : option Note.visibility_t
}.

(** The body of [PUT /api/notes/:id].  The request validators check the
    keys [title], [content], [category], [tags], [status] and [visibility]
    and remove no key, so the handler sees every key that was sent.  The
    record has the keys that are paths of [Note.t], each [None] when
    absent; [updatedAt] is left out because the hook overwrites it.  The
    key [_id], the keys that are no path of the schema and the keys that
    name a method of the document are not represented. *)
Record update := {
  u_title : option string;
  u_content : option string;
  u_category : option string;
  u_tags : option (list string);
  u_status : option Note.status_t;
  u_visibility : option Note.visibility_t;
  u_isPinned : option bool;
  u_isFavorite : option bool;
  u_isDeleted : option bool;
  u_tenantId : option string;
  u_userId : option string;
  u_metadata : option Note.metadata_t;
  u_sharing : option Note.sharing_t;
  u_versions : option (list Note.version_t);
  u_deletedAt : option (option Z);
  u_deletedBy : option (option string);
  u_createdAt : option Z
}.

End NoteBody.

Module NotesHttp.

Record author_view := {
  a_id : string;
  a_email : string;
  a_name : string
}.

Record note_view := {
  nv_id : string;
  nv_title : string;
  nv_content : string;
  nv_excerpt : string;
  nv_category : option string;
  nv_tags : list string;
  nv_status : Note.status_t;
  nv_visibility : Note.visibility_t;
  nv_metadata : Note.metadata_t;
  nv_author : author_view;
  nv_createdAt : Z;
  nv_updatedAt : Z;
  nv_isPinned : bool;
  nv_isFavorite : bool
}.

(** The two texts of the 403: the template of the free plan with its
    interpolated limit, and the fixed text of the other plans. *)
Inductive limit_message :=
| FreePlanLimit (noteLimit : Z)
| PlanLimit.

Inductive body :=
| Error (error code : string)
| LimitReached (error : limit_message) (code : string) (currentCount limit : Z)
    (plan : Tenant.plan_t)
| Created (message : string) (note : note_view)
    (currentNoteCount remainingNotes : Z)
| Updated (message : string) (note : note_view)
| Deleted (message : string) (noteId : string).

Record response := {
  status : Z;
  json : body
}.

Definition fail (s : Z) (error code : string) : response :=
  {| status := s; json := Error error code |}.

End NotesHttp.

Module NotesController.

Definition create_error : NotesHttp.response :=
  NotesHttp.fail 500 "Note creation service error" "NOTE_CREATE_SERVICE_ERROR".

Definition delete_error : NotesHttp.response :=
  NotesHttp.fail 500 "Note deletion service error" "NOTE_DELETE_SERVICE_ERROR".

(** [new Note({ title, content, category: category || null,
    tags: tags || [], status, visibility, tenantId, userId, metadata })]
    with the schema's setters and defaults. *)
Definition newNote (id : string) (now : Z) (auth : Http.auth_t)
  (body : NoteBody.create) : Note.t :=
  {| Note._id := id;
     Note.title := Js.trim (NoteBody.title body);
     Note.content := NoteBody.content body;
     Note.tenantId := Http.tenantId auth;
     Note.userId := Http.userId auth;
     Note.metadata :=
       {| Note.wordCount := 0; Note.characterCount := 0; Note.readingTime := 0 |};
     Note.tags :=
       map (fun tag => Js.toLowerCase (Js.trim tag)) (default [] (NoteBody.tags body));
     Note.category :=
       match NoteBody.category body with
       | Some c => if Js.truthy_str c then Some (Js.trim c) else None
       | None => None
       end;
     Note.status := default Note.draft (NoteBody.status body);
     Note.visibility := default Note.private (NoteBody.visibility body);
     Note.sharing := {| Note.isShared := false; Note.shareToken := None |};
     Note.versions := [];
     Note.isDeleted := false;
     Note.deletedAt := None;
     Note.deletedBy := None;
     Note.isPinned := false;
     Note.isFavorite := false;
     Note.createdAt := now;
     Note.updatedAt := now |}.

Definition note_view (n : Note.t) (author : User.t) : NotesHttp.note_view :=
  {| NotesHttp.nv_id := Note._id n;
     NotesHttp.nv_title := Note.title n;
     NotesHttp.nv_content := Note.content n;
     NotesHttp.nv_excerpt := Note.excerpt n;
     NotesHttp.nv_category := Note.category n;
     NotesHttp.nv_tags := Note.tags n;
     NotesHttp.nv_status := Note.status n;
     NotesHttp.nv_visibility := Note.visibility n;
     NotesHttp.nv_metadata := Note.metadata n;
     NotesHttp.nv_author :=
       {| NotesHttp.a_id := User._id author;
          NotesHttp.a_email := User.email author;
          NotesHttp.a_name := User.fullName author |};
     NotesHttp.nv_createdAt := Note.createdAt n;
     NotesHttp.nv_updatedAt := Note.updatedAt n;
     NotesHttp.nv_isPinned := Note.isPinned n;
     NotesHttp.nv_isFavorite := Note.isFavorite n |}.

(** The 403 of [createNote]. *)
Definition limit_reached (tenant : Tenant.t) : NotesHttp.response :=
  {| NotesHttp.status := 403;
     NotesHttp.json :=
       NotesHttp.LimitReached
         (match Tenant.plan tenant with
          | Tenant.free => NotesHttp.FreePlanLimit (Tenant.noteLimit tenant)
          | Tenant.pro => NotesHttp.PlanLimit
          end)
         "NOTE_LIMIT_REACHED"
         (Tenant.currentNoteCount (Tenant.usage tenant))
         (Tenant.noteLimit tenant)
         (Tenant.plan tenant) |}.

(** [createNote(req, res)] for the principal [auth].  [noteOid] is the
    identifier given to the new document; [generateShareToken] is the
    outcome of the call that the note's hook makes for a shared note
    without token; [accepted] says whether the collection takes the
    insert, which the connection and the unique index on
    [sharing.shareToken] decide. *)
Definition createNote (st : NoteStore.t) (now : Z) (noteOid : string)
  (generateShareToken : option string) (accepted : bool) (auth : Http.auth_t)
  (body : NoteBody.create) : NotesHttp.response * NoteStore.t :=
  match Store.findTenantById (NoteStore.db st) (Http.tenantId auth) with
  | None => (NotesHttp.fail 404 "Tenant not found" "TENANT_NOT_FOUND", st)
  | Some tenant =>
      if negb (Tenant.canCreateNotes tenant) then (limit_reached tenant, st)
      else
        let note := newNote noteOid now auth body in
        if negb (Note.validate note) then (create_error, st)
        else
          match Note.preSave now true generateShareToken note with
          | None => (create_error, st)
          | Some note =>
              if negb accepted then (create_error, st)
              else
                let st := NoteStore.insertNote st note in
                match TenantMethods.incrementUsage now Tenant.notes 1 tenant with
                | None => (create_error, st)
                | Some tenant =>
                    let st :=
                      NoteStore.with_db
                        (Store.replaceTenant (NoteStore.db st) tenant) st in
                    match Store.findUserById (NoteStore.db st) (Note.userId note) with
                    | None => (create_error, st)
                    | Some author =>
                        ({| NotesHttp.status := 201;
                            NotesHttp.json :=
                              NotesHttp.Created "Note created successfully"
                                (note_view note author)
                                (Tenant.currentNoteCount (Tenant.usage tenant) + 1)
                                (Tenant.remainingNotes tenant - 1) |}, st)
                    end
                end
          end
  end.

(** The query of [deleteNote]:
    [{ _id: id, tenantId, isDeleted: { $ne: true } }], with [userId] added
    for a principal who is not an admin. *)
Definition deletable (id : string) (auth : Http.auth_t) (n : Note.t) : bool :=
  String.eqb (Note._id n) id
  && String.eqb (Note.tenantId n) (Http.tenantId auth)
  && negb (Note.isDeleted n)
  && (Http.isAdmin auth || String.eqb (Note.userId n) (Http.userId auth)).

(** [deleteNote(req, res)] for the route parameter [id] and the principal
    [auth]; [generateShareToken] is the outcome of the call that the
    note's hook makes for a shared note without token. *)
Definition deleteNote (st : NoteStore.t) (now : Z)
  (generateShareToken : option string) (id : string) (auth : Http.auth_t)
  : NotesHttp.response * NoteStore.t :=
  match List.find (deletable id auth) (NoteStore.notes st) with
  | None =>
      (NotesHttp.fail 404 "Note not found or access denied" "NOTE_NOT_FOUND", st)
  | Some note =>
      match Note.softDelete now generateShareToken (Http.userId auth) note with
      | None => (delete_error, st)
      | Some note =>
          let st := NoteStore.replaceNote st note in
          let done :=
            {| NotesHttp.status := 200;
               NotesHttp.json :=
                 NotesHttp.Deleted "Note deleted successfully" (Note._id note) |} in
          match Store.findTenantById (NoteStore.db st) (Http.tenantId auth) with
          | None => (done, st)
          | Some tenant =>
              match TenantMethods.decrementUsage now Tenant.notes 1 tenant with
              | None => (delete_error, st)
              | Some tenant =>
                  (done,
                   NoteStore.with_db
                     (Store.replaceTenant (NoteStore.db st) tenant) st)
              end
          end
      end
  end.

Definition update_error : NotesHttp.response :=
  NotesHttp.fail 500 "Note update service error" "NOTE_UPDATE_SERVICE_ERROR".

(** [Object.assign(note, updateData)]: every key of the body is assigned
    to the document, through the setters of the schema. *)
Definition assign (body : NoteBody.update) (this : Note.t) : Note.t :=
  {| Note._id := Note._id this;
     Note.title :=
       match NoteBody.u_title body with
       | Some s => Js.trim s
       | None => Note.title this
       end;
     Note.content := default (Note.content this) (NoteBody.u_content body);
     Note.tenantId := default (Note.tenantId this) (NoteBody.u_tenantId body);
     Note.userId := default (Note.userId this) (NoteBody.u_userId body);
     Note.metadata := default (Note.metadata this) (NoteBody.u_metadata body);
     Note.tags :=
       match NoteBody.u_tags body with
       | Some l => map (fun tag => Js.toLowerCase (Js.trim tag)) l
       | None => Note.tags this
       end;
     Note.category :=
       match NoteBody.u_category body with
       | Some c => Some (Js.trim c)
       | None => Note.category this
       end;
     Note.status := default (Note.status this) (NoteBody.u_status body);
     Note.visibility := default (Note.visibility this) (NoteBody.u_visibility body);
     Note.sharing := default (Note.sharing this) (NoteBody.u_sharing body);
     Note.versions := default (Note.versions this) (NoteBody.u_versions body);
     Note.isDeleted := default (Note.isDeleted this) (NoteBody.u_isDeleted body);
     Note.deletedAt := default (Note.deletedAt this) (NoteBody.u_deletedAt body);
     Note.deletedBy := default (Note.deletedBy this) (NoteBody.u_deletedBy body);
     Note.isPinned := default (Note.isPinned this) (NoteBody.u_isPinned body);
     Note.isFavorite := default (Note.isFavorite this) (NoteBody.u_isFavorite body);
     Note.createdAt := default (Note.createdAt this) (NoteBody.u_createdAt body);
     Note.updatedAt := Note.updatedAt this |}.

(** [updateData.content && updateData.content !== note.content] *)
Definition content_changes (body : NoteBody.update) (note : Note.t) : bool :=
  match NoteBody.u_content body with
  | Some c => Js.truthy_str c && negb (String.eqb c (Note.content note))
  | None => false
  end.

(** [updateNote(req, res)] for the route parameter [id] and the principal
    [auth].  [now] is the time of the snapshot's save and [now'] the time
    of the note's save; [generateShareToken] is the outcome of the call
    that the note's hook makes for a shared note without token. *)
Definition updateNote (st : NoteStore.t) (now now' : Z)
  (generateShareToken : option string) (id : string) (auth : Http.auth_t)
  (body : NoteBody.update) : NotesHttp.response * NoteStore.t :=
  match List.find (deletable id auth) (NoteStore.notes st) with
  | None =>
      (NotesHttp.fail 404 "Note not found or access denied" "NOTE_NOT_FOUND", st)
  | Some note =>
      let snapshot :=
        if content_changes body note
        then
          match Note.createVersion now generateShareToken "Manual edit" note with
          | Some note => Some (note, NoteStore.replaceNote st note)
          | None => None
          end
        else Some (note, st) in
      match snapshot with
      | None => (update_error, st)
      | Some (note, st) =>
          let assigned := assign body note in
          match Note.save now'
                  (negb (String.eqb (Note.content assigned) (Note.content note)))
                  generateShareToken assigned with
          | None => (update_error, st)
          | Some saved =>
              let st := NoteStore.replaceNote st saved in
              match Store.findUserById (NoteStore.db st) (Note.userId saved) with
              | None => (update_error, st)
              | Some author =>
                  ({| NotesHttp.status := 200;
                      NotesHttp.json :=
                        NotesHttp.Updated "Note updated successfully"
                          (note_view saved author) |}, st)
              end
          end
      end
  end.

End NotesController.

(** ** The page arithmetic of [getNotes] *)

Module NotesList.

Record pagination := {
  page : Z;
  limit : Z;
  total : Z;
  totalPages : Z;
  hasNext : bool;
  hasPrev : bool
}.

(** [(parseInt(page) - 1) * parseInt(limit)], on numbers. *)
Definition skip (page limit : Z) : Z := (page - 1) * limit.

(** The [pagination] object that [getNotes] answers with, for the count
    [totalCount] of the notes that match the query. *)
Definition paginate (page limit totalCount : Z) : pagination :=
  {| page := page;
     limit := limit;
     total := totalCount;
     totalPages := Note.ceil_div totalCount limit;
     hasNext := skip page limit + limit <? totalCount;
     hasPrev := 1 <? page |}.

End NotesList.

(* ================================================================= *)
(** * Properties *)

(** ** Fixtures used by the examples *)

Definition sample_tenant (p : Tenant.plan_t) (limit count : Z) : Tenant.t :=
  {| Tenant._id := "t1"; Tenant.slug := "acme"; Tenant.name := "Acme";
     Tenant.plan := p; Tenant.noteLimit := limit;
     Tenant.subscription :=
       {| Tenant.status := Tenant.active; Tenant.startDate := 0;
          Tenant.endDate := None |};
     Tenant.usage :=
       {| Tenant.currentNoteCount := count; Tenant.currentUserCount := 1;
          Tenant.storageUsed := 0 |};
     Tenant.isActive := true; Tenant.updatedAt := 0 |}.

Definition sample_user (attempts : Z) (lock : option Z) : User.t :=
  {| User._id := "u1"; User.email := "ann@acme.io";
     User.password := "hash:secret1"; User.tenantId := "t1";
     User.role := User.member;
     User.profile := {| User.firstName := "Ann"; User.lastName := "" |};
     User.security :=
       {| User.lastLogin := None; User.loginAttempts := attempts;
          User.lockUntil := lock |};
     User.permissions := Mock.member_permissions;
     User.isActive := true |}.

Definition sample_store : Store.t :=
  {| Store.users := [sample_user 0 None];
     Store.tenants := [sample_tenant Tenant.free 3 0] |}.

(** ** The quota gate *)

(** C2.  [canCreateNotes] holds exactly when the tenant is active, its
    subscription status is [active], and the limit is [-1] or the note
    count is below the limit.  On an active tenant with an active
    subscription: limit 3 and count 3 give [false], limit 3 and count 2
    give [true], and limit [-1] gives [true] for every count. *)
Theorem canCreateNotes_gate :
  (forall t : Tenant.t,
      Tenant.canCreateNotes t = true <->
      Tenant.isActive t = true
      /\ Tenant.status (Tenant.subscription t) = Tenant.active
      /\ (Tenant.noteLimit t = -1
          \/ Tenant.currentNoteCount (Tenant.usage t) < Tenant.noteLimit t))
  /\ (forall t : Tenant.t,
         Tenant.isActive t = true ->
         Tenant.status (Tenant.subscription t) = Tenant.active ->
         (Tenant.plan t = Tenant.free -> Tenant.noteLimit t = 3 ->
          Tenant.currentNoteCount (Tenant.usage t) = 3 ->
          Tenant.canCreateNotes t = false)
         /\ (Tenant.plan t = Tenant.free -> Tenant.noteLimit t = 3 ->
             Tenant.currentNoteCount (Tenant.usage t) = 2 ->
             Tenant.canCreateNotes t = true)
         /\ (Tenant.plan t = Tenant.pro -> Tenant.noteLimit t = -1 ->
             Tenant.canCreateNotes t = true)).
Proof.
  split.
  - intros t. unfold Tenant.canCreateNotes, Tenant.hasUnlimitedNotes.
    destruct (Tenant.isActive t); simpl.
    + destruct (Tenant.status (Tenant.subscription t)) eqn:Hs; simpl.
      * rewrite orb_true_iff, Z.eqb_eq, Z.ltb_lt. tauto.
      * split; [discriminate | intros (_ & H & _); discriminate].
      * split; [discriminate | intros (_ & H & _); discriminate].
      * split; [discriminate | intros (_ & H & _); discriminate].
    + split; [discriminate | intros (H & _); discriminate].
  - intros t Ha Hs. unfold Tenant.canCreateNotes, Tenant.hasUnlimitedNotes.
    rewrite Ha, Hs. simpl. repeat split.
    + intros _ Hl Hc. rewrite Hl, Hc. reflexivity.
    + intros _ Hl Hc. rewrite Hl, Hc. reflexivity.
    + intros _ Hl. rewrite Hl. reflexivity.
Qed.

(** The gate evaluated on the three boundary tenants of the claim. *)
Lemma canCreateNotes_gate_witness :
  Tenant.canCreateNotes (sample_tenant Tenant.free 3 3) = false
  /\ Tenant.canCreateNotes (sample_tenant Tenant.free 3 2) = true
  /\ Tenant.canCreateNotes (sample_tenant Tenant.pro (-1) 1000000) = true.
Proof.
  destruct canCreateNotes_gate as [_ H].
  split; [| split].
  - destruct (H (sample_tenant Tenant.free 3 3) eq_refl eq_refl) as (H1 & _ & _).
    apply H1; reflexivity.
  - destruct (H (sample_tenant Tenant.free 3 2) eq_refl eq_refl) as (_ & H2 & _).
    apply H2; reflexivity.
  - destruct (H (sample_tenant Tenant.pro (-1) 1000000) eq_refl eq_refl)
      as (_ & _ & H3).
    apply H3; reflexivity.
Defined.

(** The remaining slots of a tenant with a finite limit are never
    negative. *)
Lemma remainingNotes_nonneg (t : Tenant.t) :
  Tenant.hasUnlimitedNotes t = false -> 0 <= Tenant.remainingNotes t.
Proof. unfold Tenant.remainingNotes. intros ->. lia. Qed.

(** ** The lockout engine *)

Lemma lock_expired_iff (now : Z) (u : User.t) :
  User.lock_expired now u = true <->
  exists l, User.lockUntil (User.security u) = Some l /\ l < now.
Proof.
  unfold User.lock_expired.
  destruct (User.lockUntil (User.security u)) as [l|].
  - rewrite Z.ltb_lt. split.
    + intros H. exists l. split; [reflexivity | exact H].
    + intros (l' & Heq & Hlt). injection Heq as ->. exact Hlt.
  - split; [discriminate | intros (l & Heq & _); discriminate].
Qed.

Lemma isLocked_iff (now : Z) (u : User.t) :
  User.isLocked now u = true <->
  exists l, User.lockUntil (User.security u) = Some l /\ now < l.
Proof.
  unfold User.isLocked.
  destruct (User.lockUntil (User.security u)) as [l|].
  - rewrite Z.ltb_lt. split.
    + intros H. exists l. split; [reflexivity | exact H].
    + intros (l' & Heq & Hlt). injection Heq as ->. exact Hlt.
  - split; [discriminate | intros (l & Heq & _); discriminate].
Qed.

(** C3, as stated, fails: the failure recorded after a lock has expired
    takes the counter from 5 back to 1. *)
Lemma incLoginAttempts_can_decrease :
  User.loginAttempts (User.security (sample_user 5 (Some 100))) = 5
  /\ User.loginAttempts
       (User.security (User.incLoginAttempts 200 (sample_user 5 (Some 100)))) = 1
  /\ User.lockUntil
       (User.security (User.incLoginAttempts 200 (sample_user 5 (Some 100)))) = None.
Proof. repeat split. Qed.

(** C3, amended.  [incLoginAttempts] changes only [loginAttempts] and
    [lockUntil].  When a lock exists and lies before [now], the counter
    becomes 1 and the lock is cleared.  Otherwise the counter grows by
    exactly 1, and the lock becomes [now] + 2 hours when the new counter is
    at least 5 and the user is not locked, and is left as it was when not.
    Outside the restart after an expired lock the counter never
    decreases. *)
Theorem incLoginAttempts_transition (now : Z) (u : User.t) :
  let s := User.security u in
  let s' := User.security (User.incLoginAttempts now u) in
  User.incLoginAttempts now u = User.set_security s' u
  /\ User.lastLogin s' = User.lastLogin s
  /\ (forall l, User.lockUntil s = Some l -> l < now ->
        User.loginAttempts s' = 1 /\ User.lockUntil s' = None)
  /\ ((User.lockUntil s = None \/ exists l, User.lockUntil s = Some l /\ now <= l) ->
        User.loginAttempts s' = User.loginAttempts s + 1
        /\ User.loginAttempts s < User.loginAttempts s'
        /\ (5 <= User.loginAttempts s + 1 -> User.isLocked now u = false ->
              User.lockUntil s' = Some (now + 7200000))
        /\ (User.loginAttempts s + 1 < 5 \/ User.isLocked now u = true ->
              User.lockUntil s' = User.lockUntil s)).
Proof.
  cbv zeta. split; [reflexivity |]. split.
  - unfold User.incLoginAttempts, User.incLoginAttempts_update.
    destruct (User.lock_expired now u); [reflexivity |].
    destruct (_ && _); reflexivity.
  - split.
    + intros l Hl Hlt.
      assert (He : User.lock_expired now u = true).
      { apply lock_expired_iff. exists l. split; assumption. }
      unfold User.incLoginAttempts, User.incLoginAttempts_update.
      rewrite He. simpl. split; reflexivity.
    + intros Hne.
      assert (He : User.lock_expired now u = false).
      { destruct (User.lock_expired now u) eqn:E; [| reflexivity].
        apply lock_expired_iff in E. destruct E as (l & Hl & Hlt).
        destruct Hne as [Hn | (l' & Hl' & Hle)]; [congruence |].
        rewrite Hl in Hl'. injection Hl' as <-. lia. }
      unfold User.incLoginAttempts, User.incLoginAttempts_update.
      rewrite He.
      destruct (5 <=? User.loginAttempts (User.security u) + 1) eqn:E5;
        destruct (User.isLocked now u) eqn:EL; simpl;
        repeat split; try lia; try reflexivity; try discriminate;
        try (apply Z.leb_le in E5); try (apply Z.leb_gt in E5);
        intros; try lia; try discriminate; try reflexivity.
Qed.

(** The transition on a user with four recorded failures and no lock: the
    fifth failure locks the account for two hours. *)
Lemma incLoginAttempts_transition_witness :
  User.loginAttempts (User.security (User.incLoginAttempts 1000 (sample_user 4 None))) = 5
  /\ User.lockUntil (User.security (User.incLoginAttempts 1000 (sample_user 4 None)))
     = Some 7201000.
Proof.
  destruct (incLoginAttempts_transition 1000 (sample_user 4 None))
    as (_ & _ & _ & H).
  destruct (H (or_introl eq_refl)) as (Hc & _ & Hl & _).
  split.
  - exact Hc.
  - apply Hl; [vm_compute; discriminate | reflexivity].
Defined.

(** The stored user after a run of failed logins at the given times. *)
Fixpoint failures (times : list Z) (u : User.t) : User.t :=
  match times with
  | [] => u
  | now :: rest => failures rest (User.incLoginAttempts now u)
  end.

(** Five failures in a row lock a fresh account for two hours counted
    from the fifth; at the end of the two hours the lock is over, and the
    next failure restarts the counter at 1. *)
Lemma five_failures_lock_for_two_hours :
  let u := failures [10; 20; 30; 40; 50] (sample_user 0 None) in
  User.security u
  = {| User.lastLogin := None; User.loginAttempts := 5;
       User.lockUntil := Some 7200050 |}
  /\ User.isLocked 50 u = true
  /\ User.isLocked 7200049 u = true
  /\ User.isLocked 7200050 u = false
  /\ User.security (User.incLoginAttempts 7200051 u)
     = {| User.lastLogin := None; User.loginAttempts := 1;
          User.lockUntil := None |}.
Proof. repeat split. Qed.

(** ** Plan and note limit *)

Lemma preSave_plan (now : Z) (m : bool) (t : Tenant.t) :
  Tenant.plan (Tenant.preSave now m t) = Tenant.plan t.
Proof.
  unfold Tenant.preSave. destruct m; [| reflexivity].
  destruct (_ && _); [reflexivity |].
  destruct (_ && _); reflexivity.
Qed.

Lemma preSave_identity (now : Z) (m : bool) (t : Tenant.t) :
  Tenant._id (Tenant.preSave now m t) = Tenant._id t
  /\ Tenant.slug (Tenant.preSave now m t) = Tenant.slug t.
Proof.
  unfold Tenant.preSave. destruct m; [| split; reflexivity].
  destruct (_ && _); [split; reflexivity |].
  destruct (_ && _); split; reflexivity.
Qed.

Lemma find_update_first {A} (p q : A -> bool) (x y : A) (l : list A) :
  (forall a, p a = true -> q a = true) ->
  p y = true ->
  List.find p l = Some x ->
  List.find p (Store.update_first q (fun _ => y) l) = Some y.
Proof.
  intros Hpq Hy. induction l as [| a l IH]; simpl; [discriminate |].
  destruct (p a) eqn:Hp.
  - intros _. rewrite (Hpq a Hp). simpl. rewrite Hy. reflexivity.
  - intros Hf. destruct (q a) eqn:Hq; simpl.
    + rewrite Hy. reflexivity.
    + rewrite Hp. apply IH. exact Hf.
Qed.

(** The validators of a tenant in three groups: slug and name, the
    note limit, and the usage counters. *)
Definition named_ok (t : Tenant.t) : bool :=
  Schema.matches Schema.slug_pattern (Tenant.slug t)
  && (2 <=? Schema.len (Tenant.slug t)) && (Schema.len (Tenant.slug t) <=? 50)
  && (2 <=? Schema.len (Tenant.name t)) && (Schema.len (Tenant.name t) <=? 100).

Definition usage_ok (t : Tenant.t) : bool :=
  (0 <=? Tenant.currentNoteCount (Tenant.usage t))
  && (0 <=? Tenant.currentUserCount (Tenant.usage t))
  && (0 <=? Tenant.storageUsed (Tenant.usage t)).

Lemma validateTenant_parts (t : Tenant.t) :
  Schema.validateTenant t
  = named_ok t && Tenant.noteLimit_validator t && usage_ok t.
Proof.
  unfold Schema.validateTenant, named_ok, usage_ok.
  rewrite !andb_assoc. reflexivity.
Qed.

Lemma validateTenant_true (t : Tenant.t) :
  Schema.validateTenant t = true
  <-> named_ok t = true /\ Tenant.noteLimit_validator t = true /\ usage_ok t = true.
Proof.
  rewrite validateTenant_parts, !andb_true_iff. tauto.
Qed.

Lemma usage_ok_iff (t : Tenant.t) :
  usage_ok t = true
  <-> 0 <= Tenant.currentNoteCount (Tenant.usage t)
      /\ 0 <= Tenant.currentUserCount (Tenant.usage t)
      /\ 0 <= Tenant.storageUsed (Tenant.usage t).
Proof.
  unfold usage_ok. rewrite !andb_true_iff, !Z.leb_le. tauto.
Qed.

Lemma noteLimit_validator_iff (t : Tenant.t) :
  Tenant.noteLimit_validator t = true
  <-> match Tenant.plan t with
      | Tenant.free => 1 <= Tenant.noteLimit t <= 10
      | Tenant.pro => Tenant.noteLimit t = -1 \/ 1 <= Tenant.noteLimit t
      end.
Proof.
  unfold Tenant.noteLimit_validator. destruct (Tenant.plan t).
  - rewrite andb_true_iff, Z.ltb_lt, Z.leb_le. lia.
  - rewrite orb_true_iff, Z.eqb_eq, Z.ltb_lt. lia.
Qed.

(** A save stores something exactly when the document passes its
    validators, and then it stores what the hook makes of it. *)
Lemma saveTenant_some (now : Z) (m : bool) (t t' : Tenant.t) :
  Schema.saveTenant now m t = Some t'
  <-> Schema.validateTenant t = true /\ t' = Tenant.preSave now m t.
Proof.
  unfold Schema.saveTenant. destruct (Schema.validateTenant t).
  - split; [intros [= <-]; split; reflexivity | intros [_ ->]; reflexivity].
  - split; [discriminate | intros [H _]; discriminate H].
Qed.

(** What passed the validators still passes them after the hook. *)
Lemma validateTenant_preSave (now : Z) (m : bool) (t : Tenant.t) :
  Schema.validateTenant t = true ->
  Schema.validateTenant (Tenant.preSave now m t) = true.
Proof.
  intros Hv. unfold Tenant.preSave. destruct m; [| exact Hv].
  apply validateTenant_true in Hv as (Hn & Hl & Hu).
  apply noteLimit_validator_iff in Hl.
  cbn [Tenant.plan Tenant.noteLimit Tenant.set_updatedAt].
  destruct (Tenant.plan t) eqn:Hp; cbn [Tenant.plan_eqb andb].
  - replace (Tenant.noteLimit t =? -1) with false
      by (symmetry; apply Z.eqb_neq; lia).
    replace (10 <? Tenant.noteLimit t) with false
      by (symmetry; apply Z.ltb_ge; lia).
    cbn [orb]. apply validateTenant_true.
    split; [exact Hn |]. split; [| exact Hu].
    apply noteLimit_validator_iff. simpl. rewrite Hp. exact Hl.
  - destruct (Tenant.noteLimit t <? 10); apply validateTenant_true;
      (split; [exact Hn |]); (split; [| exact Hu]);
      apply noteLimit_validator_iff; simpl; rewrite Hp;
      [left; reflexivity | exact Hl].
Qed.

(** C8, as stated, fails.  A tenant saved with its plan changed to pro
    while holding the limit 50 is stored with that limit; and a tenant
    saved with its plan changed to free while holding the limit [-1] is
    not clamped: the save throws and stores nothing. *)
Lemma save_pro_keeps_finite_limit :
  option_map Tenant.plan
    (Schema.saveTenant 0 true (sample_tenant Tenant.pro 50 0)) = Some Tenant.pro
  /\ option_map Tenant.noteLimit
       (Schema.saveTenant 0 true (sample_tenant Tenant.pro 50 0)) = Some 50
  /\ Schema.saveTenant 0 true (sample_tenant Tenant.free (-1) 0) = None.
Proof. repeat split. Qed.

(** C8, amended.  A save with the plan changed runs the validators before
    the hook.  For the free plan it throws unless the limit is between 1
    and 10, and then stores the limit as it is; for the pro plan it throws
    unless the limit is [-1] or positive, stores [-1] for a limit below
    10 and keeps a limit of 10 or more.  So whatever such a save stores
    has a valid limit for its plan.  The upgrade endpoint assigns [-1]
    itself: after a successful upgrade the stored tenant is on the pro
    plan with limit [-1]. *)
Theorem save_plan_consistency :
  (forall now t,
      Tenant.plan t = Tenant.free ->
      (Tenant.noteLimit t < 1 \/ 10 < Tenant.noteLimit t ->
       Schema.saveTenant now true t = None)
      /\ (forall t', Schema.saveTenant now true t = Some t' ->
            Tenant.plan t' = Tenant.free
            /\ Tenant.noteLimit t' = Tenant.noteLimit t
            /\ 1 <= Tenant.noteLimit t' <= 10))
  /\ (forall now t,
         Tenant.plan t = Tenant.pro ->
         (Tenant.noteLimit t <> -1 -> Tenant.noteLimit t <= 0 ->
          Schema.saveTenant now true t = None)
         /\ (forall t', Schema.saveTenant now true t = Some t' ->
               Tenant.plan t' = Tenant.pro
               /\ (Tenant.noteLimit t < 10 -> Tenant.noteLimit t' = -1)
               /\ (10 <= Tenant.noteLimit t ->
                   Tenant.noteLimit t' = Tenant.noteLimit t)))
  /\ (forall now t t',
         Schema.saveTenant now true t = Some t' ->
         Tenant.noteLimit_validator t' = true)
  /\ (forall st now slug auth r st',
         TenantController.upgradeTenant st now slug auth = (r, st') ->
         Http.status r = 200 ->
         exists t,
           TenantController.findOwnTenant st' slug (Http.tenantId auth) = Some t
           /\ Tenant.plan t = Tenant.pro
           /\ Tenant.noteLimit t = -1).
Proof.
  split; [| split; [| split]].
  - intros now t Hp. split.
    + intros Hout. unfold Schema.saveTenant.
      destruct (Schema.validateTenant t) eqn:Hv; [| reflexivity].
      apply validateTenant_true in Hv as (_ & Hl & _).
      apply noteLimit_validator_iff in Hl. rewrite Hp in Hl. lia.
    + intros t' Hs. apply saveTenant_some in Hs as [Hv ->].
      apply validateTenant_true in Hv as (_ & Hl & _).
      apply noteLimit_validator_iff in Hl. rewrite Hp in Hl.
      rewrite preSave_plan. split; [exact Hp |].
      unfold Tenant.preSave. simpl. rewrite Hp. simpl.
      replace (Tenant.noteLimit t =? -1) with false
        by (symmetry; apply Z.eqb_neq; lia).
      replace (10 <? Tenant.noteLimit t) with false
        by (symmetry; apply Z.ltb_ge; lia).
      simpl. lia.
  - intros now t Hp. split.
    + intros Hne Hle. unfold Schema.saveTenant.
      destruct (Schema.validateTenant t) eqn:Hv; [| reflexivity].
      apply validateTenant_true in Hv as (_ & Hl & _).
      apply noteLimit_validator_iff in Hl. rewrite Hp in Hl. lia.
    + intros t' Hs. apply saveTenant_some in Hs as [_ ->].
      rewrite preSave_plan. split; [exact Hp |].
      unfold Tenant.preSave. simpl. rewrite Hp. simpl.
      destruct (Tenant.noteLimit t <? 10) eqn:E; simpl.
      * apply Z.ltb_lt in E. split; intros; simpl; lia.
      * apply Z.ltb_ge in E. split; intros; simpl; lia.
  - intros now t t' Hs. apply saveTenant_some in Hs as [Hv ->].
    apply (validateTenant_preSave now true) in Hv.
    apply validateTenant_true in Hv as (_ & Hl & _). exact Hl.
  - intros st now slug auth r st'. unfold TenantController.upgradeTenant.
    destruct (Http.isAdmin auth); simpl;
      [| intros [= <- <-]; simpl; discriminate].
    destruct (TenantController.findOwnTenant st slug (Http.tenantId auth))
      as [tn |] eqn:Hf; [| intros [= <- <-]; simpl; discriminate].
    destruct (Tenant.plan tn) eqn:Hplan; [| intros [= <- <-]; simpl; discriminate].
    destruct (Schema.saveTenant now true (TenantController.upgraded now tn))
      as [tn' |] eqn:Hs; [| intros [= <- <-]; simpl; discriminate].
    apply saveTenant_some in Hs as [_ ->].
    intros [= <- <-] _.
    set (tn' := Tenant.preSave now true (TenantController.upgraded now tn)).
    exists tn'.
    assert (Hkey : List.find
                     (fun t => String.eqb (Tenant.slug t) slug
                               && String.eqb (Tenant._id t) (Http.tenantId auth))
                     (Store.tenants st) = Some tn) by exact Hf.
    pose proof (find_some _ _ Hkey) as [_ Hmatch].
    apply andb_true_iff in Hmatch. destruct Hmatch as [Hslug Hid].
    apply String.eqb_eq in Hslug. apply String.eqb_eq in Hid.
    destruct (preSave_identity now true (TenantController.upgraded now tn))
      as [Hid' Hslug'].
    split; [| split].
    + unfold TenantController.findOwnTenant, Store.replaceTenant. simpl.
      apply find_update_first with (x := tn).
      * intros a Ha. apply andb_true_iff in Ha. destruct Ha as [_ Ha].
        apply String.eqb_eq in Ha. apply String.eqb_eq. congruence.
      * unfold tn'. rewrite Hslug', Hid'. simpl.
        rewrite Hslug, Hid. rewrite !String.eqb_refl. reflexivity.
      * exact Hkey.
    + unfold tn'. rewrite preSave_plan. reflexivity.
    + unfold tn', Tenant.preSave. reflexivity.
Qed.

(** A tenant that goes to the pro plan while it holds the free default
    is stored with limit [-1]; a tenant that goes to the free plan while
    it holds the limit 5 keeps it. *)
Lemma save_plan_consistency_witness :
  option_map Tenant.noteLimit
    (Schema.saveTenant 0 true (sample_tenant Tenant.pro 3 0)) = Some (-1)
  /\ option_map Tenant.noteLimit
       (Schema.saveTenant 0 true (sample_tenant Tenant.free 5 0)) = Some 5.
Proof.
  destruct save_plan_consistency as (Hfree & Hpro & _).
  destruct (Schema.saveTenant 0 true (sample_tenant Tenant.pro 3 0))
    as [t1 |] eqn:H1; [| discriminate].
  destruct (Schema.saveTenant 0 true (sample_tenant Tenant.free 5 0))
    as [t2 |] eqn:H2; [| discriminate].
  destruct (Hpro 0 (sample_tenant Tenant.pro 3 0) eq_refl) as [_ Hp].
  destruct (Hp t1 H1) as (_ & Hlow & _).
  destruct (Hfree 0 (sample_tenant Tenant.free 5 0) eq_refl) as [_ Hf].
  destruct (Hf t2 H2) as (_ & Hkeep & _).
  simpl. split; f_equal; [apply Hlow; simpl; lia | exact Hkeep].
Defined.

(** ** The token service *)

(** The value an object literal gives to a key. *)
Fixpoint field_lookup (k : string) (fields : list (string * option Js.jval))
  : option Js.jval :=
  match fields with
  | [] => None
  | (k', ov) :: r => if decide (k' = k) then ov else field_lookup k r
  end.

Lemma literal_lookup (fields : list (string * option Js.jval)) (k : string) :
  NoDup (map fst fields) ->
  Jwt.literal fields !! k = field_lookup k fields.
Proof.
  induction fields as [| [k' ov] r IH]; simpl; intros Hnd.
  - apply lookup_empty.
  - apply NoDup_cons in Hnd. destruct Hnd as [Hnotin Hnd].
    destruct ov as [v |].
    + rewrite lookup_insert. destruct (decide (k' = k)); [reflexivity | auto].
    + destruct (decide (k' = k)) as [-> |]; [| auto].
      rewrite IH by exact Hnd.
      clear IH Hnd. induction r as [| [k2 ov2] r IH]; simpl; [reflexivity |].
      destruct (decide (k2 = k)) as [-> |].
      * exfalso. apply Hnotin. simpl. left.
      * apply IH. intros Hin. apply Hnotin. simpl. right. exact Hin.
Qed.

(** The claims copied from the caller's object into each kind of token. *)
Definition access_claims : list string :=
  ["userId"; "email"; "tenantId"; "tenantSlug"; "role"; "permissions"].

Definition refresh_claims : list string := ["userId"; "tenantId"].

(** The claims a token carries besides the copied ones. *)
Definition service_claims : list string :=
  ["tokenType"; "jti"; "iat"; "exp"; "iss"; "aud"].

(** What [verify] must return for a token minted at [now] from [C]: the
    [copied] claims of [C], the type marker, the optional [jti], and the
    registered claims. *)
Definition minted (copied : list string) (type : string) (jti : option string)
  (aud : string) (lifetime now : Z) (C : Jwt.obj) (d : Jwt.obj) : Prop :=
  (forall k, k ∈ copied -> d !! k = C !! k)
  /\ d !! "tokenType" = Some (Js.JStr type)
  /\ d !! "jti" = Js.JStr <$> jti
  /\ d !! "iat" = Some (Js.JNum (Jwt.seconds now))
  /\ d !! "exp" = Some (Js.JNum (Jwt.seconds now + lifetime))
  /\ d !! "iss" = Some (Js.JStr "notes-saas")
  /\ d !! "aud" = Some (Js.JStr aud)
  /\ (forall k, k ∉ copied -> k ∉ service_claims -> d !! k = None).

Lemma NoDup_keys (l : list string) : bool_decide (NoDup l) -> NoDup l.
Proof. apply bool_decide_unpack. Qed.

Ltac lookup_through_sign :=
  unfold Jwt.generateToken, Jwt.generateRefreshToken, Jwt.sign;
  cbn [Jwt.payload Jwt.audience Jwt.issuer Jwt.expiresIn];
  repeat (rewrite lookup_insert_ne by congruence);
  try (rewrite lookup_insert_eq; reflexivity);
  try (rewrite literal_lookup
         by (simpl; apply NoDup_keys; vm_compute; exact I));
  simpl;
  repeat (case_decide; [first [reflexivity | discriminate | congruence] |]);
  try reflexivity.

Ltac split_membership :=
  repeat match goal with
         | H : _ ∈ _ :: _ |- _ => apply elem_of_cons in H as [-> | H]
         | H : _ ∈ [] |- _ => apply elem_of_nil in H; destruct H
         | H : _ ∉ _ :: _ |- _ =>
             apply not_elem_of_cons in H; let Hne := fresh "Hne" in
             destruct H as [Hne H]
         end.

Lemma generateToken_minted (cfg : Jwt.config) (C : Jwt.obj) (now : Z) :
  minted access_claims "access" None "notes-saas-users"
    (Jwt.JWT_EXPIRES_IN cfg) now C
    (Jwt.payload (Jwt.generateToken cfg C now)).
Proof.
  unfold minted, access_claims, service_claims. repeat split.
  - intros k Hk. split_membership; lookup_through_sign.
  - lookup_through_sign.
  - lookup_through_sign.
  - lookup_through_sign.
  - lookup_through_sign.
  - lookup_through_sign.
  - lookup_through_sign.
  - intros k Hk Hs. split_membership. lookup_through_sign.
Qed.

Lemma generateRefreshToken_minted (cfg : Jwt.config) (C : Jwt.obj)
  (uuid : string) (now : Z) :
  minted refresh_claims "refresh" (Some uuid) "notes-saas-refresh"
    (Jwt.JWT_REFRESH_EXPIRES_IN cfg) now C
    (Jwt.payload (Jwt.generateRefreshToken cfg C uuid now)).
Proof.
  unfold minted, refresh_claims, service_claims. repeat split.
  - intros k Hk. split_membership; lookup_through_sign.
  - lookup_through_sign.
  - lookup_through_sign.
  - lookup_through_sign.
  - lookup_through_sign.
  - lookup_through_sign.
  - lookup_through_sign.
  - intros k Hk Hs. split_membership. lookup_through_sign.
Qed.

Lemma verify_minted (cfg : Jwt.config) (tk : Jwt.token) (now' : Z)
  (e : Z) (aud : string) :
  Jwt.signing_key tk = Jwt.JWT_SECRET cfg ->
  Jwt.payload tk !! "exp" = Some (Js.JNum e) ->
  Jwt.payload tk !! "iss" = Some (Js.JStr "notes-saas") ->
  Jwt.payload tk !! "aud" = Some (Js.JStr aud) ->
  aud ∈ ["notes-saas-users"; "notes-saas-refresh"] ->
  Jwt.verifyToken cfg tk now' =
  if Jwt.seconds now' <? e then Some (Jwt.payload tk) else None.
Proof.
  intros Hk He Hi Ha Hin.
  unfold Jwt.verifyToken, Jwt.verify, Jwt.exp_ok, Jwt.aud_ok, Jwt.iss_ok.
  rewrite Hk, He, Hi, Ha, String.eqb_refl. simpl.
  assert (Haud : (String.eqb aud "notes-saas-users"
                  || (String.eqb aud "notes-saas-refresh" || false)) = true).
  { apply list_elem_of_In in Hin. simpl in Hin.
    destruct Hin as [<- | [<- | []]]; reflexivity. }
  rewrite Haud. destruct (Jwt.seconds now' <? e); reflexivity.
Qed.

Definition sample_claims : Jwt.obj :=
  Jwt.tokenPayload "u1" "ann@acme.io" "t1" "acme" User.admin Perm.all_true.

(** C7, as stated, fails: the claims of a refresh token that verifies do
    not include the e-mail, slug, role and permissions it was issued
    for. *)
Lemma refresh_token_drops_claims :
  let tk := Jwt.generateRefreshToken Jwt.default_config sample_claims "7f9c" 0 in
  Jwt.verifyToken Jwt.default_config tk 1000 = Some (Jwt.payload tk)
  /\ sample_claims !! "email" = Some (Js.JStr "ann@acme.io")
  /\ Jwt.payload tk !! "email" = None
  /\ Jwt.payload tk !! "tenantSlug" = None
  /\ Jwt.payload tk !! "role" = None
  /\ Jwt.payload tk !! "permissions" = None.
Proof. vm_compute. repeat split. Qed.

(** C7, amended.  Until its expiry second, [verifyToken] on an access
    token issued from [C] returns exactly the [userId], [email],
    [tenantId], [tenantSlug], [role] and [permissions] of [C] together with
    [tokenType = 'access'], [iat], [exp], [iss] and [aud]; on a refresh
    token issued from [C] it returns exactly the [userId] and [tenantId] of
    [C] together with [tokenType = 'refresh'], the drawn [jti], [iat],
    [exp], [iss] and [aud].  Every other key of [C] is dropped.  From the
    expiry second on, [verifyToken] fails. *)
Theorem token_roundtrip (cfg : Jwt.config) (C : Jwt.obj) (uuid : string)
  (now now' : Z) :
  (exists d,
      minted access_claims "access" None "notes-saas-users"
        (Jwt.JWT_EXPIRES_IN cfg) now C d
      /\ Jwt.verifyToken cfg (Jwt.generateToken cfg C now) now' =
         if Jwt.seconds now' <? Jwt.seconds now + Jwt.JWT_EXPIRES_IN cfg
         then Some d else None)
  /\ (exists d,
         minted refresh_claims "refresh" (Some uuid) "notes-saas-refresh"
           (Jwt.JWT_REFRESH_EXPIRES_IN cfg) now C d
         /\ Jwt.verifyToken cfg (Jwt.generateRefreshToken cfg C uuid now) now' =
            if Jwt.seconds now' <? Jwt.seconds now + Jwt.JWT_REFRESH_EXPIRES_IN cfg
            then Some d else None).
Proof.
  split.
  - exists (Jwt.payload (Jwt.generateToken cfg C now)).
    pose proof (generateToken_minted cfg C now) as Hm.
    split; [exact Hm |].
    destruct Hm as (_ & _ & _ & _ & He & Hi & Ha & _).
    apply verify_minted with (aud := "notes-saas-users"); try assumption.
    + reflexivity.
    + apply elem_of_cons. left. reflexivity.
  - exists (Jwt.payload (Jwt.generateRefreshToken cfg C uuid now)).
    pose proof (generateRefreshToken_minted cfg C uuid now) as Hm.
    split; [exact Hm |].
    destruct Hm as (_ & _ & _ & _ & He & Hi & Ha & _).
    apply verify_minted with (aud := "notes-saas-refresh"); try assumption.
    + reflexivity.
    + apply elem_of_cons. right. apply elem_of_cons. left. reflexivity.
Qed.

(** An access token of the default configuration verifies one second
    before its seventh day ends, with the e-mail it was issued for, and
    fails at the end of the seventh day. *)
Lemma token_roundtrip_witness :
  (exists d,
      Jwt.verifyToken Jwt.default_config
        (Jwt.generateToken Jwt.default_config sample_claims 0) 604799000 = Some d
      /\ d !! "email" = Some (Js.JStr "ann@acme.io")
      /\ d !! "tokenType" = Some (Js.JStr "access"))
  /\ Jwt.verifyToken Jwt.default_config
       (Jwt.generateToken Jwt.default_config sample_claims 0) 604800000
     = None.
Proof.
  split.
  - destruct (token_roundtrip Jwt.default_config sample_claims "7f9c" 0 604799000)
      as [(d & Hm & Hv) _].
    exists d. split; [rewrite Hv; reflexivity |].
    destruct Hm as (Hcopied & Htype & _). split; [| exact Htype].
    rewrite Hcopied; [vm_compute; reflexivity |].
    apply elem_of_cons. right. apply elem_of_cons. left. reflexivity.
  - destruct (token_roundtrip Jwt.default_config sample_claims "7f9c" 0 604800000)
      as [(d & _ & Hv) _].
    rewrite Hv. reflexivity.
Defined.

(** ** The session resolver *)

(** The resolver as the specification describes it: a list of checks in a
    fixed order, over whatever represents credentials, users and
    tenants. *)
Module ResolverSpec.

Inductive outcome :=
| Reject (status : Z) (code : string)
| Principal (auth : Http.auth_t).

Section Machine.

Context {U T : Type}.

(** The bearer credential of the request, when it presents one. *)
Variable credential : option string.
(** The token service's [verify]. *)
Variable verify : string -> option Jwt.obj.
(** The user named by the claims, [Some None] when there is none and
    [None] when the lookup fails; and the owning tenant of a user. *)
Variable user_of : Jwt.obj -> option (option U).
Variable user_active : U -> bool.
Variable tenant_of : U -> option T.
Variable tenant_active : T -> bool.
Variable tenant_id : T -> string.
Variable principal : U -> T -> Http.auth_t.

Definition is_access (d : Jwt.obj) : Prop :=
  d !! "tokenType" = Some (Js.JStr "access").

Inductive resolves : outcome -> Prop :=
| no_token :
    credential = None ->
    resolves (Reject 401 "NO_TOKEN")
| invalid_token tk :
    credential = Some tk -> verify tk = None ->
    resolves (Reject 401 "INVALID_TOKEN")
| invalid_token_type tk d :
    credential = Some tk -> verify tk = Some d ->
    ~ is_access d ->
    resolves (Reject 401 "INVALID_TOKEN_TYPE")
| lookup_fails tk d :
    credential = Some tk -> verify tk = Some d -> is_access d ->
    user_of d = None ->
    resolves (Reject 500 "AUTH_SERVICE_ERROR")
| user_not_found tk d :
    credential = Some tk -> verify tk = Some d -> is_access d ->
    user_of d = Some None ->
    resolves (Reject 401 "USER_NOT_FOUND")
| user_inactive tk d u :
    credential = Some tk -> verify tk = Some d -> is_access d ->
    user_of d = Some (Some u) -> user_active u = false ->
    resolves (Reject 401 "USER_INACTIVE")
| tenant_inactive tk d u :
    credential = Some tk -> verify tk = Some d -> is_access d ->
    user_of d = Some (Some u) -> user_active u = true ->
    (tenant_of u = None
     \/ exists t, tenant_of u = Some t /\ tenant_active t = false) ->
    resolves (Reject 401 "TENANT_INACTIVE")
| tenant_mismatch tk d u t :
    credential = Some tk -> verify tk = Some d -> is_access d ->
    user_of d = Some (Some u) -> user_active u = true ->
    tenant_of u = Some t -> tenant_active t = true ->
    d !! "tenantId" <> Some (Js.JStr (tenant_id t)) ->
    resolves (Reject 401 "TENANT_MISMATCH")
| resolved tk d u t :
    credential = Some tk -> verify tk = Some d -> is_access d ->
    user_of d = Some (Some u) -> user_active u = true ->
    tenant_of u = Some t -> tenant_active t = true ->
    d !! "tenantId" = Some (Js.JStr (tenant_id t)) ->
    resolves (Principal (principal u t)).

(** The outcome the checks determine, computed. *)
Definition decide_outcome : outcome :=
  match credential with
  | None => Reject 401 "NO_TOKEN"
  | Some tk =>
      match verify tk with
      | None => Reject 401 "INVALID_TOKEN"
      | Some d =>
          if negb (Js.strict_eq_str (d !! "tokenType") "access")
          then Reject 401 "INVALID_TOKEN_TYPE"
          else
            match user_of d with
            | None => Reject 500 "AUTH_SERVICE_ERROR"
            | Some None => Reject 401 "USER_NOT_FOUND"
            | Some (Some u) =>
                if negb (user_active u) then Reject 401 "USER_INACTIVE"
                else
                  match tenant_of u with
                  | None => Reject 401 "TENANT_INACTIVE"
                  | Some t =>
                      if negb (tenant_active t) then Reject 401 "TENANT_INACTIVE"
                      else if negb (Js.strict_eq_str (d !! "tenantId") (tenant_id t))
                      then Reject 401 "TENANT_MISMATCH"
                      else Principal (principal u t)
                  end
            end
      end
  end.

End Machine.

End ResolverSpec.

Lemma strict_eq_str_iff (v : option Js.jval) (s : string) :
  Js.strict_eq_str v s = true <-> v = Some (Js.JStr s).
Proof.
  unfold Js.strict_eq_str. destruct v as [[| b | n | s' | f] |];
    try (split; [discriminate | intros [=]]).
  rewrite String.eqb_eq. split; [intros -> | intros [= ->]]; reflexivity.
Qed.

Lemma strict_eq_str_false (v : option Js.jval) (s : string) :
  Js.strict_eq_str v s = false <-> v <> Some (Js.JStr s).
Proof.
  rewrite <- strict_eq_str_iff. destruct (Js.strict_eq_str v s); split;
    congruence.
Qed.

(** The checks determine exactly one outcome. *)
Lemma resolves_decided {U T : Type} (credential : option string)
  (verify : string -> option Jwt.obj) (user_of : Jwt.obj -> option (option U))
  (user_active : U -> bool) (tenant_of : U -> option T)
  (tenant_active : T -> bool) (tenant_id : T -> string)
  (principal : U -> T -> Http.auth_t) (o : ResolverSpec.outcome) :
  ResolverSpec.resolves credential verify user_of user_active tenant_of
    tenant_active tenant_id principal o
  <-> o = ResolverSpec.decide_outcome credential verify user_of user_active
            tenant_of tenant_active tenant_id principal.
Proof.
  unfold ResolverSpec.decide_outcome. split.
  - intros H. destruct H as
      [Hc | tk Hc Hv | tk d Hc Hv Ht | tk d Hc Hv Ht Hu | tk d Hc Hv Ht Hu
       | tk d u Hc Hv Ht Hu Ha
       | tk d u Hc Hv Ht Hu Ha Hn | tk d u t Hc Hv Ht Hu Ha Hn Hna Hm
       | tk d u t Hc Hv Ht Hu Ha Hn Hna Hm];
      rewrite Hc; try rewrite Hv; try reflexivity.
    + apply strict_eq_str_false in Ht. rewrite Ht. reflexivity.
    + apply strict_eq_str_iff in Ht. rewrite Ht. simpl. rewrite Hu. reflexivity.
    + apply strict_eq_str_iff in Ht. rewrite Ht. simpl. rewrite Hu. reflexivity.
    + apply strict_eq_str_iff in Ht. rewrite Ht. simpl. rewrite Hu, Ha. reflexivity.
    + apply strict_eq_str_iff in Ht. rewrite Ht. simpl. rewrite Hu, Ha. simpl.
      destruct Hn as [-> | (t & -> & ->)]; reflexivity.
    + apply strict_eq_str_iff in Ht. rewrite Ht. simpl.
      rewrite Hu, Ha. simpl. rewrite Hn, Hna. simpl.
      apply strict_eq_str_false in Hm. rewrite Hm. reflexivity.
    + apply strict_eq_str_iff in Ht. rewrite Ht. simpl.
      rewrite Hu, Ha. simpl. rewrite Hn, Hna. simpl.
      apply strict_eq_str_iff in Hm. rewrite Hm. reflexivity.
  - intros ->.
    destruct credential as [tk |]; [| apply ResolverSpec.no_token; reflexivity].
    destruct (verify tk) as [d |] eqn:Hv;
      [| eapply ResolverSpec.invalid_token; [reflexivity | exact Hv]].
    destruct (Js.strict_eq_str (d !! "tokenType") "access") eqn:Ht; simpl.
    2:{ eapply ResolverSpec.invalid_token_type; [reflexivity | exact Hv |].
        apply strict_eq_str_false. exact Ht. }
    apply strict_eq_str_iff in Ht.
    destruct (user_of d) as [[u |] |] eqn:Hu;
      [| eapply ResolverSpec.user_not_found; [reflexivity | eassumption ..]
       | eapply ResolverSpec.lookup_fails; [reflexivity | eassumption ..]].
    destruct (user_active u) eqn:Ha; simpl;
      [| eapply ResolverSpec.user_inactive; [reflexivity | eassumption ..]].
    destruct (tenant_of u) as [t |] eqn:Hn.
    2:{ apply ResolverSpec.tenant_inactive with (tk := tk) (d := d) (u := u);
          try assumption; try reflexivity.
        left. exact Hn. }
    destruct (tenant_active t) eqn:Hna; simpl.
    2:{ apply ResolverSpec.tenant_inactive with (tk := tk) (d := d) (u := u);
          try assumption; try reflexivity.
        right. exists t. split; [exact Hn | exact Hna]. }
    destruct (Js.strict_eq_str (d !! "tenantId") (tenant_id t)) eqn:Hm; simpl.
    + apply ResolverSpec.resolved with (tk := tk) (d := d);
        try assumption; try reflexivity.
      apply strict_eq_str_iff. exact Hm.
    + apply ResolverSpec.tenant_mismatch with (tk := tk) (d := d) (u := u) (t := t);
        try assumption; try reflexivity.
      apply strict_eq_str_false. exact Hm.
Qed.

(** The credential of a request: the second word of a two-word
    [Authorization] header that starts with [Bearer], when not empty. *)
Definition bearer_header (req : AuthRequest.t) : option string :=
  match Jwt.extractTokenFromHeader (AuthRequest.authorization req) with
  | Some s => if Js.truthy_str s then Some s else None
  | None => None
  end.

(** The credential when the [authToken] cookie stands in for a missing
    header credential. *)
Definition bearer_or_cookie (req : AuthRequest.t) : option string :=
  match bearer_header req with
  | Some s => Some s
  | None =>
      match AuthRequest.cookie_authToken req with
      | Some c => if Js.truthy_str c then Some c else None
      | None => None
      end
  end.

Definition stored_principal (u : User.t) (t : Tenant.t) : Http.auth_t :=
  {| Http.userId := User._id u; Http.tenantId := Tenant._id t;
     Http.tenantSlug := Tenant.slug t; Http.role := User.role u;
     Http.permissions := User.permissions u; Http.isAdmin := User.isAdmin u |}.

Definition object_principal (u : UserObj.t) (t : TenantObj.t) : Http.auth_t :=
  {| Http.userId := UserObj._id u; Http.tenantId := TenantObj._id t;
     Http.tenantSlug := TenantObj.slug t; Http.role := UserObj.role u;
     Http.permissions := UserObj.permissions u;
     Http.isAdmin := match UserObj.role u with
                     | User.admin => true
                     | User.member => false
                     end |}.

Definition embedded_tenant (u : UserObj.t) : option TenantObj.t :=
  match UserObj.tenantId u with
  | UserObj.Embedded o => Some o
  | UserObj.Raw _ => None
  end.

(** What a caller observes of [authenticate]: the status and code of the
    response, or the principal handed to the next handler. *)
Definition observed (r : AuthMiddleware.result) : ResolverSpec.outcome :=
  match r with
  | AuthMiddleware.Respond r =>
      ResolverSpec.Reject (Http.status r) (default "" (Http.code_of r))
  | AuthMiddleware.Next c => ResolverSpec.Principal (AuthMiddleware.req_auth c)
  end.

Definition observed2 (r : AuthMiddleware2.result) : ResolverSpec.outcome :=
  match r with
  | AuthMiddleware2.Respond r =>
      ResolverSpec.Reject (Http.status r) (default "" (Http.code_of r))
  | AuthMiddleware2.Next c => ResolverSpec.Principal (AuthMiddleware2.req_auth c)
  end.

(** Follows the checks of a handler one [match] at a time. *)
Ltac walk_checks :=
  repeat match goal with
         | |- context [match ?x with _ => _ end] =>
             destruct x; simpl; try reflexivity
         end.

Lemma authenticate_decided (cfg : Jwt.config)
  (decodeCompact : string -> option Jwt.token)
  (castObjectId : Js.jval -> option string) (st : Store.t) (now : Z)
  (req : AuthRequest.t) :
  observed (AuthMiddleware.authenticate cfg decodeCompact castObjectId st now req) =
  ResolverSpec.decide_outcome (bearer_header req)
    (AuthMiddleware.verifyToken cfg decodeCompact now)
    (fun d => AuthMiddleware.findById castObjectId st (d !! "userId")) User.isActive
    (fun u => Store.findTenantById st (User.tenantId u)) Tenant.isActive
    Tenant._id stored_principal.
Proof.
  unfold AuthMiddleware.authenticate, ResolverSpec.decide_outcome, bearer_header.
  destruct (Jwt.extractTokenFromHeader (AuthRequest.authorization req))
    as [[| c s] |]; simpl; try reflexivity; walk_checks.
Qed.

Lemma authenticate2_decided (cfg : Jwt.config)
  (decodeCompact : string -> option Jwt.token)
  (castObjectId : Js.jval -> option string) (dbConnected : bool)
  (st : Store.t) (now : Z) (req : AuthRequest.t) :
  observed2 (AuthMiddleware2.authenticate cfg decodeCompact castObjectId
               dbConnected st now req) =
  ResolverSpec.decide_outcome (bearer_or_cookie req)
    (AuthMiddleware.verifyToken cfg decodeCompact now)
    (fun d => AuthMiddleware2.loadUser castObjectId dbConnected st (d !! "userId"))
    UserObj.isActive embedded_tenant TenantObj.isActive TenantObj._id
    object_principal.
Proof.
  unfold AuthMiddleware2.authenticate, ResolverSpec.decide_outcome,
    bearer_or_cookie, bearer_header, embedded_tenant.
  destruct (Jwt.extractTokenFromHeader (AuthRequest.authorization req))
    as [[| c s] |]; simpl;
    try (destruct (AuthRequest.cookie_authToken req) as [[| c' s'] |]; simpl);
    try reflexivity; walk_checks.
Qed.

(** A run of the resolver: the header carries the access token issued to
    the sample user for tenant [t1]. *)
Definition sample_token : Jwt.token :=
  Jwt.generateToken Jwt.default_config
    (Jwt.tokenPayload "u1" "ann@acme.io" "t1" "acme" User.member
       Mock.member_permissions) 0.

Definition sample_decode (s : string) : option Jwt.token :=
  if String.eqb s "header.payload.signature" then Some sample_token else None.

Definition sample_request : AuthRequest.t :=
  {| AuthRequest.authorization := Some "Bearer header.payload.signature";
     AuthRequest.cookie_authToken := None |}.

(** In the examples the identifiers of the stored documents are written
    [u1], [u2], [t1] and [t2]: the cast to [ObjectId] accepts these
    strings and throws on every other value. *)
Definition sample_cast (v : Js.jval) : option string :=
  match v with
  | Js.JStr s =>
      if existsb (String.eqb s) ["u1"; "u2"; "t1"; "t2"] then Some s else None
  | _ => None
  end.

(** The store after the sample user was moved to another tenant. *)
Definition moved_store : Store.t :=
  {| Store.users :=
       [{| User._id := "u1"; User.email := "ann@acme.io";
           User.password := "hash:secret1"; User.tenantId := "t2";
           User.role := User.member;
           User.profile := {| User.firstName := "Ann"; User.lastName := "" |};
           User.security :=
             {| User.lastLogin := None; User.loginAttempts := 0;
                User.lockUntil := None |};
           User.permissions := Mock.member_permissions;
           User.isActive := true |}];
     Store.tenants :=
       [sample_tenant Tenant.free 3 0;
        {| Tenant._id := "t2"; Tenant.slug := "globex"; Tenant.name := "Globex";
           Tenant.plan := Tenant.pro; Tenant.noteLimit := -1;
           Tenant.subscription :=
             {| Tenant.status := Tenant.active; Tenant.startDate := 0;
                Tenant.endDate := None |};
           Tenant.usage :=
             {| Tenant.currentNoteCount := 0; Tenant.currentUserCount := 1;
                Tenant.storageUsed := 0 |};
           Tenant.isActive := true; Tenant.updatedAt := 0 |}] |}.

Lemma resolver_runs :
  observed (AuthMiddleware.authenticate Jwt.default_config sample_decode
              sample_cast sample_store 1000 sample_request)
  = ResolverSpec.Principal
      {| Http.userId := "u1"; Http.tenantId := "t1"; Http.tenantSlug := "acme";
         Http.role := User.member; Http.permissions := Mock.member_permissions;
         Http.isAdmin := false |}
  /\ observed (AuthMiddleware.authenticate Jwt.default_config sample_decode
                 sample_cast moved_store 1000 sample_request)
     = ResolverSpec.Reject 401 "TENANT_MISMATCH"
  /\ observed (AuthMiddleware.authenticate Jwt.default_config sample_decode
                 sample_cast sample_store 604800000 sample_request)
     = ResolverSpec.Reject 401 "INVALID_TOKEN"
  /\ observed (AuthMiddleware.authenticate Jwt.default_config sample_decode
                 sample_cast sample_store 1000
                 {| AuthRequest.authorization := Some "Basic abc";
                    AuthRequest.cookie_authToken := Some "header.payload.signature" |})
     = ResolverSpec.Reject 401 "NO_TOKEN"
  /\ observed2 (AuthMiddleware2.authenticate Jwt.default_config sample_decode
                  sample_cast false sample_store 1000
                  {| AuthRequest.authorization := Some "Basic abc";
                     AuthRequest.cookie_authToken := Some "header.payload.signature" |})
     = ResolverSpec.Reject 401 "USER_NOT_FOUND".
Proof. vm_compute. repeat split. Qed.

(** ** Token types *)

(** X3.  Both revisions of the resolver answer [INVALID_TOKEN_TYPE] to every
    verified token whose [tokenType] is not ['access']. *)
Lemma resolver_rejects_other_types (cfg : Jwt.config)
  (decodeCompact : string -> option Jwt.token)
  (castObjectId : Js.jval -> option string) (dbConnected : bool)
  (st : Store.t) (now : Z) (req : AuthRequest.t) (tk : string) (d : Jwt.obj) :
  bearer_header req = Some tk ->
  AuthMiddleware.verifyToken cfg decodeCompact now tk = Some d ->
  d !! "tokenType" <> Some (Js.JStr "access") ->
  observed (AuthMiddleware.authenticate cfg decodeCompact castObjectId st now req)
  = ResolverSpec.Reject 401 "INVALID_TOKEN_TYPE"
  /\ observed2 (AuthMiddleware2.authenticate cfg decodeCompact castObjectId
                  dbConnected st now req)
     = ResolverSpec.Reject 401 "INVALID_TOKEN_TYPE".
Proof.
  intros Hc Hv Ht. split.
  - rewrite authenticate_decided. symmetry. apply resolves_decided.
    eapply ResolverSpec.invalid_token_type; eassumption.
  - rewrite authenticate2_decided. symmetry. apply resolves_decided.
    eapply ResolverSpec.invalid_token_type; try eassumption.
    unfold bearer_or_cookie. rewrite Hc. reflexivity.
Qed.

(** The refresh token issued to the sample user. *)
Definition sample_refresh_token : Jwt.token :=
  Jwt.generateRefreshToken Jwt.default_config
    (Jwt.tokenPayload "u1" "ann@acme.io" "t1" "acme" User.member
       Mock.member_permissions) "7f9c" 0.

(** Both resolvers on a request that carries the sample refresh token. *)
Lemma resolver_rejects_other_types_witness :
  observed (AuthMiddleware.authenticate Jwt.default_config
              (fun _ => Some sample_refresh_token) sample_cast sample_store 1000
              sample_request)
  = ResolverSpec.Reject 401 "INVALID_TOKEN_TYPE"
  /\ observed2 (AuthMiddleware2.authenticate Jwt.default_config
                  (fun _ => Some sample_refresh_token) sample_cast true
                  sample_store 1000 sample_request)
     = ResolverSpec.Reject 401 "INVALID_TOKEN_TYPE".
Proof.
  apply (resolver_rejects_other_types Jwt.default_config
           (fun _ => Some sample_refresh_token) sample_cast true sample_store 1000
           sample_request "header.payload.signature"
           (Jwt.payload sample_refresh_token)).
  - reflexivity.
  - vm_compute. reflexivity.
  - vm_compute. discriminate.
Defined.

(** The claims of the access token issued to the sample user. *)
Definition sample_access_claims : Jwt.obj := Jwt.payload sample_token.

(** C4, the defect.  Neither refresh handler ever answers
    [INVALID_TOKEN_TYPE].  The handler of the store-only revision has the
    check on [tokenType], but the call [verifyToken(token)] before it
    throws, because the file does not import that name; the handler of
    the revision with development accounts has no such check, and its
    call [jwt.verify(...)] throws for the same reason.  Both answer 401
    [REFRESH_TOKEN_REQUIRED] to a missing token and 401
    [INVALID_REFRESH_TOKEN] to every other body; so they answer the
    access token of the sample user, which the token service verifies as
    an access token, with [INVALID_REFRESH_TOKEN]. *)
Theorem refresh_handlers_never_answer_token_type :
  (forall cfg castObjectId st now token,
      let r := AuthController.refreshToken cfg castObjectId st now token in
      Http.status r = 401
      /\ Http.code_of r
         = Some (if AuthRequest.falsy token then "REFRESH_TOKEN_REQUIRED"
                 else "INVALID_REFRESH_TOKEN"))
  /\ (forall cfg castObjectId st now token,
         let r := AuthController2.refreshToken cfg castObjectId st now token in
         Http.status r = 401
         /\ Http.code_of r
            = Some (if AuthRequest.falsy token then "REFRESH_TOKEN_REQUIRED"
                    else "INVALID_REFRESH_TOKEN"))
  /\ Jwt.verifyToken Jwt.default_config sample_token 1000 = Some sample_access_claims
  /\ sample_access_claims !! "tokenType" = Some (Js.JStr "access")
  /\ AuthController.refreshToken Jwt.default_config sample_cast sample_store 1000
       (Some "header.payload.signature")
     = Http.fail 401 "Invalid refresh token" "INVALID_REFRESH_TOKEN"
  /\ AuthController2.refreshToken Jwt.default_config sample_cast sample_store 1000
       (Some "header.payload.signature")
     = Http.fail 401 "Invalid refresh token" "INVALID_REFRESH_TOKEN".
Proof.
  split; [| split; [| split; [| split; [| split]]]].
  - intros cfg cast st now token. cbv zeta. unfold AuthController.refreshToken.
    destruct (AuthRequest.falsy token); split; reflexivity.
  - intros cfg cast st now token. cbv zeta. unfold AuthController2.refreshToken.
    destruct (AuthRequest.falsy token); split; reflexivity.
  - vm_compute. reflexivity.
  - vm_compute. reflexivity.
  - reflexivity.
  - reflexivity.
Qed.

(** ** Login *)

(** A stand-in for [bcrypt.compare] in the examples: the hash of [p] is
    ["hash:" ++ p]. *)
Definition toy_compare (p h : string) : bool := String.eqb ("hash:" ++ p) h.

Definition toy_hash (p : string) : string := "hash:" ++ p.



(** The wrong password is still recorded: the two requests differ in
    their effect on the store, not in their response. *)
Lemma login_failure_is_recorded :
  Store.findUserById
    (AuthController.login Jwt.default_config toy_compare sample_store 1000 "a2"
       {| AuthBody.email := "Ann@Acme.io"; AuthBody.password := "guess" |}).2 "u1"
  = Some (sample_user 1 None).
Proof. reflexivity. Qed.

Definition mock_emails : list string :=
  ["admin@acme.test"; "user@acme.test"; "admin@globex.test"; "user@globex.test"].




(** X2.  In the store-only [login] the tenant check comes first: a correct
    password for a user whose tenant is missing or inactive gives 403
    [TENANT_INACTIVE] and leaves the store as it was. *)
Lemma login_checks_tenant_before_success (cfg : Jwt.config)
  (bcrypt_compare : string -> string -> bool) (st : Store.t) (now : Z)
  (uuid : string) (body : AuthBody.credentials) (u : User.t) :
  Store.findActiveUserByEmail st (Js.toLowerCase (AuthBody.email body)) = Some u ->
  User.isLocked now u = false ->
  User.comparePassword bcrypt_compare u (AuthBody.password body) = true ->
  (Store.findTenantById st (User.tenantId u) = None
   \/ exists t, Store.findTenantById st (User.tenantId u) = Some t
                /\ Tenant.isActive t = false) ->
  AuthController.login cfg bcrypt_compare st now uuid body
  = (Http.fail 403 "Organization account is inactive" "TENANT_INACTIVE", st).
Proof.
  intros Hu Hl Hp Ht. unfold AuthController.login. rewrite Hu, Hl, Hp. simpl.
  destruct Ht as [-> | (t & -> & ->)]; reflexivity.
Qed.

(** A store in which the tenant of the sample user does not exist; the
    user has two failures on record. *)
Definition orphan_store : Store.t :=
  {| Store.users := [sample_user 2 None]; Store.tenants := [] |}.

Definition good_login : AuthBody.credentials :=
  {| AuthBody.email := "Ann@Acme.io"; AuthBody.password := "secret1" |}.

(** The store-only [login] on the user whose tenant does not exist. *)
Lemma login_checks_tenant_before_success_witness :
  AuthController.login Jwt.default_config toy_compare orphan_store 5000 "a1"
    good_login
  = (Http.fail 403 "Organization account is inactive" "TENANT_INACTIVE",
     orphan_store).
Proof.
  apply (login_checks_tenant_before_success Jwt.default_config toy_compare
           orphan_store 5000 "a1" good_login (sample_user 2 None));
    try reflexivity.
  left. reflexivity.
Defined.

(** C10, the defect.  In the [login] of the revision with development
    accounts, [resetLoginAttempts] runs before the tenant check: for a
    stored user without tenant and a correct password the response is 403
    [TENANT_INACTIVE], yet the stored counter has gone from 2 to 0 and
    [lastLogin] has been set.  The store-only [login] answers the same
    request with the same response and leaves the store unchanged. *)
Theorem login2_records_success_before_tenant_check :
  let res := AuthController2.login Jwt.default_config toy_compare true
               orphan_store 5000 "a1" good_login in
  res.1 = Http.fail 403 "Organization account is inactive" "TENANT_INACTIVE"
  /\ User.security <$> Store.findUserById orphan_store "u1"
     = Some {| User.lastLogin := None; User.loginAttempts := 2;
               User.lockUntil := None |}
  /\ User.security <$> Store.findUserById res.2 "u1"
     = Some {| User.lastLogin := Some 5000; User.loginAttempts := 0;
               User.lockUntil := None |}
  /\ AuthController.login Jwt.default_config toy_compare orphan_store 5000 "a1"
       good_login
     = (Http.fail 403 "Organization account is inactive" "TENANT_INACTIVE",
        orphan_store).
Proof. vm_compute. repeat split. Qed.

(** The same order of steps for every stored user whose tenant is not
    found: the response is [TENANT_INACTIVE] and the store is the one left
    by [resetLoginAttempts]. *)
Lemma login2_unresolved_tenant (cfg : Jwt.config)
  (bcrypt_compare : string -> string -> bool) (st : Store.t) (now : Z)
  (uuid : string) (body : AuthBody.credentials) (u : User.t) :
  AuthController2.mockUsers !! Js.toLowerCase (AuthBody.email body) = None ->
  Store.findActiveUserByEmail st (Js.toLowerCase (AuthBody.email body)) = Some u ->
  Store.findTenantBySlug st (User.tenantId u) = None ->
  User.isLocked now u = false ->
  User.comparePassword bcrypt_compare u (AuthBody.password body) = true ->
  AuthController2.login cfg bcrypt_compare true st now uuid body
  = (Http.fail 403 "Organization account is inactive" "TENANT_INACTIVE",
     Store.updateUser st (User._id u) (User.resetLoginAttempts_update now)).
Proof.
  intros Hm Hu Ht Hl Hp. unfold AuthController2.login.
  rewrite Hm, Hu, Ht, Hl, Hp. reflexivity.
Qed.

(** With the tenant found, the same revision never reaches the password
    check of a stored user: the plain object it built has no
    [comparePassword]. *)
Lemma login2_resolved_tenant (cfg : Jwt.config)
  (bcrypt_compare : string -> string -> bool) (st : Store.t) (now : Z)
  (uuid : string) (body : AuthBody.credentials) (u : User.t) (t : Tenant.t) :
  AuthController2.mockUsers !! Js.toLowerCase (AuthBody.email body) = None ->
  Store.findActiveUserByEmail st (Js.toLowerCase (AuthBody.email body)) = Some u ->
  Store.findTenantBySlug st (User.tenantId u) = Some t ->
  User.isLocked now u = false ->
  AuthController2.login cfg bcrypt_compare true st now uuid body
  = (Http.fail 500 "Login service error" "LOGIN_SERVICE_ERROR", st).
Proof.
  intros Hm Hu Ht Hl. unfold AuthController2.login.
  rewrite Hm, Hu, Ht, Hl. reflexivity.
Qed.

(** ** Registration *)

Fixpoint all_chars (p : ascii -> bool) (s : string) : bool :=
  match s with
  | EmptyString => true
  | String c r => p c && all_chars p r
  end.

(** The characters a derived slug is made of: [[a-z0-9-]]. *)
Definition slug_out (c : ascii) : bool :=
  Js.is_lower c || Js.is_digit c || Js.is_hyphen c.

Lemma all_chars_weaken (p q : ascii -> bool) (s : string) :
  (forall c, p c = true -> q c = true) ->
  all_chars p s = true -> all_chars q s = true.
Proof.
  intros Hpq. induction s as [| c r IH]; simpl; [reflexivity |].
  rewrite !andb_true_iff. intros [Hc Hr]. split; auto.
Qed.

Lemma remove_outside_all (keep : ascii -> bool) (s : string) :
  all_chars keep (Js.remove_outside keep s) = true.
Proof.
  induction s as [| c r IH]; simpl; [reflexivity |].
  destruct (keep c) eqn:Hk; simpl; [rewrite Hk |]; exact IH.
Qed.

Lemma replace_runs_from_all (p q : ascii -> bool) (b : bool) (s : string) :
  all_chars q s = true ->
  all_chars (fun c => Js.is_hyphen c || (q c && negb (p c)))
    (Js.replace_runs_from p b s) = true.
Proof.
  revert b. induction s as [| c r IH]; intros b; simpl; [reflexivity |].
  rewrite andb_true_iff. intros [Hc Hr].
  destruct (p c) eqn:Hp.
  - destruct b; simpl; auto.
  - simpl. rewrite Hc, Hp, orb_true_r. simpl. auto.
Qed.

Lemma slug_out_not_space (c : ascii) : slug_out c = true -> Js.is_space c = false.
Proof.
  destruct c as [[] [] [] [] [] [] [] []]; vm_compute; congruence.
Qed.

Lemma slug_out_not_upper (c : ascii) : slug_out c = true -> Js.is_upper c = false.
Proof.
  destruct c as [[] [] [] [] [] [] [] []]; vm_compute; congruence.
Qed.

Lemma slug_char_out (c : ascii) :
  Js.is_hyphen c || (AuthController.slug_char c && negb (Js.is_space c)) = true ->
  slug_out c = true.
Proof.
  destruct c as [[] [] [] [] [] [] [] []]; vm_compute; congruence.
Qed.

Lemma slug_out_stable (c : ascii) :
  Js.is_hyphen c || (slug_out c && negb (Js.is_hyphen c)) = true ->
  slug_out c = true.
Proof.
  destruct c as [[] [] [] [] [] [] [] []]; vm_compute; congruence.
Qed.

Lemma rev_string_onto_all (q : ascii -> bool) (s acc : string) :
  all_chars q (Js.rev_string_onto s acc) = all_chars q s && all_chars q acc.
Proof.
  revert acc. induction s as [| c r IH]; intros acc; simpl; [reflexivity |].
  rewrite IH. simpl. destruct (q c), (all_chars q r), (all_chars q acc); reflexivity.
Qed.

Lemma rev_string_onto_twice (s a b : string) :
  Js.rev_string_onto (Js.rev_string_onto s a) b
  = Js.rev_string_onto a (String.append s b).
Proof.
  revert a b. induction s as [| c r IH]; intros a b; [reflexivity |].
  change (Js.rev_string_onto (Js.rev_string_onto r (String c a)) b
          = Js.rev_string_onto a (String c (String.append r b))).
  rewrite IH. reflexivity.
Qed.

Lemma append_empty (s : string) : String.append s EmptyString = s.
Proof.
  induction s as [| c r IH]; [reflexivity |].
  change (String c (String.append r EmptyString) = String c r).
  rewrite IH. reflexivity.
Qed.

Lemma rev_string_involutive (s : string) : Js.rev_string (Js.rev_string s) = s.
Proof.
  unfold Js.rev_string. rewrite rev_string_onto_twice. simpl. apply append_empty.
Qed.

Lemma drop_while_none (p : ascii -> bool) (s : string) :
  all_chars (fun c => negb (p c)) s = true -> Js.drop_while p s = s.
Proof.
  destruct s as [| c r]; simpl; [reflexivity |].
  rewrite andb_true_iff. intros [Hc _].
  apply negb_true_iff in Hc. rewrite Hc. reflexivity.
Qed.

Lemma trim_without_spaces (s : string) :
  all_chars (fun c => negb (Js.is_space c)) s = true -> Js.trim s = s.
Proof.
  intros H. unfold Js.trim. rewrite (drop_while_none _ s H).
  rewrite drop_while_none.
  - apply rev_string_involutive.
  - unfold Js.rev_string. rewrite rev_string_onto_all, H. reflexivity.
Qed.

Lemma toLowerCase_without_upper (s : string) :
  all_chars (fun c => negb (Js.is_upper c)) s = true -> Js.toLowerCase s = s.
Proof.
  induction s as [| c r IH]; simpl; [reflexivity |].
  rewrite andb_true_iff. intros [Hc Hr]. apply negb_true_iff in Hc.
  unfold Js.lower_char. rewrite Hc, (IH Hr). reflexivity.
Qed.

(** Before the final [trim], the derived slug already consists of
    [[a-z0-9-]] only. *)
Lemma slug_before_trim (name : string) :
  all_chars slug_out
    (Js.replace_runs Js.is_hyphen
       (Js.replace_runs Js.is_space
          (Js.remove_outside AuthController.slug_char (Js.toLowerCase name))))
  = true.
Proof.
  unfold Js.replace_runs.
  eapply all_chars_weaken; [apply slug_out_stable |].
  apply replace_runs_from_all.
  eapply all_chars_weaken; [apply slug_char_out |].
  apply replace_runs_from_all. apply remove_outside_all.
Qed.

(** The derived slug consists of [[a-z0-9-]], its final [trim] removes
    nothing, and the schema's setters leave it as it is. *)
Lemma tenantSlug_shape (name : string) :
  all_chars slug_out (AuthController.tenantSlug name) = true
  /\ AuthController.tenantSlug name
     = Js.replace_runs Js.is_hyphen
         (Js.replace_runs Js.is_space
            (Js.remove_outside AuthController.slug_char (Js.toLowerCase name)))
  /\ Js.trim (Js.toLowerCase (AuthController.tenantSlug name))
     = AuthController.tenantSlug name.
Proof.
  pose proof (slug_before_trim name) as H.
  assert (Ht : AuthController.tenantSlug name
               = Js.replace_runs Js.is_hyphen
                   (Js.replace_runs Js.is_space
                      (Js.remove_outside AuthController.slug_char
                         (Js.toLowerCase name)))).
  { unfold AuthController.tenantSlug. apply trim_without_spaces.
    eapply all_chars_weaken; [| exact H].
    intros c Hc. rewrite (slug_out_not_space c Hc). reflexivity. }
  split; [rewrite Ht; exact H |]. split; [exact Ht |].
  rewrite toLowerCase_without_upper.
  - rewrite Ht at 1. rewrite <- Ht.
    apply trim_without_spaces. rewrite Ht.
    eapply all_chars_weaken; [| exact H].
    intros c Hc. rewrite (slug_out_not_space c Hc). reflexivity.
  - rewrite Ht. eapply all_chars_weaken; [| exact H].
    intros c Hc. rewrite (slug_out_not_upper c Hc). reflexivity.
Qed.

Lemma find_app_fresh {A} (p : A -> bool) (l : list A) (x : A) :
  List.find p l = None -> p x = true -> List.find p (l ++ [x])%list = Some x.
Proof.
  intros Hn Hx. induction l as [| a l IH]; simpl in *; [rewrite Hx; reflexivity |].
  destruct (p a); [discriminate | auto].
Qed.

Lemma update_first_app_fresh {A} (p : A -> bool) (f : A -> A) (l : list A) (x : A) :
  List.find p l = None -> p x = true ->
  Store.update_first p f (l ++ [x])%list = (l ++ [f x])%list.
Proof.
  intros Hn Hx. induction l as [| a l IH]; simpl in *; [rewrite Hx; reflexivity |].
  destruct (p a); [discriminate |]. rewrite IH by exact Hn. reflexivity.
Qed.

(** The tenant document that [register] ends with. *)
Definition registered_tenant (id : string) (now : Z) (name : string) : Tenant.t :=
  {| Tenant._id := id;
     Tenant.slug := AuthController.tenantSlug name;
     Tenant.name := Js.trim name;
     Tenant.plan := Tenant.free;
     Tenant.noteLimit := 3;
     Tenant.subscription :=
       {| Tenant.status := Tenant.active; Tenant.startDate := now;
          Tenant.endDate := None |};
     Tenant.usage :=
       {| Tenant.currentNoteCount := 0; Tenant.currentUserCount := 1;
          Tenant.storageUsed := 0 |};
     Tenant.isActive := true;
     Tenant.updatedAt := now |}.

(** X1.  Registration on documents that pass the schema validators: with a
    new address, a new slug and fresh identifiers, [register] answers 201
    and appends to the store one tenant, with the derived slug, plan free,
    limit 3 and one user counted, and one user, the tenant's admin with
    all six permissions and the hashed password. *)
Lemma register_creates_tenant_and_admin (cfg : Jwt.config)
  (bcrypt_hash : string -> string) (st : Store.t) (now : Z)
  (tenantOid userOid uuid : string) (body : AuthBody.registration) :
  let slug := AuthController.tenantSlug (AuthBody.r_tenantName body) in
  let t0 := AuthController.newTenant tenantOid now slug (AuthBody.r_tenantName body) in
  let u0 := AuthController.newUser userOid body t0 in
  Store.findUserByEmail st (Js.toLowerCase (AuthBody.r_email body)) = None ->
  Store.findTenantBySlug st slug = None ->
  Store.findTenantById st tenantOid = None ->
  Schema.validateTenant t0 = true ->
  Schema.validateUser u0 = true ->
  let t := registered_tenant tenantOid now (AuthBody.r_tenantName body) in
  let u := User.set_password (bcrypt_hash (AuthBody.r_password body)) u0 in
  AuthController.register cfg bcrypt_hash st now tenantOid userOid uuid body
  = (AuthController.session 201 "Registration successful" cfg now uuid u t,
     {| Store.users := (Store.users st ++ [u])%list;
        Store.tenants := (Store.tenants st ++ [t])%list |})
  /\ User.role u = User.admin
  /\ User.permissions u = Perm.all_true
  /\ User.tenantId u = Tenant._id t.
Proof.
  intros slug t0 u0 Hemail Hslug Hid Hvt Hvu t u.
  destruct (tenantSlug_shape (AuthBody.r_tenantName body)) as (_ & _ & Hsetters).
  assert (Ht0 : t0 = {| Tenant._id := tenantOid;
                        Tenant.slug := slug;
                        Tenant.name := Js.trim (AuthBody.r_tenantName body);
                        Tenant.plan := Tenant.free;
                        Tenant.noteLimit := 3;
                        Tenant.subscription :=
                          {| Tenant.status := Tenant.active; Tenant.startDate := now;
                             Tenant.endDate := None |};
                        Tenant.usage :=
                          {| Tenant.currentNoteCount := 0;
                             Tenant.currentUserCount := 0;
                             Tenant.storageUsed := 0 |};
                        Tenant.isActive := true;
                        Tenant.updatedAt := now |}).
  { unfold t0, AuthController.newTenant. fold slug. unfold slug at 1.
    rewrite Hsetters. reflexivity. }
  assert (Hpre : Tenant.preSave now true t0 = t0) by (rewrite Ht0; reflexivity).
  assert (Hinc : Tenant.preSave now false
                   (Tenant.incrementUsage_fields Tenant.users 1 t0) = t)
    by (rewrite Ht0; reflexivity).
  assert (Hvt' : Schema.validateTenant
                   (Tenant.incrementUsage_fields Tenant.users 1 t0) = true).
  { pose proof Hvt as Hparts. apply validateTenant_true in Hparts as (Hn & Hl & _).
    apply validateTenant_true. split; [exact Hn |]. split; [exact Hl |].
    rewrite Ht0. reflexivity. }
  split; [| repeat split].
  unfold AuthController.register. rewrite Hemail. fold slug. rewrite Hslug.
  fold t0. rewrite Hvt. cbn [negb]. rewrite Hpre. fold u0. rewrite Hvu. cbn [negb].
  rewrite Hvt'. cbn [negb]. rewrite Hinc.
  assert (Hu : User.preSave bcrypt_hash true true u0 = u) by reflexivity.
  rewrite Hu. f_equal. unfold Store.replaceTenant, Store.insertUser,
    Store.insertTenant. simpl. f_equal.
  apply (update_first_app_fresh
           (fun d => String.eqb (Tenant._id d) tenantOid) (fun _ => t)).
  - exact Hid.
  - rewrite Ht0. simpl. apply String.eqb_refl.
Qed.

Definition empty_store : Store.t := {| Store.users := []; Store.tenants := [] |}.

(** The registration of the specification's first scenario. *)
Definition scenario_A : AuthBody.registration :=
  {| AuthBody.r_email := "a@x.test"; AuthBody.r_password := "Abcdef1";
     AuthBody.r_tenantName := "Acme Co";
     AuthBody.r_firstName := None; AuthBody.r_lastName := None |}.

(** The same registration from an address with a two-letter final label. *)
Definition scenario_A_io : AuthBody.registration :=
  {| AuthBody.r_email := "a@x.io"; AuthBody.r_password := "Abcdef1";
     AuthBody.r_tenantName := "Acme Co";
     AuthBody.r_firstName := None; AuthBody.r_lastName := None |}.

(** The registration of ["Acme Co"] from an address that the schema
    accepts, on an empty store. *)
Lemma register_creates_tenant_and_admin_witness :
  let res := AuthController.register Jwt.default_config toy_hash empty_store
               1000 "t9" "u9" "a1" scenario_A_io in
  Http.status res.1 = 201
  /\ map Tenant.slug (Store.tenants res.2) = ["acme-co"]
  /\ map User.role (Store.users res.2) = [User.admin]
  /\ map User.permissions (Store.users res.2) = [Perm.all_true].
Proof.
  cbv zeta.
  destruct (register_creates_tenant_and_admin Jwt.default_config toy_hash
              empty_store 1000 "t9" "u9" "a1" scenario_A_io)
    as (Heq & _); try (vm_compute; reflexivity).
  rewrite Heq. vm_compute. repeat split.
Defined.

(** The e-mail pattern of the user schema rejects the addresses of the
    documented test accounts, which the seeding script saves through the
    same schema. *)
Lemma seed_addresses_fail_email_pattern :
  forallb (fun e => negb (Schema.matches Schema.email_pattern e)) mock_emails = true
  /\ Schema.matches Schema.email_pattern "john.doe@mail.example.com" = true.
Proof. vm_compute. split; reflexivity. Qed.

(** C9, the defect.  The organisation name ["Acme Co"] gives the slug
    [acme-co], and [register] saves a tenant with that slug, plan free and
    limit 3.  The user document is then validated against the schema's
    e-mail pattern, whose last label allows two or three characters: the
    address [a@x.test] fails it, [register] answers 500
    [REGISTRATION_SERVICE_ERROR], and the store holds the new tenant and no
    user.  With the address [a@x.io] the same request answers 201 and
    stores the founding admin with all six permissions. *)
Theorem register_scenario_A_rejects_email :
  let res := AuthController.register Jwt.default_config toy_hash empty_store
               1000 "t9" "u9" "a1" scenario_A in
  let ok := AuthController.register Jwt.default_config toy_hash empty_store
              1000 "t9" "u9" "a1" scenario_A_io in
  AuthController.tenantSlug "Acme Co" = "acme-co"
  /\ Schema.matches Schema.email_pattern "a@x.test" = false
  /\ res.1 = Http.fail 500 "Registration service error" "REGISTRATION_SERVICE_ERROR"
  /\ Store.users res.2 = []
  /\ map (fun t => (Tenant.slug t, Tenant.plan t, Tenant.noteLimit t))
       (Store.tenants res.2) = [("acme-co", Tenant.free, 3)]
  /\ Http.status ok.1 = 201
  /\ map (fun u => (User.email u, User.role u, User.permissions u))
       (Store.users ok.2) = [("a@x.io", User.admin, Perm.all_true)]
  /\ map (fun t => (Tenant.slug t, Tenant.plan t, Tenant.noteLimit t))
       (Store.tenants ok.2) = [("acme-co", Tenant.free, 3)].
Proof. vm_compute. repeat split. Qed.

(* ================================================================= *)
(** * Further properties: the request path, the tenant and the notes *)

(** ** The bearer header *)

(** The characters other than the separator. *)
Definition not_sep (sep : ascii) (c : ascii) : bool := negb (Ascii.eqb c sep).

Lemma rev_string_onto_app (s a b : string) :
  Js.rev_string_onto s (String.append a b) = String.append (Js.rev_string_onto s a) b.
Proof.
  revert a. induction s as [| c r IH]; intros a; [reflexivity |].
  simpl. rewrite <- IH. reflexivity.
Qed.

Lemma rev_string_onto_append (s acc : string) :
  Js.rev_string_onto s acc = String.append (Js.rev_string s) acc.
Proof.
  unfold Js.rev_string. rewrite <- rev_string_onto_app. reflexivity.
Qed.

(** A string without separator is one piece. *)
Lemma split_from_one_piece (sep : ascii) (cur s : string) :
  all_chars (not_sep sep) s = true ->
  Js.split_from sep cur s = [Js.rev_string_onto cur s].
Proof.
  revert cur. induction s as [| c r IH]; intros cur; simpl; [reflexivity |].
  rewrite andb_true_iff. unfold not_sep at 1. intros [Hc Hr].
  apply negb_true_iff in Hc. rewrite Hc. apply IH. exact Hr.
Qed.

(** [pieces.join(sep)] *)
Definition join (sep : ascii) (l : list string) : string :=
  match l with
  | [] => EmptyString
  | x :: r => String.append x (fold_right (fun y acc => String sep (String.append y acc)) EmptyString r)
  end.

Lemma split_from_nonempty (sep : ascii) (cur s : string) :
  Js.split_from sep cur s <> [].
Proof.
  revert cur. induction s as [| c r IH]; intros cur; simpl; [discriminate |].
  destruct (Ascii.eqb c sep); [discriminate | apply IH].
Qed.

Lemma join_split_from (sep : ascii) (cur s : string) :
  join sep (Js.split_from sep cur s) = Js.rev_string_onto cur s.
Proof.
  revert cur. induction s as [| c r IH]; intros cur.
  - simpl. apply append_empty.
  - simpl. destruct (Ascii.eqb c sep) eqn:Hc.
    + apply Ascii.eqb_eq in Hc. subst c.
      specialize (IH EmptyString). simpl in IH.
      pose proof (split_from_nonempty sep EmptyString r) as Hne.
      destruct (Js.split_from sep EmptyString r) as [| x l] eqn:Hs;
        [congruence |].
      simpl in *. rewrite rev_string_onto_append. f_equal.
      rewrite IH. reflexivity.
    + apply IH.
Qed.

Lemma split_from_pieces (sep : ascii) (cur s : string) :
  all_chars (not_sep sep) cur = true ->
  Forall (fun x => all_chars (not_sep sep) x = true) (Js.split_from sep cur s).
Proof.
  revert cur. induction s as [| c r IH]; intros cur Hcur; simpl.
  - constructor; [| constructor].
    unfold Js.rev_string. rewrite rev_string_onto_all, Hcur. reflexivity.
  - destruct (Ascii.eqb c sep) eqn:Hc.
    + constructor; [| apply IH; reflexivity].
      unfold Js.rev_string. rewrite rev_string_onto_all, Hcur. reflexivity.
    + apply IH. simpl. unfold not_sep at 1. rewrite Hc, Hcur. reflexivity.
Qed.

(** X6.  [extractTokenFromHeader] returns a credential exactly for the
    headers made of the word [Bearer], one space, and a credential
    without spaces; the credential it returns is the rest of the header.
    Every other header, and a missing one, gives [null]. *)
Theorem extractTokenFromHeader_bearer (h t : string) :
  (Jwt.extractTokenFromHeader (Some h) = Some t
   <-> h = String.append "Bearer " t /\ all_chars (not_sep " ") t = true)
  /\ Jwt.extractTokenFromHeader None = None.
Proof.
  split; [| reflexivity]. split.
  - unfold Jwt.extractTokenFromHeader.
    destruct (negb (Js.truthy_str h)); [discriminate |].
    destruct (Js.split_on " " h) as [| a [| b [| c l]]] eqn:Hs; try discriminate.
    destruct (String.eqb a "Bearer") eqn:Ha; [| discriminate].
    intros [= <-]. apply String.eqb_eq in Ha. subst a.
    unfold Js.split_on in Hs.
    pose proof (join_split_from " " EmptyString h) as Hj.
    pose proof (split_from_pieces " " EmptyString h eq_refl) as Hp.
    rewrite Hs in Hj, Hp. simpl in Hj. rewrite append_empty in Hj.
    split; [symmetry; exact Hj |].
    inversion Hp as [| ? ? _ Hp']. inversion Hp' as [| ? ? Hb _]. exact Hb.
  - intros [-> Ht]. unfold Jwt.extractTokenFromHeader, Js.split_on.
    change (Js.split_from " " EmptyString (String.append "Bearer " t))
      with ("Bearer" :: Js.split_from " " EmptyString t).
    rewrite (split_from_one_piece " " EmptyString t Ht). reflexivity.
Qed.

(** ** Expiry *)

Lemma seconds_before (now e : Z) :
  (Jwt.seconds now <? e) = negb (JwtUtil.isTokenExpired now e).
Proof.
  unfold Jwt.seconds, JwtUtil.isTokenExpired.
  destruct (Z.ltb_spec (now / 1000) e) as [H | H];
    destruct (Z.leb_spec (e * 1000) now) as [H' | H']; try reflexivity; exfalso.
  - assert (e <= now / 1000) by (apply Z.div_le_lower_bound; lia). lia.
  - assert (now / 1000 < e) by (apply Z.div_lt_upper_bound; lia). lia.
Qed.

(** X7.  [isTokenExpired] and [verifyToken] agree on every token the
    service issues: at any instant, [verifyToken] accepts an access or
    refresh token, returning the payload it was signed with, exactly when
    [isTokenExpired] on its [exp] claim is false. *)
Theorem isTokenExpired_agrees_with_verifyToken (cfg : Jwt.config) (C : Jwt.obj)
  (uuid : string) (now now' : Z) :
  let access := Jwt.generateToken cfg C now in
  let refresh := Jwt.generateRefreshToken cfg C uuid now in
  Jwt.payload access !! "exp" = Some (Js.JNum (Jwt.seconds now + Jwt.JWT_EXPIRES_IN cfg))
  /\ Jwt.verifyToken cfg access now'
     = (if JwtUtil.isTokenExpired now' (Jwt.seconds now + Jwt.JWT_EXPIRES_IN cfg)
        then None else Some (Jwt.payload access))
  /\ Jwt.payload refresh !! "exp"
     = Some (Js.JNum (Jwt.seconds now + Jwt.JWT_REFRESH_EXPIRES_IN cfg))
  /\ Jwt.verifyToken cfg refresh now'
     = (if JwtUtil.isTokenExpired now' (Jwt.seconds now + Jwt.JWT_REFRESH_EXPIRES_IN cfg)
        then None else Some (Jwt.payload refresh)).
Proof.
  intros access refresh.
  destruct (generateToken_minted cfg C now) as (_ & _ & _ & _ & He & Hi & Ha & _).
  destruct (generateRefreshToken_minted cfg C uuid now)
    as (_ & _ & _ & _ & He' & Hi' & Ha' & _).
  split; [exact He |]. split; [| split; [exact He' |]].
  - unfold access.
    rewrite (verify_minted cfg (Jwt.generateToken cfg C now) now' _
               "notes-saas-users" eq_refl He Hi Ha)
      by (apply elem_of_cons; left; reflexivity).
    rewrite seconds_before. destruct (JwtUtil.isTokenExpired _ _); reflexivity.
  - unfold refresh.
    rewrite (verify_minted cfg (Jwt.generateRefreshToken cfg C uuid now) now' _
               "notes-saas-refresh" eq_refl He' Hi' Ha')
      by (apply elem_of_cons; right; apply elem_of_cons; left; reflexivity).
    rewrite seconds_before. destruct (JwtUtil.isTokenExpired _ _); reflexivity.
Qed.

(** ** Usage counters and the quota virtuals *)

(** Saving a valid tenant after only its usage record was replaced by
    one without negative counter. *)
Lemma saveTenant_set_usage (now : Z) (t : Tenant.t) (u : Tenant.usage_t) :
  Schema.validateTenant t = true ->
  0 <= Tenant.currentNoteCount u ->
  0 <= Tenant.currentUserCount u ->
  0 <= Tenant.storageUsed u ->
  Schema.saveTenant now false (Tenant.set_usage u t)
  = Some (Tenant.set_updatedAt now (Tenant.set_usage u t))
  /\ Schema.validateTenant (Tenant.set_updatedAt now (Tenant.set_usage u t)) = true.
Proof.
  intros Hv Hn Hu Hs.
  assert (Hv' : Schema.validateTenant (Tenant.set_usage u t) = true).
  { apply validateTenant_true in Hv as (Hnm & Hl & _). apply validateTenant_true.
    split; [exact Hnm |]. split; [exact Hl |]. apply usage_ok_iff. simpl. lia. }
  unfold Schema.saveTenant. rewrite Hv'. split; [reflexivity | exact Hv'].
Qed.

Lemma validateTenant_counters (t : Tenant.t) :
  Schema.validateTenant t = true ->
  0 <= Tenant.currentNoteCount (Tenant.usage t)
  /\ 0 <= Tenant.currentUserCount (Tenant.usage t)
  /\ 0 <= Tenant.storageUsed (Tenant.usage t).
Proof.
  intros Hv. apply validateTenant_true in Hv as (_ & _ & Hu).
  apply usage_ok_iff. exact Hu.
Qed.

(** The usage methods save the whole document: on a tenant whose stored
    note limit does not suit its plan both throw, whatever the counter. *)
Lemma usage_methods_validate_every_path (now : Z) (k : Tenant.usage_kind)
  (a : Z) (t : Tenant.t) :
  Tenant.noteLimit_validator t = false ->
  TenantMethods.incrementUsage now k a t = None
  /\ TenantMethods.decrementUsage now k a t = None.
Proof.
  intros Hl. unfold TenantMethods.incrementUsage, TenantMethods.decrementUsage,
    Schema.saveTenant.
  rewrite !validateTenant_parts.
  replace (Tenant.noteLimit_validator (Tenant.incrementUsage_fields k a t))
    with false by (destruct k; symmetry; exact Hl).
  replace (Tenant.noteLimit_validator (TenantMethods.decrementUsage_fields k a t))
    with false by (destruct k; symmetry; exact Hl).
  rewrite !andb_false_r. split; reflexivity.
Qed.

(** X8.  On a tenant that passes the validators of its schema,
    [incrementUsage] by a non-negative amount succeeds and adds the amount
    to the counter it names; [decrementUsage] by the same amount then
    restores the usage record.  [decrementUsage] by any amount succeeds
    and leaves [max(0, counter - amount)], so a counter never goes below
    zero, and the tenant still passes the validators. *)
Theorem usage_counters_roundtrip (now now' : Z) (k : Tenant.usage_kind) (a : Z)
  (t : Tenant.t) :
  Schema.validateTenant t = true ->
  0 <= a ->
  exists t1 t2,
    TenantMethods.incrementUsage now k a t = Some t1
    /\ TenantMethods.counter k t1 = TenantMethods.counter k t + a
    /\ TenantMethods.decrementUsage now' k a t1 = Some t2
    /\ Tenant.usage t2 = Tenant.usage t
    /\ forall b, exists t3,
         TenantMethods.decrementUsage now' k b t = Some t3
         /\ TenantMethods.counter k t3 = Z.max 0 (TenantMethods.counter k t - b)
         /\ Schema.validateTenant t3 = true.
Proof.
  intros Hv Ha. destruct (validateTenant_counters t Hv) as (Hn & Hu & Hs).
  unfold TenantMethods.incrementUsage, TenantMethods.decrementUsage.
  destruct k; cbn [Tenant.incrementUsage_fields TenantMethods.decrementUsage_fields];
    (match goal with
     | |- context [Schema.saveTenant ?n false (Tenant.set_usage ?u ?d)] =>
         destruct (saveTenant_set_usage n d u Hv) as [Hs1 Hv1];
         [simpl; lia | simpl; lia | simpl; lia |];
         rewrite Hs1;
         exists (Tenant.set_updatedAt n (Tenant.set_usage u d))
     end);
    cbn [Tenant.usage Tenant.set_usage Tenant.set_updatedAt
         Tenant.currentNoteCount Tenant.currentUserCount Tenant.storageUsed];
    (match goal with
     | |- context [Schema.saveTenant ?n false (Tenant.set_usage ?u ?d)] =>
         destruct (saveTenant_set_usage n d u Hv1) as [Hs2 _];
         [simpl; lia | simpl; lia | simpl; lia |];
         exists (Tenant.set_updatedAt n (Tenant.set_usage u d))
     end);
    (split; [reflexivity |]); (split; [reflexivity |]); (split; [exact Hs2 |]);
    (split;
     [destruct t as [id sl nm pl lim sub [cn cu cs] act upd]; simpl in *;
      f_equal; lia |]);
    intros b;
    (match goal with
     | |- context [Schema.saveTenant ?n false (Tenant.set_usage ?u ?d)] =>
         destruct (saveTenant_set_usage n d u Hv) as [Hs3 Hv3];
         [simpl; lia | simpl; lia | simpl; lia |];
         exists (Tenant.set_updatedAt n (Tenant.set_usage u d))
     end);
    (split; [exact Hs3 |]); (split; [reflexivity | exact Hv3]).
Qed.

(** A free tenant at 2 of 3 notes: one more note, then one note fewer;
    removing five notes from it leaves zero. *)
Lemma usage_counters_roundtrip_witness :
  exists t1 t2 t3,
    TenantMethods.incrementUsage 10 Tenant.notes 1 (sample_tenant Tenant.free 3 2)
    = Some t1
    /\ TenantMethods.counter Tenant.notes t1 = 3
    /\ TenantMethods.decrementUsage 20 Tenant.notes 1 t1 = Some t2
    /\ Tenant.usage t2 = Tenant.usage (sample_tenant Tenant.free 3 2)
    /\ TenantMethods.decrementUsage 20 Tenant.notes 5 (sample_tenant Tenant.free 3 2)
       = Some t3
    /\ TenantMethods.counter Tenant.notes t3 = 0.
Proof.
  destruct (usage_counters_roundtrip 10 20 Tenant.notes 1
              (sample_tenant Tenant.free 3 2))
    as (t1 & t2 & H1 & H2 & H3 & H4 & H5); [reflexivity | lia |].
  destruct (H5 5) as (t3 & H6 & H7 & _).
  exists t1, t2, t3. repeat split; assumption.
Defined.

(** X9.  The two quota virtuals agree: [remainingNotes] is [-1] exactly
    for a tenant without limit, and [canCreateNotes] holds exactly when
    the tenant and its subscription are active and the tenant either has
    no limit or has [remainingNotes] above zero. *)
Theorem canCreateNotes_remainingNotes (t : Tenant.t) :
  (Tenant.remainingNotes t = -1 <-> Tenant.hasUnlimitedNotes t = true)
  /\ Tenant.canCreateNotes t
     = Tenant.isActive t
       && Tenant.status_is_active (Tenant.status (Tenant.subscription t))
       && (Tenant.hasUnlimitedNotes t || (0 <? Tenant.remainingNotes t)).
Proof.
  unfold Tenant.canCreateNotes, Tenant.remainingNotes, Tenant.hasUnlimitedNotes.
  destruct (Z.eqb_spec (Tenant.noteLimit t) (-1)) as [He | He].
  - split; [split; reflexivity |].
    destruct (Tenant.isActive t),
      (Tenant.status_is_active (Tenant.status (Tenant.subscription t)));
      reflexivity.
  - split; [split; [lia | discriminate] |].
    destruct (Tenant.isActive t),
      (Tenant.status_is_active (Tenant.status (Tenant.subscription t)));
      try reflexivity.
    simpl.
    destruct (Z.ltb_spec (Tenant.currentNoteCount (Tenant.usage t))
                (Tenant.noteLimit t));
      destruct (Z.ltb_spec 0
                  (Z.max 0 (Tenant.noteLimit t
                            - Tenant.currentNoteCount (Tenant.usage t))));
      try reflexivity; lia.
Qed.

(** ** The derived slug *)

(** No two characters of the class [p] in a row; [prev] says that the
    character before the string is in the class. *)
Fixpoint no_double (p : ascii -> bool) (prev : bool) (s : string) : bool :=
  match s with
  | EmptyString => true
  | String c r =>
      if p c then negb prev && no_double p true r else no_double p false r
  end.

Lemma replace_runs_from_no_double (b : bool) (s : string) :
  no_double Js.is_hyphen b (Js.replace_runs_from Js.is_hyphen b s) = true.
Proof.
  revert b. induction s as [| c r IH]; intros b; simpl; [reflexivity |].
  destruct (Js.is_hyphen c) eqn:Hc.
  - destruct b; [apply IH |]. simpl. apply IH.
  - simpl. rewrite Hc. apply IH.
Qed.

Lemma is_hyphen_char (c : ascii) : Js.is_hyphen c = true -> c = "-"%char.
Proof.
  destruct c as [[] [] [] [] [] [] [] []]; vm_compute; congruence.
Qed.

Lemma replace_runs_from_fixed (b : bool) (s : string) :
  no_double Js.is_hyphen b s = true ->
  Js.replace_runs_from Js.is_hyphen b s = s.
Proof.
  revert b. induction s as [| c r IH]; intros b; simpl; [reflexivity |].
  destruct (Js.is_hyphen c) eqn:Hc.
  - rewrite andb_true_iff. intros [Hb Hr]. apply negb_true_iff in Hb. subst b.
    rewrite (IH true Hr), (is_hyphen_char c Hc). reflexivity.
  - intros Hr. rewrite (IH false Hr). reflexivity.
Qed.

Lemma replace_runs_from_none (p : ascii -> bool) (b : bool) (s : string) :
  all_chars (fun c => negb (p c)) s = true ->
  Js.replace_runs_from p b s = s.
Proof.
  revert b. induction s as [| c r IH]; intros b; simpl; [reflexivity |].
  rewrite andb_true_iff. intros [Hc Hr]. apply negb_true_iff in Hc.
  rewrite Hc, (IH false Hr). reflexivity.
Qed.

Lemma remove_outside_fixed (keep : ascii -> bool) (s : string) :
  all_chars keep s = true -> Js.remove_outside keep s = s.
Proof.
  induction s as [| c r IH]; simpl; [reflexivity |].
  rewrite andb_true_iff. intros [Hc Hr]. rewrite Hc, (IH Hr). reflexivity.
Qed.

Lemma slug_out_char (c : ascii) :
  slug_out c = true -> AuthController.slug_char c = true.
Proof.
  destruct c as [[] [] [] [] [] [] [] []]; vm_compute; congruence.
Qed.

Lemma matches_Empty_seq (r : Schema.re) (s : string) :
  Schema.matches (Schema.Seq Schema.Empty r) s = false.
Proof. induction s as [| c s IH]; simpl; [reflexivity | exact IH]. Qed.

Lemma matches_Alt (a b : Schema.re) (s : string) :
  Schema.matches (Schema.Alt a b) s = Schema.matches a s || Schema.matches b s.
Proof.
  revert a b. induction s as [| c s IH]; intros a b; simpl; [reflexivity |].
  apply IH.
Qed.

Lemma matches_star_class (p : ascii -> bool) (s : string) :
  Schema.matches (Schema.Seq Schema.Eps (Schema.Star (Schema.Class p))) s
  = all_chars p s.
Proof.
  induction s as [| c s IH]; simpl; [reflexivity |].
  rewrite matches_Alt, matches_Empty_seq. simpl.
  destruct (p c); simpl; [exact IH | apply matches_Empty_seq].
Qed.

Lemma matches_plus_class (p : ascii -> bool) (s : string) :
  Schema.matches (Schema.Plus (Schema.Class p)) s
  = Js.truthy_str s && all_chars p s.
Proof.
  destruct s as [| c s]; simpl; [reflexivity |].
  destruct (p c); simpl; [apply matches_star_class | apply matches_Empty_seq].
Qed.

(** X10.  The slug that [register] derives from an organisation name
    consists of lower-case letters, digits and hyphens, has no two
    hyphens in a row, is left unchanged by a second derivation, and
    matches the slug pattern of the tenant schema unless it is empty. *)
Theorem tenantSlug_normal_form (name : string) :
  let s := AuthController.tenantSlug name in
  all_chars slug_out s = true
  /\ no_double Js.is_hyphen false s = true
  /\ AuthController.tenantSlug s = s
  /\ Schema.matches Schema.slug_pattern s = Js.truthy_str s.
Proof.
  intros s. destruct (tenantSlug_shape name) as (Hall & Heq & _). fold s in Hall, Heq.
  assert (Hnd : no_double Js.is_hyphen false s = true).
  { rewrite Heq. apply replace_runs_from_no_double. }
  assert (Hsp : all_chars (fun c => negb (Js.is_space c)) s = true).
  { eapply all_chars_weaken; [| exact Hall].
    intros c Hc. rewrite (slug_out_not_space c Hc). reflexivity. }
  split; [exact Hall |]. split; [exact Hnd |]. split.
  - unfold AuthController.tenantSlug.
    rewrite toLowerCase_without_upper.
    + rewrite remove_outside_fixed
        by (eapply all_chars_weaken; [apply slug_out_char | exact Hall]).
      unfold Js.replace_runs.
      rewrite (replace_runs_from_none Js.is_space false s Hsp).
      rewrite (replace_runs_from_fixed false s Hnd).
      apply trim_without_spaces. exact Hsp.
    + eapply all_chars_weaken; [| exact Hall].
      intros c Hc. rewrite (slug_out_not_upper c Hc). reflexivity.
  - unfold Schema.slug_pattern.
    change (fun c => Js.is_lower c || Js.is_digit c || Js.is_hyphen c) with slug_out.
    rewrite matches_plus_class, Hall. apply andb_true_r.
Qed.

(** ** Principals and authorization *)

(** What lies behind a request that [authenticate] hands on. *)
Lemma authenticate_next (cfg : Jwt.config)
  (decodeCompact : string -> option Jwt.token)
  (castObjectId : Js.jval -> option string) (st : Store.t) (now : Z)
  (req : AuthRequest.t) (c : AuthMiddleware.context) :
  AuthMiddleware.authenticate cfg decodeCompact castObjectId st now req
  = AuthMiddleware.Next c ->
  exists s d,
    bearer_header req = Some s
    /\ AuthMiddleware.verifyToken cfg decodeCompact now s = Some d
    /\ d !! "tokenType" = Some (Js.JStr "access")
    /\ AuthMiddleware.findById castObjectId st (d !! "userId")
       = Some (Some (AuthMiddleware.req_user c))
    /\ User.isActive (AuthMiddleware.req_user c) = true
    /\ Store.findTenantById st (User.tenantId (AuthMiddleware.req_user c))
       = Some (AuthMiddleware.req_tenant c)
    /\ Tenant.isActive (AuthMiddleware.req_tenant c) = true
    /\ d !! "tenantId" = Some (Js.JStr (Tenant._id (AuthMiddleware.req_tenant c)))
    /\ AuthMiddleware.req_auth c
       = stored_principal (AuthMiddleware.req_user c) (AuthMiddleware.req_tenant c).
Proof.
  unfold AuthMiddleware.authenticate, bearer_header.
  destruct (Jwt.extractTokenFromHeader (AuthRequest.authorization req))
    as [[| ch s] |]; simpl; try discriminate.
  destruct (AuthMiddleware.verifyToken cfg decodeCompact now (String ch s))
    as [d |] eqn:Hv; [| discriminate].
  destruct (Js.strict_eq_str (d !! "tokenType") "access") eqn:Hty; simpl;
    [| discriminate].
  destruct (AuthMiddleware.findById castObjectId st (d !! "userId"))
    as [[u |] |] eqn:Hu; try discriminate.
  destruct (User.isActive u) eqn:Hact; simpl; [| discriminate].
  destruct (Store.findTenantById st (User.tenantId u)) as [t |] eqn:Ht;
    [| discriminate].
  destruct (Tenant.isActive t) eqn:Htact; simpl; [| discriminate].
  destruct (Js.strict_eq_str (d !! "tenantId") (Tenant._id t)) eqn:Htid; simpl;
    [| discriminate].
  intros [= <-]. exists (String ch s), d. simpl.
  apply strict_eq_str_iff in Hty, Htid.
  repeat split; assumption.
Qed.

(** X11.  Every principal that the store-only [authenticate] hands on is
    backed by the store and by the token: the request carried a bearer
    credential that verified as an access token naming the principal's
    tenant and, through the cast to [ObjectId], the principal's user; the
    user with that id is stored and active; the
    user's tenant is the stored, active tenant with the principal's
    tenant id; and role, permissions and the admin flag are the stored
    user's. *)
Theorem authenticate_principal_sound (cfg : Jwt.config)
  (decodeCompact : string -> option Jwt.token)
  (castObjectId : Js.jval -> option string) (st : Store.t) (now : Z)
  (req : AuthRequest.t) (c : AuthMiddleware.context) :
  AuthMiddleware.authenticate cfg decodeCompact castObjectId st now req
  = AuthMiddleware.Next c ->
  let u := AuthMiddleware.req_user c in
  let t := AuthMiddleware.req_tenant c in
  let a := AuthMiddleware.req_auth c in
  Store.findUserById st (Http.userId a) = Some u
  /\ User.isActive u = true
  /\ Store.findTenantById st (Http.tenantId a) = Some t
  /\ Tenant.isActive t = true
  /\ User.tenantId u = Http.tenantId a
  /\ Http.tenantSlug a = Tenant.slug t
  /\ Http.role a = User.role u
  /\ Http.permissions a = User.permissions u
  /\ (Http.isAdmin a = true <-> User.role u = User.admin)
  /\ exists s d,
       bearer_header req = Some s
       /\ AuthMiddleware.verifyToken cfg decodeCompact now s = Some d
       /\ d !! "tokenType" = Some (Js.JStr "access")
       /\ (exists v, d !! "userId" = Some v
                     /\ castObjectId v = Some (Http.userId a))
       /\ d !! "tenantId" = Some (Js.JStr (Http.tenantId a)).
Proof.
  intros H u t a.
  destruct (authenticate_next cfg decodeCompact castObjectId st now req c H)
    as (s & d & Hs & Hv & Hty & Hu & Hact & Ht & Htact & Htid & Ha).
  fold u t in Hu, Hact, Ht, Htact, Htid, Ha. fold a in Ha.
  assert (Hcast : exists v id, d !! "userId" = Some v /\ castObjectId v = Some id
                               /\ Store.findUserById st id = Some u).
  { unfold AuthMiddleware.findById in Hu.
    destruct (d !! "userId") as [v |]; [| discriminate].
    destruct (castObjectId v) as [id |] eqn:Hc.
    - exists v, id. repeat split; try assumption.
      destruct v; congruence.
    - destruct v; discriminate. }
  destruct Hcast as (v & id & Hid & Hc & Hfind). clear Hu. rename Hfind into Hu.
  assert (Hidu : User._id u = id).
  { apply List.find_some in Hu as [_ Hu']. apply String.eqb_eq in Hu'. exact Hu'. }
  assert (Htu : Tenant._id t = User.tenantId u).
  { apply List.find_some in Ht as [_ Ht']. apply String.eqb_eq in Ht'. exact Ht'. }
  rewrite Ha. unfold stored_principal. simpl.
  rewrite Hidu, Htu.
  repeat split; try assumption.
  - unfold User.isAdmin. destruct (User.role u); [reflexivity | discriminate].
  - unfold User.isAdmin. intros ->. reflexivity.
  - exists s, d. repeat split; try assumption.
    + exists v. split; [exact Hid | exact Hc].
    + rewrite <- Htu. exact Htid.
Qed.

(** The sample request resolves to the sample user and tenant. *)
Lemma authenticate_principal_sound_witness :
  exists c,
    AuthMiddleware.authenticate Jwt.default_config sample_decode sample_cast
      sample_store 1000 sample_request = AuthMiddleware.Next c
    /\ Store.findUserById sample_store (Http.userId (AuthMiddleware.req_auth c))
       = Some (sample_user 0 None)
    /\ Store.findTenantById sample_store (Http.tenantId (AuthMiddleware.req_auth c))
       = Some (sample_tenant Tenant.free 3 0).
Proof.
  eexists. split; [vm_compute; reflexivity |].
  match goal with
  | |- context [AuthMiddleware.req_auth ?c] =>
      destruct (authenticate_principal_sound Jwt.default_config sample_decode
                  sample_cast sample_store 1000 sample_request c)
        as (Hu & _ & Ht & _); [vm_compute; reflexivity |]
  end.
  split; [exact Hu | exact Ht].
Defined.

(** X12.  After the store-only [authenticate], the middleware
    [requirePermission] and the model method [hasPermission] decide
    alike: for each of the six permissions the request passes exactly
    when [hasPermission] holds of the resolved user, and it is otherwise
    answered 403 [PERMISSION_DENIED].  A resolved admin passes for every
    permission, whatever the stored flags. *)
Theorem requirePermission_agrees_with_hasPermission (cfg : Jwt.config)
  (decodeCompact : string -> option Jwt.token)
  (castObjectId : Js.jval -> option string) (st : Store.t) (now : Z)
  (req : AuthRequest.t) (c : AuthMiddleware.context) (p : Permission.name) :
  AuthMiddleware.authenticate cfg decodeCompact castObjectId st now req
  = AuthMiddleware.Next c ->
  let u := AuthMiddleware.req_user c in
  let v := Authorization.requirePermission p (Some (AuthMiddleware.req_auth c))
             (User.permissions u) in
  v = (if Permission.hasPermission u p then Authorization.Pass
       else Authorization.Deny (Authorization.PermissionDenied p))
  /\ (User.role u = User.admin -> v = Authorization.Pass)
  /\ Authorization.status (Authorization.PermissionDenied p) = 403
  /\ Authorization.code (Authorization.PermissionDenied p) = "PERMISSION_DENIED".
Proof.
  intros H u v.
  destruct (authenticate_next cfg decodeCompact castObjectId st now req c H)
    as (_ & _ & _ & _ & _ & _ & Hact & _ & _ & _ & Ha).
  fold u in Hact, Ha. unfold v, Authorization.requirePermission,
    Permission.hasPermission. rewrite Ha, Hact. unfold stored_principal. simpl.
  unfold User.isAdmin. destruct (User.role u).
  - repeat split.
  - split; [| split; [discriminate | split; reflexivity]].
    destruct (Permission.get p (User.permissions u)); reflexivity.
Qed.

(** The sample member may create notes and may not manage users. *)
Lemma requirePermission_agrees_with_hasPermission_witness :
  exists c,
    AuthMiddleware.authenticate Jwt.default_config sample_decode sample_cast
      sample_store 1000 sample_request = AuthMiddleware.Next c
    /\ Authorization.requirePermission Permission.canCreateNotes
         (Some (AuthMiddleware.req_auth c))
         (User.permissions (AuthMiddleware.req_user c))
       = Authorization.Pass
    /\ Authorization.requirePermission Permission.canManageUsers
         (Some (AuthMiddleware.req_auth c))
         (User.permissions (AuthMiddleware.req_user c))
       = Authorization.Deny (Authorization.PermissionDenied Permission.canManageUsers).
Proof.
  eexists. split; [vm_compute; reflexivity |].
  match goal with
  | |- context [AuthMiddleware.req_auth ?c] =>
      destruct (requirePermission_agrees_with_hasPermission Jwt.default_config
                  sample_decode sample_cast sample_store 1000 sample_request c
                  Permission.canCreateNotes) as (H1 & _);
        [vm_compute; reflexivity |];
      destruct (requirePermission_agrees_with_hasPermission Jwt.default_config
                  sample_decode sample_cast sample_store 1000 sample_request c
                  Permission.canManageUsers) as (H2 & _);
        [vm_compute; reflexivity |]
  end.
  split; [exact H1 | exact H2].
Defined.

(** X13.  The three shorthand chains of the store-only revision.  Each
    answers as [authenticate] does when [authenticate] rejects.  When it
    hands on a context: [memberOrAdmin], the guard of every notes route,
    always lets it through; [adminOnly] lets it through for a stored
    admin and answers 403 [INSUFFICIENT_PERMISSIONS] for a member;
    [authenticated] lets it through unless the tenant id is empty. *)
Theorem shorthand_chains (cfg : Jwt.config)
  (decodeCompact : string -> option Jwt.token)
  (castObjectId : Js.jval -> option string) (st : Store.t) (now : Z)
  (req : AuthRequest.t) :
  let r := AuthMiddleware.authenticate cfg decodeCompact castObjectId st now req in
  Authorization.memberOrAdmin cfg decodeCompact castObjectId st now req
  = match r with
    | AuthMiddleware.Respond resp => Authorization.Rejected resp
    | AuthMiddleware.Next c => Authorization.Granted c
    end
  /\ Authorization.adminOnly cfg decodeCompact castObjectId st now req
     = match r with
       | AuthMiddleware.Respond resp => Authorization.Rejected resp
       | AuthMiddleware.Next c =>
           match User.role (AuthMiddleware.req_user c) with
           | User.admin => Authorization.Granted c
           | User.member =>
               Authorization.Denied
                 (Authorization.InsufficientPermissions ["admin"] "member")
           end
       end
  /\ Authorization.authenticated cfg decodeCompact castObjectId st now req
     = match r with
       | AuthMiddleware.Respond resp => Authorization.Rejected resp
       | AuthMiddleware.Next c =>
           if Js.truthy_str (Tenant._id (AuthMiddleware.req_tenant c))
           then Authorization.Granted c
           else Authorization.Denied Authorization.TenantContextRequired
       end
  /\ Authorization.status (Authorization.InsufficientPermissions ["admin"] "member")
     = 403
  /\ Authorization.status Authorization.TenantContextRequired = 401.
Proof.
  intros r. unfold Authorization.memberOrAdmin, Authorization.adminOnly,
    Authorization.authenticated, Authorization.after_authenticate. fold r.
  destruct r as [resp | c] eqn:Hr; [repeat split |].
  destruct (authenticate_next cfg decodeCompact castObjectId st now req c Hr)
    as (_ & _ & _ & _ & _ & _ & _ & _ & _ & _ & Ha).
  rewrite Ha. unfold stored_principal, Authorization.authorize,
    Authorization.ensureTenantIsolation. simpl.
  destruct (User.role (AuthMiddleware.req_user c)); simpl;
    destruct (Js.truthy_str (Tenant._id (AuthMiddleware.req_tenant c)));
    repeat split.
Qed.

(** ** Lockout through the login handler *)

(** Updating the document that two queries both find first: each query
    then finds the updated document. *)
Lemma find_update_first_same {A} (p q : A -> bool) (f : A -> A) (u : A)
  (l : list A) :
  List.find p l = Some u ->
  List.find q l = Some u ->
  p (f u) = true ->
  List.find p (Store.update_first q f l) = Some (f u).
Proof.
  intros Hp Hq Hf. induction l as [| a l IH]; simpl in *; [discriminate |].
  destruct (p a) eqn:Hpa.
  - injection Hp as ->. destruct (q u) eqn:Hqu.
    + simpl. rewrite Hf. reflexivity.
    + apply List.find_some in Hq as [_ Hq]. congruence.
  - destruct (q a) eqn:Hqa.
    + injection Hq as ->. apply List.find_some in Hp as [_ Hp]. congruence.
    + simpl. rewrite Hpa. apply IH; assumption.
Qed.

(** The store after a failed login of the user [u]. *)
Definition after_failure (st : Store.t) (now : Z) (u : User.t) : Store.t :=
  Store.updateUser st (User._id u) (User.incLoginAttempts_update now u).

Lemma after_failure_finds (st : Store.t) (now : Z) (u : User.t) (e : string) :
  Store.findActiveUserByEmail st e = Some u ->
  Store.findUserById st (User._id u) = Some u ->
  Store.findActiveUserByEmail (after_failure st now u) e
  = Some (User.incLoginAttempts now u)
  /\ Store.findUserById (after_failure st now u) (User._id u)
     = Some (User.incLoginAttempts now u)
  /\ Store.tenants (after_failure st now u) = Store.tenants st.
Proof.
  intros He Hi. unfold after_failure, Store.updateUser,
    Store.findActiveUserByEmail, Store.findUserById in *. simpl.
  pose proof (List.find_some _ _ He) as [_ He'].
  pose proof (List.find_some _ _ Hi) as [_ Hi'].
  split; [| split; [| reflexivity]].
  - apply (find_update_first_same
             (fun d => String.eqb (User.email d) e && User.isActive d)
             (fun d => String.eqb (User._id d) (User._id u))
             (fun d => User.set_security
                         (User.apply_update (User.incLoginAttempts_update now u)
                            (User.security d)) d) u); assumption.
  - apply (find_update_first_same
             (fun d => String.eqb (User._id d) (User._id u))
             (fun d => String.eqb (User._id d) (User._id u))
             (fun d => User.set_security
                         (User.apply_update (User.incLoginAttempts_update now u)
                            (User.security d)) d) u); assumption.
Qed.

(** One failed login of an unlocked user. *)
Lemma login_wrong_password (cfg : Jwt.config)
  (bcrypt_compare : string -> string -> bool) (st : Store.t) (now : Z)
  (uuid e w : string) (u : User.t) :
  Store.findActiveUserByEmail st (Js.toLowerCase e) = Some u ->
  User.isLocked now u = false ->
  User.comparePassword bcrypt_compare u w = false ->
  AuthController.login cfg bcrypt_compare st now uuid
    {| AuthBody.email := e; AuthBody.password := w |}
  = (AuthController.invalid_credentials, after_failure st now u).
Proof.
  intros He Hl Hw. unfold AuthController.login. simpl.
  rewrite He, Hl, Hw. reflexivity.
Qed.

(** A failure below the threshold counts and sets no lock. *)
Lemma incLoginAttempts_counts (now k : Z) (u : User.t) :
  User.lockUntil (User.security u) = None ->
  User.loginAttempts (User.security u) = k ->
  k + 1 < 5 ->
  User.lockUntil (User.security (User.incLoginAttempts now u)) = None
  /\ User.loginAttempts (User.security (User.incLoginAttempts now u)) = k + 1.
Proof.
  intros Hl Hk Hlt. unfold User.incLoginAttempts, User.incLoginAttempts_update,
    User.lock_expired, User.isLocked. rewrite Hl, Hk.
  destruct (Z.leb_spec 5 (k + 1)); [lia |]. simpl. rewrite Hl, Hk. split; reflexivity.
Qed.

(** The failure that reaches the threshold sets the lock. *)
Lemma incLoginAttempts_locks (now : Z) (u : User.t) :
  User.lockUntil (User.security u) = None ->
  User.loginAttempts (User.security u) = 4 ->
  User.lockUntil (User.security (User.incLoginAttempts now u))
  = Some (now + 7200000).
Proof.
  intros Hl Hk. unfold User.incLoginAttempts, User.incLoginAttempts_update,
    User.lock_expired, User.isLocked. rewrite Hl, Hk. reflexivity.
Qed.

Lemma incLoginAttempts_keeps (now : Z) (u : User.t) :
  User._id (User.incLoginAttempts now u) = User._id u
  /\ User.password (User.incLoginAttempts now u) = User.password u.
Proof. split; reflexivity. Qed.

Lemma unlocked_without_lock (now : Z) (u : User.t) :
  User.lockUntil (User.security u) = None -> User.isLocked now u = false.
Proof. unfold User.isLocked. intros ->. reflexivity. Qed.

(** A run of logins for one address: the responses, and the store at the
    end. *)
Fixpoint login_attempts (cfg : Jwt.config)
  (bcrypt_compare : string -> string -> bool) (uuid e : string)
  (tries : list (Z * string)) (st : Store.t) : list Http.response * Store.t :=
  match tries with
  | [] => ([], st)
  | (now, pw) :: rest =>
      let r := AuthController.login cfg bcrypt_compare st now uuid
                 {| AuthBody.email := e; AuthBody.password := pw |} in
      let rs := login_attempts cfg bcrypt_compare uuid e rest r.2 in
      (r.1 :: rs.1, rs.2)
  end.

(** X5.  Five wrong passwords lock an account.  For an active user of any
    store, with no failures recorded and no lock, five logins with wrong
    passwords at any five instants are each answered 401
    [INVALID_CREDENTIALS]; every login for that address before two hours
    have passed since the fifth is then answered 423 [ACCOUNT_LOCKED]
    with the end of the lock, whatever password it carries, and leaves
    the store as it is. *)
Theorem five_wrong_passwords_lock_the_account (cfg : Jwt.config)
  (bcrypt_compare : string -> string -> bool) (st : Store.t) (uuid e : string)
  (u : User.t) (t1 t2 t3 t4 t5 t6 : Z) (w1 w2 w3 w4 w5 p : string) :
  Store.findActiveUserByEmail st (Js.toLowerCase e) = Some u ->
  Store.findUserById st (User._id u) = Some u ->
  User.lockUntil (User.security u) = None ->
  User.loginAttempts (User.security u) = 0 ->
  Forall (fun w => User.comparePassword bcrypt_compare u w = false)
    [w1; w2; w3; w4; w5] ->
  t6 < t5 + 7200000 ->
  let run := login_attempts cfg bcrypt_compare uuid e
               [(t1, w1); (t2, w2); (t3, w3); (t4, w4); (t5, w5)] st in
  run.1 = repeat AuthController.invalid_credentials 5
  /\ AuthController.login cfg bcrypt_compare run.2 t6 uuid
       {| AuthBody.email := e; AuthBody.password := p |}
     = ({| Http.status := 423;
           Http.json :=
             Http.Locked
               "Account is temporarily locked due to too many failed login attempts"
               "ACCOUNT_LOCKED" (Some (t5 + 7200000));
           Http.cookies := None |}, run.2).
Proof.
  intros He Hi Hl Hk Hw Ht run.
  repeat match goal with
         | H : Forall _ (_ :: _) |- _ =>
             let Hh := fresh "Hw" in
             apply Forall_cons in H as [Hh H]
         end.
  assert (Hcmp : forall now v w,
             User.comparePassword bcrypt_compare (User.incLoginAttempts now v) w
             = User.comparePassword bcrypt_compare v w) by reflexivity.
  set (u1 := User.incLoginAttempts t1 u).
  set (u2 := User.incLoginAttempts t2 u1).
  set (u3 := User.incLoginAttempts t3 u2).
  set (u4 := User.incLoginAttempts t4 u3).
  set (u5 := User.incLoginAttempts t5 u4).
  destruct (incLoginAttempts_counts t1 0 u Hl Hk) as [Hl1 Hk1]; [lia |].
  destruct (incLoginAttempts_counts t2 1 u1 Hl1 Hk1) as [Hl2 Hk2]; [lia |].
  destruct (incLoginAttempts_counts t3 2 u2 Hl2 Hk2) as [Hl3 Hk3]; [lia |].
  destruct (incLoginAttempts_counts t4 3 u3 Hl3 Hk3) as [Hl4 Hk4]; [lia |].
  pose proof (incLoginAttempts_locks t5 u4 Hl4 Hk4) as Hl5.
  fold u1 in Hl1, Hk1. fold u2 in Hl2, Hk2. fold u3 in Hl3, Hk3.
  fold u4 in Hl4, Hk4. fold u5 in Hl5.
  set (s1 := after_failure st t1 u).
  set (s2 := after_failure s1 t2 u1).
  set (s3 := after_failure s2 t3 u2).
  set (s4 := after_failure s3 t4 u3).
  set (s5 := after_failure s4 t5 u4).
  destruct (after_failure_finds st t1 u _ He Hi) as (He1 & Hi1 & _).
  fold s1 u1 in He1, Hi1.
  destruct (after_failure_finds s1 t2 u1 _ He1 Hi1) as (He2 & Hi2 & _).
  fold s2 u2 in He2, Hi2.
  destruct (after_failure_finds s2 t3 u2 _ He2 Hi2) as (He3 & Hi3 & _).
  fold s3 u3 in He3, Hi3.
  destruct (after_failure_finds s3 t4 u3 _ He3 Hi3) as (He4 & Hi4 & _).
  fold s4 u4 in He4, Hi4.
  destruct (after_failure_finds s4 t5 u4 _ He4 Hi4) as (He5 & Hi5 & _).
  fold s5 u5 in He5, Hi5.
  assert (Hrun : run = (repeat AuthController.invalid_credentials 5, s5)).
  { unfold run. cbn [login_attempts].
    rewrite (login_wrong_password cfg bcrypt_compare st t1 uuid e w1 u He
               (unlocked_without_lock t1 u Hl) Hw0).
    cbn [fst snd]. fold s1.
    rewrite (login_wrong_password cfg bcrypt_compare s1 t2 uuid e w2 u1 He1
               (unlocked_without_lock t2 u1 Hl1) Hw1).
    cbn [fst snd]. fold s2.
    rewrite (login_wrong_password cfg bcrypt_compare s2 t3 uuid e w3 u2 He2
               (unlocked_without_lock t3 u2 Hl2) Hw2).
    cbn [fst snd]. fold s3.
    rewrite (login_wrong_password cfg bcrypt_compare s3 t4 uuid e w4 u3 He3
               (unlocked_without_lock t4 u3 Hl3) Hw3).
    cbn [fst snd]. fold s4.
    rewrite (login_wrong_password cfg bcrypt_compare s4 t5 uuid e w5 u4 He4
               (unlocked_without_lock t5 u4 Hl4) Hw4).
    cbn [fst snd]. fold s5. reflexivity. }
  rewrite Hrun. cbn [fst snd]. split; [reflexivity |].
  unfold AuthController.login. cbn [AuthBody.email AuthBody.password].
  rewrite He5. unfold User.isLocked. rewrite Hl5.
  destruct (Z.ltb_spec t6 (t5 + 7200000)); [reflexivity | lia].
Qed.

(** The sample user, five wrong passwords, then the right one a
    millisecond before the lock ends. *)
Lemma five_wrong_passwords_lock_the_account_witness :
  let run := login_attempts Jwt.default_config toy_compare "a1" "Ann@Acme.io"
               [(10, "x1"); (20, "x2"); (30, "x3"); (40, "x4"); (50, "x5")]
               sample_store in
  map Http.status run.1 = [401; 401; 401; 401; 401]
  /\ Http.status
       (AuthController.login Jwt.default_config toy_compare run.2 7200049 "a1"
          good_login).1 = 423.
Proof.
  cbv zeta.
  destruct (five_wrong_passwords_lock_the_account Jwt.default_config toy_compare
              sample_store "a1" "Ann@Acme.io" (sample_user 0 None)
              10 20 30 40 50 7200049 "x1" "x2" "x3" "x4" "x5" "secret1")
    as [H1 H2]; try reflexivity; try lia.
  { repeat (apply Forall_cons; split; [reflexivity |]). exact (List.Forall_nil _). }
  rewrite H1. split; [reflexivity |].
  unfold good_login. rewrite H2. reflexivity.
Defined.

(** ** From login to the resolver *)

Lemma extract_bearer_credential (s : string) :
  all_chars (not_sep " ") s = true ->
  Jwt.extractTokenFromHeader (Some (String.append "Bearer " s)) = Some s.
Proof.
  intros Hs. unfold Jwt.extractTokenFromHeader, Js.split_on.
  change (Js.split_from " " EmptyString (String.append "Bearer " s))
    with ("Bearer" :: Js.split_from " " EmptyString s).
  rewrite (split_from_one_piece " " EmptyString s Hs). reflexivity.
Qed.

Lemma tokenPayload_fields (userId email tenantId tenantSlug : string)
  (role : User.role_t) (permissions : Perm.t) :
  let C := Jwt.tokenPayload userId email tenantId tenantSlug role permissions in
  C !! "userId" = Some (Js.JStr userId)
  /\ C !! "tenantId" = Some (Js.JStr tenantId).
Proof.
  unfold Jwt.tokenPayload. split.
  - rewrite literal_lookup by (simpl; apply NoDup_keys; vm_compute; exact I).
    reflexivity.
  - rewrite literal_lookup by (simpl; apply NoDup_keys; vm_compute; exact I).
    reflexivity.
Qed.

(** The claims the resolver reads from an access token that is still
    valid. *)
Lemma access_token_verifies (cfg : Jwt.config) (C : Jwt.obj) (now now' : Z) :
  JwtUtil.isTokenExpired now' (Jwt.seconds now + Jwt.JWT_EXPIRES_IN cfg) = false ->
  exists d,
    Jwt.verifyToken cfg (Jwt.generateToken cfg C now) now' = Some d
    /\ d !! "tokenType" = Some (Js.JStr "access")
    /\ d !! "userId" = C !! "userId"
    /\ d !! "tenantId" = C !! "tenantId".
Proof.
  intros Hx.
  destruct (generateToken_minted cfg C now)
    as (Hc & Hty & _ & _ & He & Hi & Ha & _).
  exists (Jwt.payload (Jwt.generateToken cfg C now)).
  split; [| split; [exact Hty | split; apply Hc]].
  - rewrite (verify_minted cfg (Jwt.generateToken cfg C now) now' _
               "notes-saas-users" eq_refl He Hi Ha)
      by (apply elem_of_cons; left; reflexivity).
    rewrite seconds_before, Hx. reflexivity.
  - unfold access_claims. apply elem_of_cons. left. reflexivity.
  - unfold access_claims. do 2 (apply elem_of_cons; right).
    apply elem_of_cons. left. reflexivity.
Qed.

(** The store after a successful login of the user [u]. *)
Definition after_success (st : Store.t) (now : Z) (u : User.t) : Store.t :=
  Store.updateUser st (User._id u) (User.resetLoginAttempts_update now).

(** X14.  A session opens the resolver.  When the store-only [login]
    succeeds for a stored user [u] of the active tenant [t], whose
    identifier is the string of an [ObjectId], it answers
    200 with an access token; presented as [Bearer] credential to
    [authenticate] on the store that [login] left, at any instant before
    the token's expiry, that token resolves to the principal of [u] and
    [t], with the user document as stored after the login: no failures,
    no lock, and the login instant as [lastLogin]. *)
Theorem login_then_authenticate (cfg : Jwt.config)
  (bcrypt_compare : string -> string -> bool)
  (decodeCompact : string -> option Jwt.token)
  (castObjectId : Js.jval -> option string) (st : Store.t) (now now' : Z)
  (uuid s : string) (body : AuthBody.credentials) (u : User.t) (t : Tenant.t) :
  Store.findActiveUserByEmail st (Js.toLowerCase (AuthBody.email body)) = Some u ->
  Store.findUserById st (User._id u) = Some u ->
  castObjectId (Js.JStr (User._id u)) = Some (User._id u) ->
  User.isLocked now u = false ->
  User.comparePassword bcrypt_compare u (AuthBody.password body) = true ->
  Store.findTenantById st (User.tenantId u) = Some t ->
  Tenant.isActive t = true ->
  let res := AuthController.login cfg bcrypt_compare st now uuid body in
  let access :=
    Jwt.generateToken cfg
      (Jwt.tokenPayload (User._id u) (User.email u) (Tenant._id t) (Tenant.slug t)
         (User.role u) (User.permissions u)) now in
  decodeCompact s = Some access ->
  Js.truthy_str s = true ->
  all_chars (not_sep " ") s = true ->
  JwtUtil.isTokenExpired now' (Jwt.seconds now + Jwt.JWT_EXPIRES_IN cfg) = false ->
  res = (AuthController.session 200 "Login successful" cfg now uuid u t,
         after_success st now u)
  /\ (exists m uv tv tk,
        Http.json res.1 = Http.Session m uv tv tk /\ Http.accessToken tk = access)
  /\ AuthMiddleware.authenticate cfg decodeCompact castObjectId res.2 now'
       {| AuthRequest.authorization := Some (String.append "Bearer " s);
          AuthRequest.cookie_authToken := None |}
     = AuthMiddleware.Next
         {| AuthMiddleware.req_user := User.resetLoginAttempts now u;
            AuthMiddleware.req_tenant := t;
            AuthMiddleware.req_auth := stored_principal u t |}
  /\ User.security (User.resetLoginAttempts now u)
     = {| User.lastLogin := Some now; User.loginAttempts := 0;
          User.lockUntil := None |}.
Proof.
  intros He Hi Hcast Hl Hp Ht Hta res access Hd Hs Hns Hx.
  assert (Hres : res = (AuthController.session 200 "Login successful" cfg now uuid u t,
                        after_success st now u)).
  { unfold res, AuthController.login. rewrite He, Hl, Hp, Ht, Hta. reflexivity. }
  split; [exact Hres |]. rewrite Hres. cbn [fst snd].
  split; [do 4 eexists; split; reflexivity |].
  split; [| reflexivity].
  unfold AuthMiddleware.authenticate. cbn [AuthRequest.authorization].
  rewrite (extract_bearer_credential s Hns).
  unfold AuthRequest.falsy. rewrite Hs. cbn [negb default].
  unfold AuthMiddleware.verifyToken. change (id s) with s. rewrite Hd.
  destruct (access_token_verifies cfg
              (Jwt.tokenPayload (User._id u) (User.email u) (Tenant._id t)
                 (Tenant.slug t) (User.role u) (User.permissions u)) now now' Hx)
    as (d & Hv & Hty & Hu & Htid).
  destruct (tokenPayload_fields (User._id u) (User.email u) (Tenant._id t)
              (Tenant.slug t) (User.role u) (User.permissions u)) as [Hcu Hct].
  cbv zeta in Hcu, Hct. rewrite Hcu in Hu. rewrite Hct in Htid.
  unfold access. rewrite Hv, Hty, Hu, Htid.
  cbn [Js.strict_eq_str AuthMiddleware.findById]. rewrite !String.eqb_refl.
  rewrite Hcast. cbn [negb].
  assert (Hfind : Store.findUserById (after_success st now u) (User._id u)
                  = Some (User.resetLoginAttempts now u)).
  { unfold after_success, Store.updateUser, Store.findUserById in *. simpl.
    pose proof (List.find_some _ _ Hi) as [_ Hi'].
    apply (find_update_first_same
             (fun d => String.eqb (User._id d) (User._id u))
             (fun d => String.eqb (User._id d) (User._id u))
             (fun d => User.set_security
                         (User.apply_update (User.resetLoginAttempts_update now)
                            (User.security d)) d) u); assumption. }
  rewrite Hfind.
  assert (Hact : User.isActive (User.resetLoginAttempts now u) = true).
  { apply List.find_some in He as [_ He]. apply andb_true_iff in He as [_ He].
    exact He. }
  rewrite Hact. cbn [negb].
  change (Store.findTenantById (after_success st now u)
            (User.tenantId (User.resetLoginAttempts now u)))
    with (Store.findTenantById st (User.tenantId u)).
  rewrite Ht, Hta. cbn [negb Js.strict_eq_str]. rewrite String.eqb_refl.
  reflexivity.
Qed.

(** The sample user logs in and presents the token a second before its
    seventh day ends. *)
Lemma login_then_authenticate_witness :
  let res := AuthController.login Jwt.default_config toy_compare sample_store 0 "a1"
               good_login in
  Http.status res.1 = 200
  /\ observed
       (AuthMiddleware.authenticate Jwt.default_config sample_decode sample_cast
          res.2 604799000 sample_request)
     = ResolverSpec.Principal
         (stored_principal (sample_user 0 None) (sample_tenant Tenant.free 3 0)).
Proof.
  cbv zeta.
  destruct (login_then_authenticate Jwt.default_config toy_compare sample_decode
              sample_cast sample_store 0 604799000 "a1" "header.payload.signature"
              good_login
              (sample_user 0 None) (sample_tenant Tenant.free 3 0))
    as (H1 & _ & H2 & _); try reflexivity.
  rewrite H1. cbn [fst snd]. split; [reflexivity |].
  rewrite H1 in H2. cbn [fst snd] in H2.
  change sample_request
    with {| AuthRequest.authorization :=
              Some (String.append "Bearer " "header.payload.signature");
            AuthRequest.cookie_authToken := None |}.
  rewrite H2. reflexivity.
Defined.

(** ** The refresh flow *)

(** The claims that [verifyToken] returns for a refresh token that is
    still valid. *)
Lemma refresh_token_verifies (cfg : Jwt.config) (C : Jwt.obj) (uuid : string)
  (now now' : Z) :
  JwtUtil.isTokenExpired now' (Jwt.seconds now + Jwt.JWT_REFRESH_EXPIRES_IN cfg)
  = false ->
  exists d,
    Jwt.verifyToken cfg (Jwt.generateRefreshToken cfg C uuid now) now' = Some d
    /\ d !! "tokenType" = Some (Js.JStr "refresh")
    /\ d !! "userId" = C !! "userId"
    /\ d !! "tenantId" = C !! "tenantId".
Proof.
  intros Hx.
  destruct (generateRefreshToken_minted cfg C uuid now)
    as (Hc & Hty & _ & _ & He & Hi & Ha & _).
  exists (Jwt.payload (Jwt.generateRefreshToken cfg C uuid now)).
  split; [| split; [exact Hty | split; apply Hc]].
  - rewrite (verify_minted cfg (Jwt.generateRefreshToken cfg C uuid now) now' _
               "notes-saas-refresh" eq_refl He Hi Ha)
      by (apply elem_of_cons; right; apply elem_of_cons; left; reflexivity).
    rewrite seconds_before, Hx. reflexivity.
  - unfold refresh_claims. apply elem_of_cons. left. reflexivity.
  - unfold refresh_claims. apply elem_of_cons. right.
    apply elem_of_cons. left. reflexivity.
Qed.

(** X4.  The refresh flow of the store-only revision is closed.  When
    [login] succeeds for a stored user of an active tenant, the refresh
    token of its answer is one that [verifyToken] of the token service
    accepts until its expiry, as a token of type ['refresh'] that names
    the user and the tenant; yet [refreshToken] answers 401
    [INVALID_REFRESH_TOKEN] to every body that carries a token, at any
    time and on any store, because its own call of [verifyToken] throws.
    It never reaches its check of [tokenType] and never issues an access
    token. *)
Theorem refreshToken_rejects_issued_token (cfg : Jwt.config)
  (bcrypt_compare : string -> string -> bool)
  (castObjectId : Js.jval -> option string) (st : Store.t) (now now' : Z)
  (uuid : string) (body : AuthBody.credentials) (u : User.t) (t : Tenant.t) :
  Store.findActiveUserByEmail st (Js.toLowerCase (AuthBody.email body)) = Some u ->
  User.isLocked now u = false ->
  User.comparePassword bcrypt_compare u (AuthBody.password body) = true ->
  Store.findTenantById st (User.tenantId u) = Some t ->
  Tenant.isActive t = true ->
  JwtUtil.isTokenExpired now' (Jwt.seconds now + Jwt.JWT_REFRESH_EXPIRES_IN cfg)
  = false ->
  let res := AuthController.login cfg bcrypt_compare st now uuid body in
  exists m uv tv tk d,
    Http.json res.1 = Http.Session m uv tv tk
    /\ Jwt.verifyToken cfg (Http.refreshToken tk) now' = Some d
    /\ d !! "tokenType" = Some (Js.JStr "refresh")
    /\ d !! "userId" = Some (Js.JStr (User._id u))
    /\ d !! "tenantId" = Some (Js.JStr (Tenant._id t))
    /\ forall st' now'' token,
         AuthRequest.falsy token = false ->
         AuthController.refreshToken cfg castObjectId st' now'' token
         = Http.fail 401 "Invalid refresh token" "INVALID_REFRESH_TOKEN".
Proof.
  intros He Hl Hp Ht Hta Hx res.
  assert (Hres : res = (AuthController.session 200 "Login successful" cfg now uuid u t,
                        after_success st now u)).
  { unfold res, AuthController.login. rewrite He, Hl, Hp, Ht, Hta. reflexivity. }
  destruct (refresh_token_verifies cfg
              (Jwt.tokenPayload (User._id u) (User.email u) (Tenant._id t)
                 (Tenant.slug t) (User.role u) (User.permissions u))
              uuid now now' Hx) as (d & Hv & Hty & Hu & Htid).
  destruct (tokenPayload_fields (User._id u) (User.email u) (Tenant._id t)
              (Tenant.slug t) (User.role u) (User.permissions u)) as [Hcu Hct].
  cbv zeta in Hcu, Hct. rewrite Hcu in Hu. rewrite Hct in Htid.
  rewrite Hres. cbn [fst snd AuthController.session Http.json].
  do 4 eexists. exists d. split; [reflexivity |].
  cbn [Http.refreshToken]. do 4 (split; [assumption |]).
  intros st' now'' token Hf. unfold AuthController.refreshToken.
  rewrite Hf. reflexivity.
Qed.

(** The sample user logs in and sends a token to the refresh handler. *)
Lemma refreshToken_rejects_issued_token_witness :
  let res := AuthController.login Jwt.default_config toy_compare sample_store 0 "a1"
               good_login in
  Http.status res.1 = 200
  /\ AuthController.refreshToken Jwt.default_config sample_cast res.2 1000
       (Some "refresh.token.string")
     = Http.fail 401 "Invalid refresh token" "INVALID_REFRESH_TOKEN".
Proof.
  cbv zeta.
  destruct (refreshToken_rejects_issued_token Jwt.default_config toy_compare
              sample_cast sample_store 0 1000 "a1" good_login
              (sample_user 0 None) (sample_tenant Tenant.free 3 0))
    as (m & uv & tv & tk & d & _ & _ & _ & _ & _ & H); try reflexivity.
  split; [reflexivity |]. apply H. reflexivity.
Defined.

(** ** Stored users in the revision with development accounts *)

(** X15.  In the revision with development accounts, [login] for an
    address that is not one of the four development addresses never opens
    a session: whatever the store, the password and the connection state,
    the answer is 401, 423, 500 or 403, carries an error body, and sets
    no cookie. *)
Theorem login2_stored_user_gets_no_session (cfg : Jwt.config)
  (bcrypt_compare : string -> string -> bool) (dbConnected : bool)
  (st : Store.t) (now : Z) (uuid : string) (body : AuthBody.credentials) :
  AuthController2.mockUsers !! Js.toLowerCase (AuthBody.email body) = None ->
  let r := (AuthController2.login cfg bcrypt_compare dbConnected st now uuid body).1 in
  Http.status r ∈ [401; 423; 500; 403]
  /\ Http.cookies r = None
  /\ exists c, Http.code_of r = Some c.
Proof.
  intros Hm r. unfold r, AuthController2.login. rewrite Hm.
  destruct dbConnected; simpl.
  - destruct (Store.findActiveUserByEmail st _) as [u |]; simpl.
    + destruct (User.isLocked now u); simpl.
      * split; [| split; [reflexivity | eexists; reflexivity]].
        apply elem_of_cons. right. apply elem_of_cons. left. reflexivity.
      * destruct (Store.findTenantBySlug st (User.tenantId u)); simpl.
        -- split; [| split; [reflexivity | eexists; reflexivity]].
           do 2 (apply elem_of_cons; right). apply elem_of_cons. left. reflexivity.
        -- destruct (User.comparePassword bcrypt_compare u (AuthBody.password body));
             simpl.
           ++ split; [| split; [reflexivity | eexists; reflexivity]].
              do 3 (apply elem_of_cons; right). apply elem_of_cons. left.
              reflexivity.
           ++ split; [| split; [reflexivity | eexists; reflexivity]].
              apply elem_of_cons. left. reflexivity.
    + split; [| split; [reflexivity | eexists; reflexivity]].
      apply elem_of_cons. left. reflexivity.
  - split; [| split; [reflexivity | eexists; reflexivity]].
    apply elem_of_cons. left. reflexivity.
Qed.

(** The sample user with the right password, on a connected store. *)
Lemma login2_stored_user_gets_no_session_witness :
  Http.status
    (AuthController2.login Jwt.default_config toy_compare true sample_store 0 "a1"
       good_login).1 ∈ [401; 423; 500; 403].
Proof.
  destruct (login2_stored_user_gets_no_session Jwt.default_config toy_compare true
              sample_store 0 "a1" good_login) as [H _];
    [vm_compute; reflexivity | exact H].
Defined.

(** ** Registration of a taken name *)

Lemma find_after_replace {A} (p q : A -> bool) (x y : A) (l : list A) :
  p x = true -> p y = true ->
  exists z, List.find p (Store.update_first q (fun _ => y) (l ++ [x])%list) = Some z.
Proof.
  intros Hx Hy. induction l as [| a l IH]; simpl.
  - destruct (q x); simpl; [rewrite Hy | rewrite Hx]; eexists; reflexivity.
  - destruct (q a); simpl.
    + rewrite Hy. eexists. reflexivity.
    + destruct (p a); [eexists; reflexivity | exact IH].
Qed.

Lemma preSave_slug (now : Z) (m : bool) (t : Tenant.t) :
  Tenant.slug (Tenant.preSave now m t) = Tenant.slug t.
Proof. apply preSave_identity. Qed.

(** X16.  An organisation name is taken once.  After a registration
    answered 201, every later registration whose organisation name
    derives the same slug, from any address, with any identifiers and at
    any time, is answered 409, [USER_EXISTS] or [TENANT_EXISTS], and
    leaves the store as it is. *)
Theorem register_rejects_taken_name (cfg : Jwt.config)
  (bcrypt_hash : string -> string) (st : Store.t) (now : Z)
  (tenantOid userOid uuid : string) (body : AuthBody.registration)
  (now2 : Z) (tenantOid2 userOid2 uuid2 : string) (body2 : AuthBody.registration) :
  let res := AuthController.register cfg bcrypt_hash st now tenantOid userOid uuid
               body in
  Http.status res.1 = 201 ->
  AuthController.tenantSlug (AuthBody.r_tenantName body2)
  = AuthController.tenantSlug (AuthBody.r_tenantName body) ->
  let res2 := AuthController.register cfg bcrypt_hash res.2 now2 tenantOid2 userOid2
                uuid2 body2 in
  res2 = (Http.fail 409 "User with this email already exists" "USER_EXISTS", res.2)
  \/ res2 = (Http.fail 409 "Organization name already taken" "TENANT_EXISTS", res.2).
Proof.
  intros res H201 Hslug res2.
  assert (Hfound : exists z,
             Store.findTenantBySlug res.2
               (AuthController.tenantSlug (AuthBody.r_tenantName body)) = Some z).
  { unfold res in *. unfold AuthController.register in *.
    destruct (Store.findUserByEmail st _); [discriminate |].
    destruct (Store.findTenantBySlug st _); [discriminate |].
    destruct (negb (Schema.validateTenant _)); [discriminate |].
    destruct (negb (Schema.validateUser _)); [discriminate |].
    try (destruct (negb (Schema.validateTenant _)); [discriminate |]).
    cbn [snd]. unfold Store.findTenantBySlug, Store.replaceTenant,
      Store.insertUser, Store.insertTenant. cbn [Store.tenants Store.users].
    destruct (tenantSlug_shape (AuthBody.r_tenantName body)) as (_ & _ & Hset).
    apply find_after_replace.
    - rewrite preSave_slug. cbn [AuthController.newTenant Tenant.slug].
      rewrite Hset. apply String.eqb_refl.
    - rewrite preSave_slug.
      unfold Tenant.incrementUsage_fields, Tenant.set_usage. cbn [Tenant.slug].
      rewrite preSave_slug. cbn [AuthController.newTenant Tenant.slug].
      rewrite Hset. apply String.eqb_refl. }
  destruct Hfound as [z Hz].
  unfold res2, AuthController.register.
  destruct (Store.findUserByEmail res.2 _); [left; reflexivity |].
  rewrite Hslug, Hz. right. reflexivity.
Qed.

(** ["Acme Co"] is registered; ["ACME   co!"] from another address is then
    refused. *)
Lemma register_rejects_taken_name_witness :
  let res := AuthController.register Jwt.default_config toy_hash empty_store
               1000 "t9" "u9" "a1" scenario_A_io in
  AuthController.register Jwt.default_config toy_hash res.2 2000 "t10" "u10" "a2"
    {| AuthBody.r_email := "b@y.io"; AuthBody.r_password := "Abcdef1";
       AuthBody.r_tenantName := "ACME   co!";
       AuthBody.r_firstName := None; AuthBody.r_lastName := None |}
  = (Http.fail 409 "Organization name already taken" "TENANT_EXISTS", res.2).
Proof.
  cbv zeta.
  destruct (register_rejects_taken_name Jwt.default_config toy_hash empty_store
              1000 "t9" "u9" "a1" scenario_A_io 2000 "t10" "u10" "a2"
              {| AuthBody.r_email := "b@y.io"; AuthBody.r_password := "Abcdef1";
                 AuthBody.r_tenantName := "ACME   co!";
                 AuthBody.r_firstName := None; AuthBody.r_lastName := None |})
    as [H | H]; try exact H; vm_compute; reflexivity.
Defined.

(** ** The upgrade endpoint *)

Lemma find_update_first_other {A} (p q : A -> bool) (y : A) (l : list A) :
  (forall a, q a = true -> p a = false) ->
  p y = false ->
  List.find p (Store.update_first q (fun _ => y) l) = List.find p l.
Proof.
  intros Hq Hy. induction l as [| a l IH]; simpl; [reflexivity |].
  destruct (q a) eqn:Hqa; simpl.
  - rewrite Hy, (Hq a Hqa). reflexivity.
  - rewrite IH. reflexivity.
Qed.


(** The tenant document that a successful upgrade stores. *)
Definition upgraded_tenant (now : Z) (t : Tenant.t) : Tenant.t :=
  {| Tenant._id := Tenant._id t; Tenant.slug := Tenant.slug t;
     Tenant.name := Tenant.name t;
     Tenant.plan := Tenant.pro;
     Tenant.noteLimit := -1;
     Tenant.subscription :=
       {| Tenant.status := Tenant.active;
          Tenant.startDate := now;
          Tenant.endDate := Some (now + 31536000000) |};
     Tenant.usage := Tenant.usage t;
     Tenant.isActive := Tenant.isActive t;
     Tenant.updatedAt := now |}.

(** The save of [upgradeTenant] validates the stored name, slug and
    counters, and none of the fields that the handler has just assigned. *)
Lemma validateTenant_upgraded (now : Z) (t : Tenant.t) :
  Schema.validateTenant (TenantController.upgraded now t)
  = named_ok t && usage_ok t.
Proof.
  rewrite validateTenant_parts. unfold Tenant.noteLimit_validator. simpl.
  change (named_ok (TenantController.upgraded now t)) with (named_ok t).
  change (usage_ok (TenantController.upgraded now t)) with (usage_ok t).
  rewrite andb_true_r. reflexivity.
Qed.



(** ** Notes and the note counter *)

(** The notes of tenant [tid] that are not deleted. *)
Definition is_live (tid : string) (n : Note.t) : bool :=
  String.eqb (Note.tenantId n) tid && negb (Note.isDeleted n).

Definition live (tid : string) (l : list Note.t) : Z :=
  Z.of_nat (List.length (List.filter (is_live tid) l)).

Lemma live_cons (tid : string) (n : Note.t) (l : list Note.t) :
  live tid (n :: l) = (if is_live tid n then 1 else 0) + live tid l.
Proof.
  unfold live. simpl. destruct (is_live tid n); simpl List.length; lia.
Qed.

Lemma live_app (tid : string) (l1 l2 : list Note.t) :
  live tid (l1 ++ l2)%list = live tid l1 + live tid l2.
Proof.
  induction l1 as [| a l1 IH]; [unfold live; simpl; lia |].
  change ((a :: l1) ++ l2)%list with (a :: (l1 ++ l2))%list.
  rewrite !live_cons, IH. lia.
Qed.

Lemma live_nonneg (tid : string) (l : list Note.t) : 0 <= live tid l.
Proof. unfold live. lia. Qed.

(** A request to the notes controller, with the values it draws from its
    environment. *)
Inductive note_request :=
| CreateNote (now : Z) (noteOid : string) (generateShareToken : option string)
    (accepted : bool) (auth : Http.auth_t) (body : NoteBody.create)
| DeleteNote (now : Z) (generateShareToken : option string) (id : string)
    (auth : Http.auth_t).

Definition handle (st : NoteStore.t) (r : note_request)
  : NotesHttp.response * NoteStore.t :=
  match r with
  | CreateNote now oid g acc auth body =>
      NotesController.createNote st now oid g acc auth body
  | DeleteNote now g id auth => NotesController.deleteNote st now g id auth
  end.

Definition principal (r : note_request) : Http.auth_t :=
  match r with
  | CreateNote _ _ _ _ auth _ => auth
  | DeleteNote _ _ _ auth => auth
  end.

(** The identifier of a new document is not the identifier of a stored
    one. *)
Definition fresh_id (st : NoteStore.t) (r : note_request) : Prop :=
  match r with
  | CreateNote _ oid _ _ _ _ => oid ∉ map Note._id (NoteStore.notes st)
  | DeleteNote _ _ _ _ => True
  end.

Fixpoint handle_all (st : NoteStore.t) (rs : list note_request) : NoteStore.t :=
  match rs with
  | [] => st
  | r :: rest => handle_all (handle st r).2 rest
  end.

Fixpoint fresh_ids (st : NoteStore.t) (rs : list note_request) : Prop :=
  match rs with
  | [] => True
  | r :: rest => fresh_id st r /\ fresh_ids (handle st r).2 rest
  end.

(** The tenant passes the validators of its schema, as every tenant
    does that was written by a save, and its counter tells its live
    notes. *)
Definition counts_notes (notes : list Note.t) (t : Tenant.t) : Prop :=
  Schema.validateTenant t = true
  /\ Tenant.currentNoteCount (Tenant.usage t) = live (Tenant._id t) notes.

(** A tenant with a limit holds no more notes than the limit. *)
Definition within_limit (t : Tenant.t) : Prop :=
  Tenant.hasUnlimitedNotes t = true
  \/ Tenant.currentNoteCount (Tenant.usage t) <= Tenant.noteLimit t.

(** A store in which identifiers are unique, every tenant is valid, every
    counter tells the live notes of its tenant, and every limit is
    respected. *)
Definition counted (st : NoteStore.t) : Prop :=
  NoDup (map Tenant._id (Store.tenants (NoteStore.db st)))
  /\ NoDup (map Note._id (NoteStore.notes st))
  /\ Forall (fun t => counts_notes (NoteStore.notes st) t /\ within_limit t)
       (Store.tenants (NoteStore.db st)).

Lemma map_update_first {A B} (key : A -> B) (q : A -> bool) (y : A) (l : list A) :
  (forall a, q a = true -> key y = key a) ->
  map key (Store.update_first q (fun _ => y) l) = map key l.
Proof.
  intros Hq. induction l as [| a l IH]; simpl; [reflexivity |].
  destruct (q a) eqn:Ha; simpl; [rewrite (Hq a Ha) | rewrite IH]; reflexivity.
Qed.

(** Replacing the document with a given key, among documents with unique
    keys: the replaced document satisfies [P'] if the replacement does,
    and the others if [P] implies [P'] away from the key. *)
Lemma Forall_update_first {A} (key : A -> string) (k : string) (y : A)
  (P P' : A -> Prop) (l : list A) :
  NoDup (map key l) ->
  Forall P l ->
  (forall a, key a <> k -> P a -> P' a) ->
  (forall a, a ∈ l -> key a = k -> P a -> P' y) ->
  Forall P' (Store.update_first (fun d => String.eqb (key d) k) (fun _ => y) l).
Proof.
  intros Hnd HP Hother Hsame. induction l as [| a l IH]; simpl; [constructor |].
  simpl in Hnd. apply NoDup_cons in Hnd as [Hnotin Hnd].
  apply Forall_cons in HP as [Ha HP].
  destruct (String.eqb (key a) k) eqn:Hk.
  - apply String.eqb_eq in Hk. apply Forall_cons. split.
    + apply (Hsame a); [apply elem_of_cons; left; reflexivity | exact Hk | exact Ha].
    + apply Forall_forall. intros b Hb. rewrite Forall_forall in HP.
      apply Hother; [| apply HP; exact Hb].
      intros Hkb. apply Hnotin. rewrite Hk, <- Hkb.
      apply list_elem_of_fmap. exists b. split; [reflexivity | exact Hb].
  - apply String.eqb_neq in Hk. apply Forall_cons. split.
    + apply Hother; assumption.
    + apply IH; try assumption.
      intros b Hb. apply Hsame. apply elem_of_cons. right. exact Hb.
Qed.

Lemma find_elem {A} (p : A -> bool) (x : A) (l : list A) :
  List.find p l = Some x -> x ∈ l /\ p x = true.
Proof.
  intros H. apply List.find_some in H as [Hin Hp]. split; [| exact Hp].
  apply list_elem_of_In. exact Hin.
Qed.

Lemma find_none_elem {A} (p : A -> bool) (l : list A) :
  List.find p l = None -> forall x, x ∈ l -> p x = false.
Proof.
  intros H x Hx. apply (List.find_none _ _ H). apply list_elem_of_In. exact Hx.
Qed.

(** What the hook of the Note model keeps. *)
Lemma note_preSave_keeps (now : Z) (m : bool) (g : option string) (n n' : Note.t) :
  Note.preSave now m g n = Some n' ->
  Note._id n' = Note._id n
  /\ Note.tenantId n' = Note.tenantId n
  /\ Note.userId n' = Note.userId n
  /\ Note.isDeleted n' = Note.isDeleted n.
Proof.
  unfold Note.preSave. destruct m.
  - destruct (_ <? _)%nat; cbn [Note.sharing Note.set_tags Note.set_metadata
                                 Note.set_updatedAt];
      destruct (_ && _); try destruct g; try discriminate;
      intros [= <-]; destruct (_ <? _)%nat; repeat split.
  - destruct (_ <? _)%nat; cbn [Note.sharing Note.set_tags Note.set_metadata
                                 Note.set_updatedAt];
      destruct (_ && _); try destruct g; try discriminate;
      intros [= <-]; destruct (_ <? _)%nat; repeat split.
Qed.

(** Soft deletion of one live note, among notes with unique ids. *)
Lemma live_after_delete (tid : string) (n n' : Note.t) (l : list Note.t) :
  NoDup (map Note._id l) ->
  n ∈ l ->
  Note._id n' = Note._id n ->
  Note.tenantId n' = Note.tenantId n ->
  Note.isDeleted n = false ->
  Note.isDeleted n' = true ->
  live tid (Store.update_first (fun d => String.eqb (Note._id d) (Note._id n'))
              (fun _ => n') l)
  = live tid l - (if String.eqb (Note.tenantId n) tid then 1 else 0).
Proof.
  intros Hnd Hin Hid Hten Hlive Hdel. induction l as [| a l IH]; simpl.
  - apply elem_of_nil in Hin. destruct Hin.
  - simpl in Hnd. apply NoDup_cons in Hnd as [Hnotin Hnd].
    destruct (String.eqb (Note._id a) (Note._id n')) eqn:Ha.
    + apply String.eqb_eq in Ha.
      assert (Han : a = n).
      { apply elem_of_cons in Hin as [-> | Hin]; [reflexivity |].
        exfalso. apply Hnotin. rewrite Ha, Hid.
        apply list_elem_of_fmap. exists n. split; [reflexivity | exact Hin]. }
      subst a. rewrite !live_cons. unfold is_live.
      rewrite Hten, Hlive, Hdel.
      destruct (String.eqb (Note.tenantId n) tid); simpl; lia.
    + apply String.eqb_neq in Ha.
      assert (Hin' : n ∈ l).
      { apply elem_of_cons in Hin as [-> | Hin]; [| exact Hin].
        exfalso. apply Ha. symmetry. exact Hid. }
      rewrite !live_cons, (IH Hnd Hin'). lia.
Qed.

(** Replacing one note by a note of the same tenant and owner, among
    notes with unique ids, leaves the notes outside a class that holds
    neither of them as they are. *)
Lemma filter_after_replace (p : Note.t -> bool) (n n' : Note.t) (l : list Note.t) :
  NoDup (map Note._id l) ->
  n ∈ l ->
  Note._id n' = Note._id n ->
  p n = false -> p n' = false ->
  List.filter p (Store.update_first (fun d => String.eqb (Note._id d) (Note._id n'))
                   (fun _ => n') l)
  = List.filter p l.
Proof.
  intros Hnd Hin Hid Hn Hn'. induction l as [| a l IH]; simpl; [reflexivity |].
  simpl in Hnd. apply NoDup_cons in Hnd as [Hnotin Hnd].
  destruct (String.eqb (Note._id a) (Note._id n')) eqn:Ha.
  - apply String.eqb_eq in Ha.
    assert (Han : a = n).
    { apply elem_of_cons in Hin as [-> | Hin]; [reflexivity |].
      exfalso. apply Hnotin. rewrite Ha, Hid.
      apply list_elem_of_fmap. exists n. split; [reflexivity | exact Hin]. }
    subst a. simpl. rewrite Hn, Hn'. reflexivity.
  - apply String.eqb_neq in Ha.
    assert (Hin' : n ∈ l).
    { apply elem_of_cons in Hin as [-> | Hin]; [| exact Hin].
      exfalso. apply Ha. symmetry. exact Hid. }
    simpl. rewrite (IH Hnd Hin'). reflexivity.
Qed.

(** What [createNote] does, by cases: nothing; or the note is stored and
    the counter is not; or both are stored, and the answer depends on the
    author's document. *)
Lemma createNote_cases (st : NoteStore.t) (now : Z) (oid : string)
  (g : option string) (acc : bool) (auth : Http.auth_t) (body : NoteBody.create) :
  let res := NotesController.createNote st now oid g acc auth body in
  (res.2 = st /\ NotesHttp.status res.1 ∈ [404; 403; 500])
  \/ (exists tenant note,
        Store.findTenantById (NoteStore.db st) (Http.tenantId auth) = Some tenant
        /\ Tenant.canCreateNotes tenant = true
        /\ Note.validate (NotesController.newNote oid now auth body) = true
        /\ Note.preSave now true g (NotesController.newNote oid now auth body)
           = Some note
        /\ acc = true
        /\ ((TenantMethods.incrementUsage now Tenant.notes 1 tenant = None
             /\ res = (NotesController.create_error, NoteStore.insertNote st note))
            \/ (exists tenant',
                  TenantMethods.incrementUsage now Tenant.notes 1 tenant = Some tenant'
                  /\ res.2 = {| NoteStore.db :=
                                  Store.replaceTenant (NoteStore.db st) tenant';
                                NoteStore.notes := (NoteStore.notes st ++ [note])%list |}
                  /\ ((Store.findUserById (NoteStore.db st) (Note.userId note) = None
                       /\ res.1 = NotesController.create_error)
                      \/ (exists author,
                            Store.findUserById (NoteStore.db st) (Note.userId note)
                            = Some author
                            /\ res.1
                               = {| NotesHttp.status := 201;
                                    NotesHttp.json :=
                                      NotesHttp.Created "Note created successfully"
                                        (NotesController.note_view note author)
                                        (Tenant.currentNoteCount (Tenant.usage tenant')
                                         + 1)
                                        (Tenant.remainingNotes tenant' - 1) |}))))).
Proof.
  intros res. unfold res, NotesController.createNote.
  destruct (Store.findTenantById (NoteStore.db st) (Http.tenantId auth))
    as [tenant |] eqn:Ht.
  2: { left. split; [reflexivity |]. apply elem_of_cons. left. reflexivity. }
  destruct (Tenant.canCreateNotes tenant) eqn:Hc; cbn [negb].
  2: { left. split; [reflexivity |].
       apply elem_of_cons. right. apply elem_of_cons. left. reflexivity. }
  destruct (Note.validate (NotesController.newNote oid now auth body)) eqn:Hv;
    cbn [negb].
  2: { left. split; [reflexivity |].
       do 2 (apply elem_of_cons; right). apply elem_of_cons. left. reflexivity. }
  destruct (Note.preSave now true g (NotesController.newNote oid now auth body))
    as [note |] eqn:Hp.
  2: { left. split; [reflexivity |].
       do 2 (apply elem_of_cons; right). apply elem_of_cons. left. reflexivity. }
  destruct acc; cbn [negb].
  2: { left. split; [reflexivity |].
       do 2 (apply elem_of_cons; right). apply elem_of_cons. left. reflexivity. }
  right. exists tenant, note. do 5 (split; [first [assumption | reflexivity] |]).
  destruct (TenantMethods.incrementUsage now Tenant.notes 1 tenant)
    as [tenant' |] eqn:Hi.
  2: { left. split; reflexivity. }
  right. exists tenant'. split; [reflexivity |].
  cbn [NoteStore.with_db NoteStore.insertNote NoteStore.db NoteStore.notes].
  change (Store.findUserById (Store.replaceTenant (NoteStore.db st) tenant')
            (Note.userId note))
    with (Store.findUserById (NoteStore.db st) (Note.userId note)).
  destruct (Store.findUserById (NoteStore.db st) (Note.userId note))
    as [author |] eqn:Ha.
  - split; [reflexivity |]. right. exists author. split; reflexivity.
  - split; [reflexivity |]. left. split; reflexivity.
Qed.

(** What [deleteNote] does, by cases. *)
Lemma deleteNote_cases (st : NoteStore.t) (now : Z) (g : option string)
  (id : string) (auth : Http.auth_t) :
  let res := NotesController.deleteNote st now g id auth in
  (res.2 = st /\ NotesHttp.status res.1 ∈ [404; 500])
  \/ (exists note note',
        List.find (NotesController.deletable id auth) (NoteStore.notes st)
        = Some note
        /\ Note.softDelete now g (Http.userId auth) note = Some note'
        /\ let st1 := NoteStore.replaceNote st note' in
           let done :=
             {| NotesHttp.status := 200;
                NotesHttp.json :=
                  NotesHttp.Deleted "Note deleted successfully" (Note._id note') |} in
           match Store.findTenantById (NoteStore.db st) (Http.tenantId auth) with
           | None => res = (done, st1)
           | Some tenant =>
               match TenantMethods.decrementUsage now Tenant.notes 1 tenant with
               | None => res = (NotesController.delete_error, st1)
               | Some tenant' =>
                   res = (done,
                          NoteStore.with_db
                            (Store.replaceTenant (NoteStore.db st) tenant') st1)
               end
           end).
Proof.
  intros res. unfold res, NotesController.deleteNote.
  destruct (List.find (NotesController.deletable id auth) (NoteStore.notes st))
    as [note |] eqn:Hf.
  2: { left. split; [reflexivity |]. apply elem_of_cons. left. reflexivity. }
  destruct (Note.softDelete now g (Http.userId auth) note) as [note' |] eqn:Hs.
  2: { left. split; [reflexivity |].
       apply elem_of_cons. right. apply elem_of_cons. left. reflexivity. }
  right. exists note, note'. do 2 (split; [first [assumption | reflexivity] |]).
  cbv zeta. cbn [NoteStore.replaceNote NoteStore.db].
  destruct (Store.findTenantById (NoteStore.db st) (Http.tenantId auth))
    as [tenant |]; [| reflexivity].
  destruct (TenantMethods.decrementUsage now Tenant.notes 1 tenant); reflexivity.
Qed.

(** A save of a note stores something exactly when the note passes its
    validators and the hook does not throw. *)
Lemma note_save_some (now : Z) (m : bool) (g : option string) (n n' : Note.t) :
  Note.save now m g n = Some n'
  <-> Note.validate n = true /\ Note.preSave now m g n = Some n'.
Proof.
  unfold Note.save. destruct (Note.validate n).
  - split; [intros H; split; [reflexivity | exact H] | intros [_ H]; exact H].
  - split; [discriminate | intros [H _]; discriminate H].
Qed.

Lemma softDelete_keeps (now : Z) (g : option string) (by_ : string)
  (n n' : Note.t) :
  Note.softDelete now g by_ n = Some n' ->
  Note._id n' = Note._id n
  /\ Note.tenantId n' = Note.tenantId n
  /\ Note.userId n' = Note.userId n
  /\ Note.isDeleted n' = true.
Proof.
  unfold Note.softDelete. intros H. apply note_save_some in H as [_ H].
  apply note_preSave_keeps in H. exact H.
Qed.

Lemma incrementUsage_notes (now : Z) (t t' : Tenant.t) :
  TenantMethods.incrementUsage now Tenant.notes 1 t = Some t' ->
  Tenant._id t' = Tenant._id t
  /\ Tenant.noteLimit t' = Tenant.noteLimit t
  /\ Tenant.currentNoteCount (Tenant.usage t')
     = Tenant.currentNoteCount (Tenant.usage t) + 1
  /\ Schema.validateTenant t' = true.
Proof.
  unfold TenantMethods.incrementUsage. intros H.
  apply saveTenant_some in H as [Hv ->]. repeat split. exact Hv.
Qed.

Lemma incrementUsage_notes_succeeds (now : Z) (t : Tenant.t) :
  Schema.validateTenant t = true ->
  exists t', TenantMethods.incrementUsage now Tenant.notes 1 t = Some t'.
Proof.
  intros Hv. destruct (validateTenant_counters t Hv) as (Hn & Hu & Hs).
  unfold TenantMethods.incrementUsage. cbn [Tenant.incrementUsage_fields].
  match goal with
  | |- context [Tenant.set_usage ?u t] =>
      destruct (saveTenant_set_usage now t u Hv) as [H _];
      [simpl; lia | simpl; lia | simpl; lia |]
  end.
  eexists. exact H.
Qed.

Lemma decrementUsage_notes (now : Z) (t : Tenant.t) :
  Schema.validateTenant t = true ->
  exists t',
    TenantMethods.decrementUsage now Tenant.notes 1 t = Some t'
    /\ Tenant._id t' = Tenant._id t
    /\ Tenant.noteLimit t' = Tenant.noteLimit t
    /\ Tenant.currentNoteCount (Tenant.usage t')
       = Z.max 0 (Tenant.currentNoteCount (Tenant.usage t) - 1)
    /\ Schema.validateTenant t' = true.
Proof.
  intros Hv. destruct (validateTenant_counters t Hv) as (Hn & Hu & Hs).
  unfold TenantMethods.decrementUsage. cbn [TenantMethods.decrementUsage_fields].
  match goal with
  | |- context [Tenant.set_usage ?u t] =>
      destruct (saveTenant_set_usage now t u Hv) as [H Hv'];
      [simpl; lia | simpl; lia | simpl; lia |]
  end.
  eexists. split; [exact H |]. repeat split. exact Hv'.
Qed.

Lemma counts_nonneg (t : Tenant.t) :
  Schema.validateTenant t = true -> 0 <= Tenant.currentNoteCount (Tenant.usage t).
Proof. intros Hv. apply (validateTenant_counters t Hv). Qed.

Lemma canCreateNotes_room (t : Tenant.t) :
  Tenant.canCreateNotes t = true ->
  Tenant.hasUnlimitedNotes t = true
  \/ Tenant.currentNoteCount (Tenant.usage t) < Tenant.noteLimit t.
Proof.
  unfold Tenant.canCreateNotes. destruct (_ || _); [discriminate |].
  intros H. apply orb_true_iff in H as [H | H]; [left; exact H |].
  right. apply Z.ltb_lt. exact H.
Qed.

(** One request keeps a counted store counted. *)
Lemma handle_counted (st : NoteStore.t) (r : note_request) :
  counted st -> fresh_id st r -> counted (handle st r).2.
Proof.
  intros (Hndt & Hndn & Hall) Hfresh. destruct r as [now oid g acc auth body
                                                    | now g id auth]; simpl in *.
  - destruct (createNote_cases st now oid g acc auth body)
      as [[Heq _] | (tenant & note & Ht & Hc & _ & Hp & _ & Hcase)].
    { rewrite Heq. repeat split; assumption. }
    apply find_elem in Ht as [Htin Htid]. apply String.eqb_eq in Htid.
    rewrite Forall_forall in Hall.
    destruct (Hall tenant Htin) as [[Hv Hcount] Hlim].
    destruct (note_preSave_keeps _ _ _ _ _ Hp) as (Hnid & Hnten & _ & Hndel).
    simpl in Hnid, Hnten, Hndel.
    destruct Hcase as [[Hnone _] | (tenant' & Hinc & Heq & _)].
    { destruct (incrementUsage_notes_succeeds now tenant Hv) as [t' Ht'].
      congruence. }
    destruct (incrementUsage_notes _ _ _ Hinc) as (Hid' & Hlim' & Hcnt' & Hv').
    rewrite Heq. unfold counted. simpl. split; [| split].
    + rewrite map_update_first; [exact Hndt |].
      intros a Ha. apply String.eqb_eq in Ha. symmetry. exact Ha.
    + rewrite map_app. simpl. apply NoDup_app. split; [exact Hndn |]. split.
      * intros x Hx Hx'. apply list_elem_of_singleton in Hx'. subst x.
        apply Hfresh. rewrite <- Hnid. exact Hx.
      * apply NoDup_singleton.
    + apply (Forall_update_first Tenant._id (Tenant._id tenant') tenant'
               (fun t => counts_notes (NoteStore.notes st) t /\ within_limit t)).
      * exact Hndt.
      * apply Forall_forall. exact Hall.
      * intros a Hne [[Hva Hca] Hla]. split; [split; [exact Hva |] | exact Hla].
        rewrite live_app, live_cons. unfold is_live at 1.
        rewrite Hnten, <- Htid, <- Hid'.
        replace (String.eqb (Tenant._id tenant') (Tenant._id a)) with false.
        -- simpl. unfold live at 2. simpl. lia.
        -- symmetry. apply String.eqb_neq. congruence.
      * intros a _ _ _. split; [split; [exact Hv' |] |].
        -- rewrite live_app, live_cons. unfold is_live at 1.
           rewrite Hnten, <- Htid, <- Hid', String.eqb_refl, Hndel. simpl.
           unfold live at 2. simpl. rewrite Hcnt', Hcount, Hid'. lia.
        -- unfold within_limit, Tenant.hasUnlimitedNotes in *.
           rewrite Hlim', Hcnt'.
           destruct (canCreateNotes_room tenant Hc) as [Hu | Hlt];
             [left; exact Hu | right; lia].
  - destruct (deleteNote_cases st now g id auth)
      as [[Heq _] | (note & note' & Hf & Hs & Hcase)].
    { rewrite Heq. repeat split; assumption. }
    cbv zeta in Hcase.
    apply find_elem in Hf as [Hnin Hq]. unfold NotesController.deletable in Hq.
    apply andb_true_iff in Hq as [Hq _]. apply andb_true_iff in Hq as [Hq Hlive].
    apply andb_true_iff in Hq as [_ Hten]. apply String.eqb_eq in Hten.
    apply negb_true_iff in Hlive.
    destruct (softDelete_keeps _ _ _ _ _ Hs) as (Hid & Hten' & _ & Hdel).
    assert (Hids : map Note._id (NoteStore.notes (NoteStore.replaceNote st note'))
                   = map Note._id (NoteStore.notes st)).
    { unfold NoteStore.replaceNote. simpl. apply map_update_first.
      intros a Ha. apply String.eqb_eq in Ha. symmetry. exact Ha. }
    assert (Hlv : forall k,
               live k (NoteStore.notes (NoteStore.replaceNote st note'))
               = live k (NoteStore.notes st)
                 - (if String.eqb (Http.tenantId auth) k then 1 else 0)).
    { intros k. unfold NoteStore.replaceNote. simpl.
      rewrite (live_after_delete k note note'); try assumption.
      rewrite Hten. reflexivity. }
    assert (Hpos : 1 <= live (Http.tenantId auth) (NoteStore.notes st)).
    { clear - Hnin Hten Hlive. induction (NoteStore.notes st) as [| a l IH].
      - apply elem_of_nil in Hnin. destruct Hnin.
      - rewrite live_cons. pose proof (live_nonneg (Http.tenantId auth) l).
        apply elem_of_cons in Hnin as [<- | Hin].
        + unfold is_live. rewrite Hten, String.eqb_refl, Hlive. simpl. lia.
        + specialize (IH Hin). destruct (is_live _ a); lia. }
    rewrite Forall_forall in Hall.
    destruct (Store.findTenantById (NoteStore.db st) (Http.tenantId auth))
      as [tenant |] eqn:Ht.
    + apply find_elem in Ht as [Htin Htid]. apply String.eqb_eq in Htid.
      destruct (Hall tenant Htin) as [[Hv Hcount] Hlim].
      destruct (decrementUsage_notes now tenant Hv)
        as (tenant' & Hdec & Hid' & Hlim' & Hcnt' & Hv').
      rewrite Hdec in Hcase. rewrite Hcase. unfold counted. simpl.
      split; [| split].
      * rewrite map_update_first; [exact Hndt |].
        intros a Ha. apply String.eqb_eq in Ha. symmetry. exact Ha.
      * unfold NoteStore.replaceNote in Hids. simpl in Hids. rewrite Hids.
        exact Hndn.
      * unfold NoteStore.replaceNote in Hlv. simpl in Hlv.
        apply (Forall_update_first Tenant._id (Tenant._id tenant') tenant'
                 (fun t => counts_notes (NoteStore.notes st) t /\ within_limit t)).
        -- exact Hndt.
        -- apply Forall_forall. exact Hall.
        -- intros a Hne [[Hva Hca] Hla]. split; [split; [exact Hva |] | exact Hla].
           unfold counts_notes. rewrite Hlv, <- Htid, <- Hid'.
           replace (String.eqb (Tenant._id tenant') (Tenant._id a)) with false;
             [lia |]. symmetry. apply String.eqb_neq. congruence.
        -- intros a _ _ _. split; [split; [exact Hv' |] |].
           ++ rewrite Hlv, Hid', Htid, String.eqb_refl, Hcnt', Hcount, Htid. lia.
           ++ unfold within_limit, Tenant.hasUnlimitedNotes in *.
              rewrite Hlim', Hcnt'. pose proof (counts_nonneg tenant Hv).
              destruct Hlim as [Hu | Hle]; [left; exact Hu | right; lia].
    + rewrite Hcase. unfold counted. simpl. split; [exact Hndt |]. split.
      * unfold NoteStore.replaceNote in Hids. simpl in Hids. rewrite Hids.
        exact Hndn.
      * unfold NoteStore.replaceNote in Hlv. simpl in Hlv.
        apply Forall_forall. intros a Ha. destruct (Hall a Ha) as [[Hva Hca] Hla].
        split; [split; [exact Hva |] | exact Hla].
        rewrite Hlv.
        pose proof (find_none_elem _ _ Ht a Ha) as Hne. simpl in Hne.
        rewrite String.eqb_sym, Hne. lia.
Qed.

Lemma handle_all_counted (st : NoteStore.t) (rs : list note_request) :
  counted st -> fresh_ids st rs -> counted (handle_all st rs).
Proof.
  revert st. induction rs as [| r rs IH]; intros st Hc Hf; simpl; [exact Hc |].
  destruct Hf as [Hr Hrest]. apply IH; [| exact Hrest].
  apply handle_counted; assumption.
Qed.

(** The hook accepts every new note: a new note is not shared. *)
Lemma newNote_preSave (now now' : Z) (oid : string) (g : option string)
  (auth : Http.auth_t) (body : NoteBody.create) :
  exists note,
    Note.preSave now' true g (NotesController.newNote oid now auth body) = Some note.
Proof.
  unfold Note.preSave.
  cbn [Note.tags Note.set_metadata Note.set_updatedAt NotesController.newNote].
  destruct (_ <? _)%nat;
    cbn [Note.sharing Note.set_tags Note.set_metadata Note.set_updatedAt
         Note.isShared andb]; eexists; reflexivity.
Qed.

(** X18.  The note counter is exact as long as the tenant saves succeed.
    Take a store in which identifiers are unique, every tenant passes the
    validators of its schema, every tenant's [usage.currentNoteCount] is
    the number of its notes that are not deleted, and no tenant with a
    limit holds more notes than the limit.  After any sequence of
    [createNote] and [deleteNote] requests, by any principals, with any
    bodies and whatever the environment decides, where each new note gets
    an identifier that is not in use, the store is again such a store:
    for every stored tenant the counter equals the number of its live
    notes and, unless the limit is [-1], does not exceed the limit.
    The two writes of [createNote] are not one unit of work: for a
    tenant whose stored limit does not suit its plan, the note is stored,
    the save of the counter throws, the answer is 500 and the tenant has
    one live note more than before with the counter unchanged. *)
Theorem note_counter_is_exact (st : NoteStore.t) (rs : list note_request) :
  (counted st ->
   fresh_ids st rs ->
   let final := handle_all st rs in
   counted final
   /\ forall t, t ∈ Store.tenants (NoteStore.db final) ->
        Tenant.currentNoteCount (Tenant.usage t)
        = live (Tenant._id t) (NoteStore.notes final)
        /\ (Tenant.noteLimit t = -1
            \/ Tenant.currentNoteCount (Tenant.usage t) <= Tenant.noteLimit t))
  /\ (forall now oid g auth body tenant,
        Store.findTenantById (NoteStore.db st) (Http.tenantId auth) = Some tenant ->
        Tenant.canCreateNotes tenant = true ->
        Tenant.noteLimit_validator tenant = false ->
        Note.validate (NotesController.newNote oid now auth body) = true ->
        let res := NotesController.createNote st now oid g true auth body in
        NotesHttp.status res.1 = 500
        /\ NoteStore.db res.2 = NoteStore.db st
        /\ live (Http.tenantId auth) (NoteStore.notes res.2)
           = live (Http.tenantId auth) (NoteStore.notes st) + 1).
Proof.
  split.
  - intros Hc Hf final.
    pose proof (handle_all_counted st rs Hc Hf) as Hfinal. fold final in Hfinal.
    split; [exact Hfinal |].
    destruct Hfinal as (_ & _ & Hall). rewrite Forall_forall in Hall.
    intros t Ht. destruct (Hall t Ht) as [[_ Hcount] Hlim].
    split; [exact Hcount |].
    destruct Hlim as [Hu | Hle]; [left | right; exact Hle].
    unfold Tenant.hasUnlimitedNotes in Hu. apply Z.eqb_eq in Hu. exact Hu.
  - intros now oid g auth body tenant Ht Hcan Hlim Hval res.
    destruct (newNote_preSave now now oid g auth body) as [note Hp].
    destruct (note_preSave_keeps _ _ _ _ _ Hp) as (_ & Hten & _ & Hdel).
    destruct (usage_methods_validate_every_path now Tenant.notes 1 tenant Hlim)
      as [Hinc _].
    assert (Hres : res = (NotesController.create_error,
                          NoteStore.insertNote st note)).
    { unfold res, NotesController.createNote.
      rewrite Ht, Hcan, Hval, Hp, Hinc. reflexivity. }
    rewrite Hres. cbn [fst snd NoteStore.insertNote NoteStore.db NoteStore.notes].
    split; [reflexivity |]. split; [reflexivity |].
    rewrite live_app, live_cons. unfold is_live at 1. rewrite Hten, Hdel.
    cbn [NotesController.newNote Note.tenantId Note.isDeleted].
    rewrite String.eqb_refl. cbn [andb negb]. unfold live at 2. simpl. lia.
Qed.

(** A store for the examples: the sample user and an admin of the same
    free tenant, and no notes. *)
Definition sample_admin : User.t :=
  {| User._id := "u2"; User.email := "bob@acme.io";
     User.password := "hash:secret2"; User.tenantId := "t1";
     User.role := User.admin;
     User.profile := {| User.firstName := "Bob"; User.lastName := "Ray" |};
     User.security :=
       {| User.lastLogin := None; User.loginAttempts := 0;
          User.lockUntil := None |};
     User.permissions := Perm.all_true;
     User.isActive := true |}.

Definition sample_notes (count : Z) (notes : list Note.t) : NoteStore.t :=
  {| NoteStore.db :=
       {| Store.users := [sample_user 0 None; sample_admin];
          Store.tenants := [sample_tenant Tenant.free 3 count] |};
     NoteStore.notes := notes |}.

Definition member_auth : Http.auth_t :=
  stored_principal (sample_user 0 None) (sample_tenant Tenant.free 3 0).

Definition admin_auth : Http.auth_t :=
  stored_principal sample_admin (sample_tenant Tenant.free 3 0).

Definition sample_body (title : string) : NoteBody.create :=
  {| NoteBody.title := title; NoteBody.content := "# Minutes of the meeting";
     NoteBody.category := None; NoteBody.tags := Some ["Work"];
     NoteBody.status := None; NoteBody.visibility := None |}.

(** Four creations by the member, the fourth over the limit, then a
    deletion by the admin and one more creation. *)
Definition sample_requests : list note_request :=
  [CreateNote 10 "n1" None true member_auth (sample_body "one");
   CreateNote 20 "n2" None true member_auth (sample_body "two");
   CreateNote 30 "n3" None true member_auth (sample_body "three");
   CreateNote 40 "n4" None true member_auth (sample_body "four");
   DeleteNote 50 None "n2" admin_auth;
   CreateNote 60 "n5" None true member_auth (sample_body "five")].

Lemma fresh_key (x : string) (l : list string) : bool_decide (x ∉ l) -> x ∉ l.
Proof. apply bool_decide_unpack. Qed.

(** The sample store with its tenant on the free plan and a stored limit
    of 50, which the validator of the free plan refuses. *)
Definition overdrawn_notes : NoteStore.t :=
  {| NoteStore.db :=
       {| Store.users := [sample_user 0 None; sample_admin];
          Store.tenants := [sample_tenant Tenant.free 50 0] |};
     NoteStore.notes := [] |}.

Lemma note_counter_is_exact_witness :
  let final := handle_all (sample_notes 0 []) sample_requests in
  let res :=
    NotesController.createNote overdrawn_notes 10 "n1" None true member_auth
      (sample_body "one") in
  map Note._id (NoteStore.notes final) = ["n1"; "n2"; "n3"; "n5"]
  /\ map Note.isDeleted (NoteStore.notes final) = [false; true; false; false]
  /\ map (fun t => Tenant.currentNoteCount (Tenant.usage t))
       (Store.tenants (NoteStore.db final)) = [3]
  /\ counted final
  /\ NotesHttp.status res.1 = 500
  /\ NoteStore.db res.2 = NoteStore.db overdrawn_notes
  /\ live "t1" (NoteStore.notes res.2) = 1.
Proof.
  cbv zeta. do 3 (split; [vm_compute; reflexivity |]).
  split.
  - destruct (note_counter_is_exact (sample_notes 0 []) sample_requests)
      as [Hseq _].
    destruct Hseq as [H _].
    + unfold counted. simpl. split; [apply NoDup_singleton |].
      split; [constructor |].
      apply Forall_cons. split; [| exact (List.Forall_nil _)].
      split; [split; reflexivity | right; simpl; lia].
    + simpl. repeat split; try (apply fresh_key; vm_compute; exact I).
    + exact H.
  - destruct (note_counter_is_exact overdrawn_notes []) as [_ Hsplit].
    apply (Hsplit 10 "n1" None member_auth (sample_body "one")
             (sample_tenant Tenant.free 50 0)); reflexivity.
Defined.

(** ** What the notes handlers answer and touch *)

Lemma firstn_le {A} (k : nat) (l : list A) : (List.length (firstn k l) <= k)%nat.
Proof. rewrite length_firstn. lia. Qed.



(** X20.  Requests stay inside the principal's tenant.  In a store whose
    notes have unique identifiers, a [createNote] or [deleteNote] request
    changes no note of a tenant other than the principal's, no tenant
    document other than the principal's, and no user. *)
Theorem note_requests_stay_in_tenant (st : NoteStore.t) (r : note_request)
  (other : string) :
  NoDup (map Note._id (NoteStore.notes st)) ->
  String.eqb other (Http.tenantId (principal r)) = false ->
  let st' := (handle st r).2 in
  List.filter (fun n => String.eqb (Note.tenantId n) other) (NoteStore.notes st')
  = List.filter (fun n => String.eqb (Note.tenantId n) other) (NoteStore.notes st)
  /\ Store.findTenantById (NoteStore.db st') other
     = Store.findTenantById (NoteStore.db st) other
  /\ Store.users (NoteStore.db st') = Store.users (NoteStore.db st).
Proof.
  intros Hnd Hother st'. unfold st'.
  assert (Hrep : forall t t0,
             Store.findTenantById (NoteStore.db st) (Http.tenantId (principal r))
             = Some t0 ->
             Tenant._id t = Tenant._id t0 ->
             Store.findTenantById (Store.replaceTenant (NoteStore.db st) t) other
             = Store.findTenantById (NoteStore.db st) other).
  { intros t t0 Ht0 Hid. apply find_elem in Ht0 as [_ Ht0].
    apply String.eqb_eq in Ht0.
    unfold Store.findTenantById, Store.replaceTenant. simpl.
    apply find_update_first_other.
    - intros a Ha. apply String.eqb_eq in Ha. rewrite Ha, Hid, Ht0, String.eqb_sym.
      exact Hother.
    - rewrite Hid, Ht0, String.eqb_sym. exact Hother. }
  destruct r as [now oid g acc auth body | now g id auth]; simpl in *.
  - destruct (createNote_cases st now oid g acc auth body)
      as [[Heq _] | (tenant & note & Ht & _ & _ & Hp & _ & Hcase)].
    { rewrite Heq. repeat split. }
    destruct (note_preSave_keeps _ _ _ _ _ Hp) as (_ & Hnten & _).
    simpl in Hnten.
    assert (Hflt : List.filter (fun n => String.eqb (Note.tenantId n) other)
                     (NoteStore.notes st ++ [note])%list
                   = List.filter (fun n => String.eqb (Note.tenantId n) other)
                       (NoteStore.notes st)).
    { rewrite List.filter_app. simpl. rewrite Hnten, String.eqb_sym, Hother.
      apply app_nil_r. }
    destruct Hcase as [[_ Heq] | (tenant' & Hinc & Heq & _)].
    + rewrite Heq. simpl. repeat split. exact Hflt.
    + rewrite Heq. simpl. split; [exact Hflt |]. split; [| reflexivity].
      apply (Hrep tenant' tenant Ht).
      apply (incrementUsage_notes _ _ _ Hinc).
  - destruct (deleteNote_cases st now g id auth)
      as [[Heq _] | (note & note' & Hf & Hs & Hcase)].
    { rewrite Heq. repeat split. }
    cbv zeta in Hcase.
    apply find_elem in Hf as [Hnin Hq]. unfold NotesController.deletable in Hq.
    apply andb_true_iff in Hq as [Hq _]. apply andb_true_iff in Hq as [Hq _].
    apply andb_true_iff in Hq as [_ Hten]. apply String.eqb_eq in Hten.
    destruct (softDelete_keeps _ _ _ _ _ Hs) as (Hid & Hten' & _ & _).
    assert (Hflt : List.filter (fun n => String.eqb (Note.tenantId n) other)
                     (NoteStore.notes (NoteStore.replaceNote st note'))
                   = List.filter (fun n => String.eqb (Note.tenantId n) other)
                       (NoteStore.notes st)).
    { unfold NoteStore.replaceNote. simpl.
      apply (filter_after_replace _ note note'); try assumption.
      - rewrite Hten, String.eqb_sym. exact Hother.
      - rewrite Hten', Hten, String.eqb_sym. exact Hother. }
    destruct (Store.findTenantById (NoteStore.db st) (Http.tenantId auth))
      as [tenant |] eqn:Ht.
    + destruct (TenantMethods.decrementUsage now Tenant.notes 1 tenant)
        as [tenant' |] eqn:Hdec; rewrite Hcase; simpl.
      * split; [exact Hflt |]. split; [| reflexivity].
        apply (Hrep tenant' tenant eq_refl).
        unfold TenantMethods.decrementUsage in Hdec.
        apply saveTenant_some in Hdec as [_ ->]. reflexivity.
      * split; [exact Hflt |]. split; reflexivity.
    + rewrite Hcase. simpl. split; [exact Hflt |]. split; reflexivity.
Qed.

(** A second tenant with one note; the admin of the first tenant asks to
    delete that note. *)
Definition two_tenants : NoteStore.t :=
  {| NoteStore.db :=
       {| Store.users := [sample_user 0 None; sample_admin];
          Store.tenants :=
            [sample_tenant Tenant.free 3 0;
             {| Tenant._id := "t2"; Tenant.slug := "globex"; Tenant.name := "Globex";
                Tenant.plan := Tenant.pro; Tenant.noteLimit := -1;
                Tenant.subscription :=
                  {| Tenant.status := Tenant.active; Tenant.startDate := 0;
                     Tenant.endDate := None |};
                Tenant.usage :=
                  {| Tenant.currentNoteCount := 1; Tenant.currentUserCount := 1;
                     Tenant.storageUsed := 0 |};
                Tenant.isActive := true; Tenant.updatedAt := 0 |}] |};
     NoteStore.notes :=
       [NotesController.newNote "n9" 5
          {| Http.userId := "u7"; Http.tenantId := "t2"; Http.tenantSlug := "globex";
             Http.role := User.member; Http.permissions := Mock.member_permissions;
             Http.isAdmin := false |}
          (sample_body "theirs")] |}.

Lemma note_requests_stay_in_tenant_witness :
  let res := handle two_tenants (DeleteNote 50 None "n9" admin_auth) in
  NotesHttp.status res.1 = 404
  /\ List.filter (fun n => String.eqb (Note.tenantId n) "t2") (NoteStore.notes res.2)
     = NoteStore.notes two_tenants
  /\ Store.findTenantById (NoteStore.db res.2) "t2"
     = Store.findTenantById (NoteStore.db two_tenants) "t2".
Proof.
  cbv zeta. split; [vm_compute; reflexivity |].
  destruct (note_requests_stay_in_tenant two_tenants
              (DeleteNote 50 None "n9" admin_auth) "t2") as (H1 & H2 & _).
  - simpl. apply NoDup_singleton.
  - reflexivity.
  - split; [rewrite H1; reflexivity | exact H2].
Defined.



Lemma update_first_new {A} (q : A -> bool) (y x : A) (l : list A) :
  x ∈ l -> q x = true -> y ∈ Store.update_first q (fun _ => y) l.
Proof.
  intros Hin Hq. induction l as [| a l IH]; simpl.
  - apply elem_of_nil in Hin. destruct Hin.
  - destruct (q a) eqn:Ha; [apply elem_of_cons; left; reflexivity |].
    apply elem_of_cons. right. apply IH.
    apply elem_of_cons in Hin as [-> | Hin]; [congruence | exact Hin].
Qed.




(** ** Upgrading lifts the limit *)

Lemma incrementUsage_plan (now : Z) (t t' : Tenant.t) :
  TenantMethods.incrementUsage now Tenant.notes 1 t = Some t' ->
  Tenant.plan t' = Tenant.plan t.
Proof.
  unfold TenantMethods.incrementUsage. intros H.
  apply saveTenant_some in H as [_ ->]. reflexivity.
Qed.

(** X22.  Upgrading lifts the limit.  An admin whose active free tenant
    passes the validators of its schema and may not create notes is
    refused by [createNote] with 403 [NOTE_LIMIT_REACHED], carrying the
    tenant's count, limit and plan, and nothing is stored.  After
    [upgradeTenant] for the tenant's slug, answered 200, the same
    request, if its note passes the schema and the collection takes it,
    is answered 201: the note is stored and the tenant, now on the pro
    plan without limit, counts one note more. *)
Theorem upgrade_lifts_the_limit (st : NoteStore.t) (now1 now2 now3 : Z)
  (oid slug : string) (g : option string) (auth : Http.auth_t)
  (body : NoteBody.create) (t : Tenant.t) (author : User.t) :
  Store.findTenantById (NoteStore.db st) (Http.tenantId auth) = Some t ->
  TenantController.findOwnTenant (NoteStore.db st) slug (Http.tenantId auth)
  = Some t ->
  Tenant.plan t = Tenant.free ->
  Tenant.isActive t = true ->
  Tenant.canCreateNotes t = false ->
  Schema.validateTenant t = true ->
  Http.isAdmin auth = true ->
  Note.validate (NotesController.newNote oid now3 auth body) = true ->
  Store.findUserById (NoteStore.db st) (Http.userId auth) = Some author ->
  let denied := NotesController.createNote st now1 oid g true auth body in
  let up := TenantController.upgradeTenant (NoteStore.db st) now2 slug auth in
  let st2 := NoteStore.with_db up.2 st in
  let created := NotesController.createNote st2 now3 oid g true auth body in
  denied = (NotesController.limit_reached t, st)
  /\ Http.status up.1 = 200
  /\ NotesHttp.status created.1 = 201
  /\ (exists note,
        NoteStore.notes created.2 = (NoteStore.notes st ++ [note])%list
        /\ Note._id note = oid /\ Note.tenantId note = Http.tenantId auth)
  /\ exists t',
       Store.findTenantById (NoteStore.db created.2) (Http.tenantId auth) = Some t'
       /\ Tenant.plan t' = Tenant.pro
       /\ Tenant.noteLimit t' = -1
       /\ Tenant.currentNoteCount (Tenant.usage t')
          = Tenant.currentNoteCount (Tenant.usage t) + 1.
Proof.
  intros Ht Hown Hplan Hact Hcan Hv Hadm Hval Hauthor denied up st2 created.
  pose proof (find_elem _ _ _ Ht) as [_ Htid].
  assert (Hden : denied = (NotesController.limit_reached t, st)).
  { unfold denied, NotesController.createNote. rewrite Ht, Hcan. reflexivity. }
  assert (Hup : up = ({| Http.status := 200;
                         Http.json :=
                           Http.Upgraded "Successfully upgraded to Pro plan"
                             (AuthController.tenant_view (upgraded_tenant now2 t))
                             (Tenant.subscription (upgraded_tenant now2 t));
                         Http.cookies := None |},
                      Store.replaceTenant (NoteStore.db st) (upgraded_tenant now2 t))).
  { unfold up, TenantController.upgradeTenant, Schema.saveTenant.
    rewrite Hadm, Hown, Hplan, validateTenant_upgraded.
    apply validateTenant_true in Hv as (Hn & _ & Hu). rewrite Hn, Hu.
    reflexivity. }
  assert (Hfind2 : Store.findTenantById (NoteStore.db st2) (Http.tenantId auth)
                   = Some (upgraded_tenant now2 t)).
  { unfold st2. rewrite Hup. unfold Store.findTenantById, Store.replaceTenant.
    simpl.
    apply (find_update_first
             (fun d => String.eqb (Tenant._id d) (Http.tenantId auth))
             (fun d => String.eqb (Tenant._id d) (Tenant._id t)) t).
    - intros a Ha. apply String.eqb_eq in Ha, Htid. apply String.eqb_eq.
      congruence.
    - exact Htid.
    - exact Ht. }
  assert (Hcan2 : Tenant.canCreateNotes (upgraded_tenant now2 t) = true).
  { unfold Tenant.canCreateNotes. simpl. rewrite Hact. reflexivity. }
  assert (Hv2 : Schema.validateTenant (upgraded_tenant now2 t) = true).
  { change (Schema.validateTenant (upgraded_tenant now2 t))
      with (Schema.validateTenant (TenantController.upgraded now2 t)).
    rewrite validateTenant_upgraded.
    apply validateTenant_true in Hv as (Hn & _ & Hu). rewrite Hn, Hu.
    reflexivity. }
  destruct (incrementUsage_notes_succeeds now3 (upgraded_tenant now2 t) Hv2)
    as [t' Hinc].
  destruct (incrementUsage_notes _ _ _ Hinc) as (Hid' & Hlim' & Hcnt' & _).
  assert (Hplan' : Tenant.plan t' = Tenant.pro).
  { rewrite (incrementUsage_plan _ _ _ Hinc). reflexivity. }
  destruct (newNote_preSave now3 now3 oid g auth body) as [note Hp].
  destruct (note_preSave_keeps _ _ _ _ _ Hp) as (Hnid & Hnten & Hnu & _).
  assert (Hcreated : created
                     = ({| NotesHttp.status := 201;
                           NotesHttp.json :=
                             NotesHttp.Created "Note created successfully"
                               (NotesController.note_view note author)
                               (Tenant.currentNoteCount (Tenant.usage t') + 1)
                               (Tenant.remainingNotes t' - 1) |},
                        {| NoteStore.db :=
                             Store.replaceTenant (NoteStore.db st2) t';
                           NoteStore.notes := (NoteStore.notes st2 ++ [note])%list |})).
  { unfold created, NotesController.createNote.
    rewrite Hfind2, Hcan2, Hval, Hp, Hinc. cbn [negb].
    cbn [NoteStore.with_db NoteStore.insertNote NoteStore.db NoteStore.notes].
    assert (Husers : Store.findUserById
                       (Store.replaceTenant (NoteStore.db st2) t') (Note.userId note)
                     = Store.findUserById (NoteStore.db st) (Note.userId note)).
    { unfold st2. rewrite Hup. reflexivity. }
    rewrite Husers, Hnu. cbn [NotesController.newNote Note.userId]. rewrite Hauthor.
    reflexivity. }
  split; [exact Hden |]. split; [rewrite Hup; reflexivity |].
  rewrite Hcreated. cbn [fst snd NotesHttp.status NoteStore.notes NoteStore.db].
  split; [reflexivity |]. split.
  - exists note. repeat split; assumption.
  - exists t'. split; [| split; [exact Hplan' | split; [exact Hlim' | exact Hcnt']]].
    unfold Store.findTenantById, Store.replaceTenant. simpl.
    apply (find_update_first
             (fun d => String.eqb (Tenant._id d) (Http.tenantId auth))
             (fun d => String.eqb (Tenant._id d) (Tenant._id t'))
             (upgraded_tenant now2 t)).
    + intros a Ha. rewrite Hid'. simpl. apply String.eqb_eq in Ha, Htid.
      apply String.eqb_eq. congruence.
    + rewrite Hid'. exact Htid.
    + exact Hfind2.
Qed.

(** The sample tenant at 3 of 3 notes: the admin is refused, upgrades,
    and creates the fourth note. *)
Lemma upgrade_lifts_the_limit_witness :
  let st := sample_notes 3 [] in
  let up := TenantController.upgradeTenant (NoteStore.db st) 20 "acme" admin_auth in
  NotesHttp.status
    (NotesController.createNote st 10 "n4" None true admin_auth (sample_body "four")).1
  = 403
  /\ Http.status up.1 = 200
  /\ NotesHttp.status
       (NotesController.createNote (NoteStore.with_db up.2 st) 30 "n4" None true
          admin_auth (sample_body "four")).1
     = 201.
Proof.
  cbv zeta.
  destruct (upgrade_lifts_the_limit (sample_notes 3 []) 10 20 30 "n4" "acme" None
              admin_auth (sample_body "four") (sample_tenant Tenant.free 3 3)
              sample_admin)
    as (H1 & H2 & H3 & _); try reflexivity.
  rewrite H1. repeat split; assumption.
Defined.

(** ** The Note model *)

Lemma count_words_bounds (b : bool) (s : string) :
  0 <= Note.count_words b s <= Schema.len s.
Proof.
  unfold Schema.len. revert b. induction s as [| c r IH]; intros b; simpl Note.count_words.
  - simpl. lia.
  - change (String.length (String c r)) with (S (String.length r)).
    destruct (Js.is_space c).
    + specialize (IH false). lia.
    + specialize (IH true). destruct b; lia.
Qed.

Lemma ceil_div_bounds (a b : Z) :
  0 < b -> b * (Note.ceil_div a b - 1) < a <= b * Note.ceil_div a b.
Proof.
  intros Hb. unfold Note.ceil_div.
  pose proof (Z.div_mod (- a) b ltac:(lia)) as Hdm.
  pose proof (Z.mod_pos_bound (- a) b Hb) as Hm. nia.
Qed.

Lemma last_n_length {A} (k : nat) (l : list A) :
  (List.length (Note.last_n k l) <= k)%nat.
Proof. unfold Note.last_n. rewrite length_skipn. lia. Qed.

(** X23.  What a save leaves in a note.  The hook of the Note model
    throws only for a shared note without share token whose token
    generation throws.  Otherwise the saved note has [updatedAt] set to
    the time of the save, at most ten tags, the first ten it had, and at
    most fifty versions, the last fifty it had; when the content was
    modified its metadata hold the length of the content, the number of
    its words, which is at most that length, and a reading time of
    [ceil(words / 200)] minutes; when the content was not modified the
    metadata are as before. *)
Theorem note_save_bounds (now : Z) (m : bool) (g : option string) (n : Note.t) :
  match Note.preSave now m g n with
  | None =>
      Note.isShared (Note.sharing n) = true
      /\ Js.truthy_str (default "" (Note.shareToken (Note.sharing n))) = false
      /\ g = None
  | Some n' =>
      Note.updatedAt n' = now
      /\ Note.tags n' = firstn 10 (Note.tags n)
      /\ (List.length (Note.tags n') <= 10)%nat
      /\ Note.versions n' = Note.last_n 50 (Note.versions n)
      /\ (List.length (Note.versions n') <= 50)%nat
      /\ (if m then
            Note.characterCount (Note.metadata n') = Schema.len (Note.content n)
            /\ Note.wordCount (Note.metadata n')
               = Note.count_words false (Note.content n)
            /\ 0 <= Note.wordCount (Note.metadata n')
               <= Note.characterCount (Note.metadata n')
            /\ Note.readingTime (Note.metadata n') = Note.estimatedReadingTime n'
            /\ 200 * (Note.readingTime (Note.metadata n') - 1)
               < Note.wordCount (Note.metadata n')
               <= 200 * Note.readingTime (Note.metadata n')
          else Note.metadata n' = Note.metadata n)
  end.
Proof.
  assert (Htags : forall l : list string,
             (if (10 <? List.length l)%nat then firstn 10 l else l) = firstn 10 l).
  { intros l. destruct (Nat.ltb_spec 10 (List.length l)); [reflexivity |].
    symmetry. apply firstn_all2. lia. }
  assert (Hvers : forall l : list Note.version_t,
             (if (50 <? List.length l)%nat then Note.last_n 50 l else l)
             = Note.last_n 50 l).
  { intros l. destruct (Nat.ltb_spec 50 (List.length l)); [reflexivity |].
    unfold Note.last_n. replace (List.length l - 50)%nat with 0%nat by lia.
    reflexivity. }
  pose proof (count_words_bounds false (Note.content n)) as Hw.
  pose proof (ceil_div_bounds (Note.count_words false (Note.content n)) 200
                ltac:(lia)) as Hc.
  unfold Note.preSave.
  destruct m; cbn [Note.tags Note.set_metadata Note.set_updatedAt Note.content].
  - destruct (10 <? List.length (Note.tags n))%nat eqn:Ht;
      cbn [Note.sharing Note.set_tags Note.set_metadata Note.set_updatedAt];
      (destruct (Note.isShared (Note.sharing n)) eqn:Hsh; cbn [andb];
       [destruct (Js.truthy_str (default "" (Note.shareToken (Note.sharing n))))
          eqn:Htk; cbn [negb];
        [| destruct g; [| repeat split; reflexivity]] |]);
      cbn [Note.versions Note.set_sharing Note.set_tags Note.set_metadata
           Note.set_updatedAt];
      destruct (50 <? List.length (Note.versions n))%nat eqn:Hv;
      cbn [Note.updatedAt Note.tags Note.versions Note.metadata Note.set_versions
           Note.set_sharing Note.set_tags Note.set_metadata Note.set_updatedAt
           Note.characterCount Note.wordCount Note.readingTime];
      specialize (Htags (Note.tags n)); specialize (Hvers (Note.versions n));
      rewrite ?Ht in Htags; rewrite ?Hv in Hvers;
      unfold Note.estimatedReadingTime; cbn [Note.metadata Note.wordCount
        Note.set_versions Note.set_sharing Note.set_tags Note.set_metadata
        Note.set_updatedAt];
      repeat split;
      first [ reflexivity | exact Htags | exact Hvers | apply firstn_le
            | apply last_n_length | lia
            | (rewrite Htags; apply firstn_le)
            | (rewrite Hvers; apply last_n_length) ].
  - destruct (10 <? List.length (Note.tags n))%nat eqn:Ht;
      cbn [Note.sharing Note.set_tags Note.set_metadata Note.set_updatedAt];
      (destruct (Note.isShared (Note.sharing n)) eqn:Hsh; cbn [andb];
       [destruct (Js.truthy_str (default "" (Note.shareToken (Note.sharing n))))
          eqn:Htk; cbn [negb];
        [| destruct g; [| repeat split; reflexivity]] |]);
      cbn [Note.versions Note.set_sharing Note.set_tags Note.set_metadata
           Note.set_updatedAt];
      destruct (50 <? List.length (Note.versions n))%nat eqn:Hv;
      cbn [Note.updatedAt Note.tags Note.versions Note.metadata Note.set_versions
           Note.set_sharing Note.set_tags Note.set_metadata Note.set_updatedAt];
      specialize (Htags (Note.tags n)); specialize (Hvers (Note.versions n));
      rewrite ?Ht in Htags; rewrite ?Hv in Hvers;
      repeat split;
      first [ reflexivity | exact Htags | exact Hvers | apply firstn_le
            | apply last_n_length
            | (rewrite Htags; apply firstn_le)
            | (rewrite Hvers; apply last_n_length) ].
Qed.

Lemma blank_runs_from_all (p q : ascii -> bool) (b : bool) (s : string) :
  all_chars q s = true ->
  all_chars (fun c => Ascii.eqb c " " || (q c && negb (p c)))
    (Note.blank_runs_from p b s) = true.
Proof.
  revert b. induction s as [| c r IH]; intros b; simpl; [reflexivity |].
  rewrite andb_true_iff. intros [Hc Hr].
  destruct (p c) eqn:Hp.
  - destruct b; simpl; auto.
  - simpl. rewrite Hc, Hp, orb_true_r. simpl. auto.
Qed.

Lemma drop_while_all (p q : ascii -> bool) (s : string) :
  all_chars q s = true -> all_chars q (Js.drop_while p s) = true.
Proof.
  induction s as [| c r IH]; simpl; [reflexivity |].
  rewrite andb_true_iff. intros [Hc Hr].
  destruct (p c); [auto |]. simpl. rewrite Hc, Hr. reflexivity.
Qed.

Lemma trim_all (q : ascii -> bool) (s : string) :
  all_chars q s = true -> all_chars q (Js.trim s) = true.
Proof.
  intros H. unfold Js.trim, Js.rev_string.
  rewrite rev_string_onto_all, andb_true_r. apply drop_while_all.
  rewrite rev_string_onto_all, andb_true_r. apply drop_while_all. exact H.
Qed.

Lemma substring_prefix (q : ascii -> bool) (k : nat) (s : string) :
  (String.length (String.substring 0 k s) <= k)%nat
  /\ (all_chars q s = true -> all_chars q (String.substring 0 k s) = true).
Proof.
  revert s. induction k as [| k IH]; intros s.
  - destruct s; simpl; split; auto.
  - destruct s as [| c r]; simpl; [split; [lia | auto] |].
    destruct (IH r) as [Hl Ha]. split; [lia |].
    rewrite !andb_true_iff. intros [Hc Hr]. split; auto.
Qed.

Lemma all_chars_app (q : ascii -> bool) (a b : string) :
  all_chars q (String.append a b) = all_chars q a && all_chars q b.
Proof.
  induction a as [| c r IH]; [reflexivity |].
  change (all_chars q (String c (String.append r b))
          = all_chars q (String c r) && all_chars q b).
  simpl. rewrite IH. destruct (q c); reflexivity.
Qed.

Lemma length_app_string (a b : string) :
  String.length (String.append a b) = (String.length a + String.length b)%nat.
Proof.
  induction a as [| c r IH]; [reflexivity |].
  change (S (String.length (String.append r b))
          = S (String.length r + String.length b)). rewrite IH. reflexivity.
Qed.

(** The characters of an excerpt: no markdown character and no line
    feed. *)
Definition plain (c : ascii) : bool :=
  negb (Note.is_markdown c) && negb (Note.is_newline c).

Lemma plain_after_blanking (c : ascii) :
  Ascii.eqb c " " || (negb (Note.is_markdown c) && negb (Note.is_newline c)) = true ->
  plain c = true.
Proof.
  destruct c as [[] [] [] [] [] [] [] []]; vm_compute; congruence.
Qed.

(** X24.  The excerpt of a note has at most 153 characters, none of them
    one of the markdown characters [# * ` _ ~ [ ]] or a line feed; a note
    without content has the empty excerpt. *)
Theorem excerpt_bounded (n : Note.t) :
  (String.length (Note.excerpt n) <= 153)%nat
  /\ all_chars plain (Note.excerpt n) = true
  /\ (Note.content n = EmptyString -> Note.excerpt n = EmptyString).
Proof.
  unfold Note.excerpt.
  destruct (Js.truthy_str (Note.content n)) eqn:Hc; cbn [negb].
  2: { split; [simpl; lia | split; [reflexivity | intros _; reflexivity]]. }
  set (plainText :=
         Js.trim
           (Note.blank_runs_from Note.is_newline false
              (Js.remove_outside (fun c => negb (Note.is_markdown c))
                 (Note.content n)))).
  assert (Hp : all_chars plain plainText = true).
  { unfold plainText. apply trim_all.
    eapply all_chars_weaken; [apply plain_after_blanking |].
    apply (blank_runs_from_all Note.is_newline
             (fun c => negb (Note.is_markdown c))).
    apply remove_outside_all. }
  split; [| split].
  - unfold Schema.len. destruct (Z.ltb_spec 150 (Z.of_nat (String.length plainText))).
    + rewrite length_app_string.
      destruct (substring_prefix plain 150 plainText) as [Hl _]. simpl. lia.
    + lia.
  - destruct (150 <? Schema.len plainText); [| exact Hp].
    rewrite all_chars_app.
    destruct (substring_prefix plain 150 plainText) as [_ Ha].
    rewrite (Ha Hp). reflexivity.
  - intros He. rewrite He in Hc. discriminate.
Qed.

(** The hook on a note that has at most ten tags and fifty versions and
    needs no share token, with its content unmodified: only [updatedAt]
    changes. *)
Lemma preSave_settled (now : Z) (g : option string) (n : Note.t) :
  (List.length (Note.tags n) <= 10)%nat ->
  (List.length (Note.versions n) <= 50)%nat ->
  Note.isShared (Note.sharing n)
  && negb (Js.truthy_str (default "" (Note.shareToken (Note.sharing n)))) = false ->
  Note.preSave now false g n = Some (Note.set_updatedAt now n).
Proof.
  intros Ht Hv Hs. apply Nat.ltb_ge in Ht, Hv.
  unfold Note.preSave.
  cbn [Note.tags Note.set_updatedAt]. rewrite Ht.
  cbn [Note.sharing Note.set_updatedAt]. rewrite Hs.
  cbn [Note.versions Note.set_updatedAt]. rewrite Hv. reflexivity.
Qed.

(** X25.  Restoring undoes a soft deletion.  On a note that passes the
    validators of its schema, is not deleted, has at most ten tags and
    fifty versions and needs no share token, [softDelete] and then
    [restore] both succeed; the note is deleted in between, with the
    deleting user and the time recorded, and is afterwards the note it
    was, with [updatedAt] set to the time of the restore.  On a note that
    fails a validator [softDelete] throws. *)
Theorem restore_undoes_softDelete (now now' : Z) (g g' : option string)
  (by_ : string) (n : Note.t) :
  Note.isDeleted n = false ->
  Note.deletedAt n = None ->
  Note.deletedBy n = None ->
  (List.length (Note.tags n) <= 10)%nat ->
  (List.length (Note.versions n) <= 50)%nat ->
  Note.isShared (Note.sharing n)
  && negb (Js.truthy_str (default "" (Note.shareToken (Note.sharing n)))) = false ->
  (Note.validate n = false -> Note.softDelete now g by_ n = None)
  /\ (Note.validate n = true ->
      exists n1,
        Note.softDelete now g by_ n = Some n1
        /\ Note.validate n1 = true
        /\ Note.isDeleted n1 = true
        /\ Note.deletedBy n1 = Some by_
        /\ Note.deletedAt n1 = Some now
        /\ Note.restore now' g' n1 = Some (Note.set_updatedAt now' n)).
Proof.
  intros Hd Hat Hby Ht Hv Hs. split.
  - intros Hval. unfold Note.softDelete, Note.save.
    change (Note.validate (Note.softDelete_fields now by_ n))
      with (Note.validate n).
    rewrite Hval. reflexivity.
  - intros Hval.
    exists (Note.set_updatedAt now (Note.softDelete_fields now by_ n)).
    split; [| split; [exact Hval | split; [reflexivity | split; [reflexivity |
             split; [reflexivity |]]]]].
    + unfold Note.softDelete, Note.save.
      change (Note.validate (Note.softDelete_fields now by_ n))
        with (Note.validate n).
      rewrite Hval. apply preSave_settled; assumption.
    + unfold Note.restore, Note.save.
      change (Note.validate
                (Note.restore_fields
                   (Note.set_updatedAt now (Note.softDelete_fields now by_ n))))
        with (Note.validate n).
      rewrite Hval. rewrite preSave_settled by assumption.
      destruct n. simpl in *. subst. reflexivity.
Qed.

Lemma restore_undoes_softDelete_witness :
  let n := NotesController.newNote "n1" 5 member_auth (sample_body "one") in
  exists n1,
    Note.softDelete 10 None "u2" n = Some n1
    /\ Note.isDeleted n1 = true
    /\ Note.restore 20 None n1 = Some (Note.set_updatedAt 20 n).
Proof.
  cbv zeta.
  destruct (restore_undoes_softDelete 10 20 None None "u2"
              (NotesController.newNote "n1" 5 member_auth (sample_body "one")))
    as [_ H]; try reflexivity; try (simpl; lia).
  destruct (H eq_refl) as (n1 & H1 & _ & H2 & _ & _ & H3).
  exists n1. repeat split; assumption.
Defined.

(** ** Pages *)

(** X26.  The page arithmetic of [getNotes].  For a page size above zero,
    a page number from 1 and a count of matching notes from 0:
    [totalPages] is the least number of pages that hold all the notes;
    [hasNext] holds exactly when the page number is below [totalPages];
    [hasPrev] holds exactly from page 2 on; and the page is the window
    of [limit] notes that starts after [(page - 1) * limit] notes. *)
Theorem paginate_consistent (page limit total : Z) :
  0 < limit -> 1 <= page -> 0 <= total ->
  let p := NotesList.paginate page limit total in
  limit * (NotesList.totalPages p - 1) < total <= limit * NotesList.totalPages p
  /\ 0 <= NotesList.totalPages p
  /\ (NotesList.hasNext p = true <-> page < NotesList.totalPages p)
  /\ (NotesList.hasPrev p = true <-> 1 < page)
  /\ (NotesList.skip page limit < total <-> page <= NotesList.totalPages p)
  /\ NotesList.skip (page + 1) limit = NotesList.skip page limit + limit.
Proof.
  intros Hl Hp Ht p. unfold p, NotesList.paginate, NotesList.skip. simpl.
  pose proof (ceil_div_bounds total limit Hl) as Hc.
  set (k := Note.ceil_div total limit) in *.
  split; [exact Hc |]. split; [nia |]. split; [| split; [| split]].
  - rewrite Z.ltb_lt. split; intros H; nia.
  - apply Z.ltb_lt.
  - split; intros H; nia.
  - lia.
Qed.

Lemma paginate_consistent_witness :
  let p := NotesList.paginate 3 20 45 in
  NotesList.totalPages p = 3
  /\ NotesList.hasNext p = false
  /\ NotesList.hasPrev p = true
  /\ NotesList.hasNext (NotesList.paginate 2 20 45) = true.
Proof.
  cbv zeta.
  destruct (paginate_consistent 3 20 45) as (H1 & H2 & H3 & H4 & _); try lia.
  split; [reflexivity |]. split; [reflexivity |]. split; [| reflexivity].
  apply H4. lia.
Defined.

(** ** Development accounts, from login to the resolver *)

(** The entry of the middleware's table for an account of the
    controller's table: the same account without the password hash. *)
Lemma mock_tables_agree (e : string) (m : UserObj.t) :
  AuthController2.mockUsers !! e = Some m ->
  exists tn m0,
    UserObj.password m = Some Mock.hash
    /\ UserObj.tenantId m = UserObj.Embedded tn
    /\ TenantObj.isActive tn = true
    /\ AuthMiddleware2.mockUsers !! UserObj._id m = Some m0
    /\ UserObj.isActive m0 = true
    /\ UserObj.tenantId m0 = UserObj.Embedded tn
    /\ object_principal m0 tn = object_principal m tn.
Proof.
  intros Hm. unfold AuthController2.mockUsers in Hm.
  apply elem_of_list_to_map_2 in Hm. simpl in Hm.
  repeat (apply elem_of_cons in Hm as [Hm | Hm];
          [injection Hm as _ ->; eexists; eexists;
           repeat split; try reflexivity; vm_compute; reflexivity |]).
  apply elem_of_nil in Hm. destruct Hm.
Qed.

(** X27.  A development account's session opens the resolver.  In the
    revision with development accounts, a login for one of the four
    addresses with a password that matches the hardcoded hash is answered
    200 with an access token, also set as the [authToken] cookie, and
    leaves the store as it is.  Presented to [authenticate] before its
    expiry, as [Bearer] credential or as cookie alone, on any store and
    in any connection state, that token resolves to the account's
    principal: its id, its tenant's id and slug, its role and
    permissions. *)
Theorem development_account_round_trip (cfg : Jwt.config)
  (bcrypt_compare : string -> string -> bool)
  (decodeCompact : string -> option Jwt.token)
  (castObjectId : Js.jval -> option string) (dbConnected dbConnected' : bool)
  (st st' : Store.t) (now now' : Z) (uuid s : string)
  (body : AuthBody.credentials) (m : UserObj.t) :
  AuthController2.mockUsers !! Js.toLowerCase (AuthBody.email body) = Some m ->
  bcrypt_compare (AuthBody.password body) Mock.hash = true ->
  let res := AuthController2.login cfg bcrypt_compare dbConnected st now uuid body in
  exists tn tk ck,
    UserObj.tenantId m = UserObj.Embedded tn
    /\ Http.status res.1 = 200
    /\ (exists msg uv tv, Http.json res.1 = Http.Session msg uv tv tk)
    /\ Http.cookies res.1 = Some ck
    /\ Http.c_authToken ck = Http.accessToken tk
    /\ res.2 = st
    /\ (decodeCompact s = Some (Http.accessToken tk) ->
        Js.truthy_str s = true ->
        all_chars (not_sep " ") s = true ->
        JwtUtil.isTokenExpired now' (Jwt.seconds now + Jwt.JWT_EXPIRES_IN cfg)
        = false ->
        forall req,
          req = {| AuthRequest.authorization := Some (String.append "Bearer " s);
                   AuthRequest.cookie_authToken := None |}
          \/ req = {| AuthRequest.authorization := None;
                      AuthRequest.cookie_authToken := Some s |} ->
          observed2
            (AuthMiddleware2.authenticate cfg decodeCompact castObjectId
               dbConnected' st' now' req)
          = ResolverSpec.Principal (object_principal m tn)).
Proof.
  intros Hm Hpw res.
  destruct (mock_tables_agree _ m Hm)
    as (tn & m0 & Hhash & Htn & Hact & Hm0 & Hact0 & Htn0 & Hprin).
  assert (Hres : res = AuthController2.login_finish cfg st now uuid m).
  { unfold res, AuthController2.login. rewrite Hm, Hhash. simpl. rewrite Hpw.
    reflexivity. }
  unfold AuthController2.login_finish in Hres. rewrite Htn, Hact in Hres.
  cbn [negb] in Hres.
  eexists tn, _, _. rewrite Hres. cbn [fst snd Http.status Http.json Http.cookies].
  split; [exact Htn |]. split; [reflexivity |].
  split; [do 3 eexists; reflexivity |].
  split; [reflexivity |]. split; [reflexivity |]. split; [reflexivity |].
  cbn [Http.accessToken].
  intros Hd Hs Hns Hx req Hreq.
  rewrite authenticate2_decided.
  assert (Hcred : bearer_or_cookie req = Some s).
  { unfold bearer_or_cookie, bearer_header.
    destruct Hreq as [-> | ->]; cbn [AuthRequest.authorization
                                     AuthRequest.cookie_authToken].
    - rewrite (extract_bearer_credential s Hns), Hs. reflexivity.
    - simpl. rewrite Hs. reflexivity. }
  destruct (access_token_verifies cfg
              (Jwt.tokenPayload (UserObj._id m) (UserObj.email m) (TenantObj._id tn)
                 (TenantObj.slug tn) (UserObj.role m) (UserObj.permissions m))
              now now' Hx) as (d & Hv & Hty & Hu & Htid).
  destruct (tokenPayload_fields (UserObj._id m) (UserObj.email m) (TenantObj._id tn)
              (TenantObj.slug tn) (UserObj.role m) (UserObj.permissions m))
    as [Hcu Hct].
  cbv zeta in Hcu, Hct. rewrite Hcu in Hu. rewrite Hct in Htid.
  unfold ResolverSpec.decide_outcome. rewrite Hcred.
  unfold AuthMiddleware.verifyToken. rewrite Hd, Hv, Hty, Hu.
  cbn [Js.strict_eq_str]. rewrite String.eqb_refl. cbn [negb].
  unfold AuthMiddleware2.loadUser, AuthMiddleware2.mockUser. rewrite Hm0, Hact0.
  cbn [negb]. unfold embedded_tenant. rewrite Htn0, Hact, Htid.
  cbn [negb Js.strict_eq_str]. rewrite String.eqb_refl. cbn [negb].
  rewrite Hprin. reflexivity.
Qed.

(** The admin of the first development tenant logs in and presents the
    cookie. *)
Definition mock_admin_token : Jwt.token :=
  Jwt.generateToken Jwt.default_config
    (Jwt.tokenPayload "mock-admin-acme" "admin@acme.test" "mock-tenant-acme" "acme"
       User.admin Perm.all_true) 0.

Definition mock_decode (s : string) : option Jwt.token :=
  if String.eqb s "compact" then Some mock_admin_token else None.

Definition mock_compare (p h : string) : bool := String.eqb p "password".

Definition mock_body : AuthBody.credentials :=
  {| AuthBody.email := "Admin@Acme.test"; AuthBody.password := "password" |}.

Lemma development_account_round_trip_witness :
  let res := AuthController2.login Jwt.default_config mock_compare false empty_store
               0 "a1" mock_body in
  Http.status res.1 = 200
  /\ observed2
       (AuthMiddleware2.authenticate Jwt.default_config mock_decode sample_cast
          false empty_store 1000
          {| AuthRequest.authorization := None;
             AuthRequest.cookie_authToken := Some "compact" |})
     = ResolverSpec.Principal
         {| Http.userId := "mock-admin-acme"; Http.tenantId := "mock-tenant-acme";
            Http.tenantSlug := "acme"; Http.role := User.admin;
            Http.permissions := Perm.all_true; Http.isAdmin := true |}.
Proof.
  cbv zeta.
  destruct (development_account_round_trip Jwt.default_config mock_compare mock_decode
              sample_cast false false empty_store empty_store 0 1000 "a1" "compact"
              mock_body
              (Mock.account "mock-admin-acme" "admin@acme.test" (Some Mock.hash)
                 Mock.acme User.admin "Admin User" Perm.all_true))
    as (tn & tk & ck & Htn & Hst & (msg & uv & tv & Hj) & _ & _ & _ & H);
    [vm_compute; reflexivity | reflexivity |].
  injection Htn as <-. split; [exact Hst |].
  assert (Htk : Http.accessToken tk = mock_admin_token).
  { assert (Hj' : Http.json
                    (AuthController2.login Jwt.default_config mock_compare false
                       empty_store 0 "a1" mock_body).1
                  = Http.Session "Login successful"
                      {| Http.uv_id := "mock-admin-acme";
                         Http.uv_email := "admin@acme.test";
                         Http.uv_role := User.admin;
                         Http.uv_fullName := "Admin User";
                         Http.uv_profile := None;
                         Http.uv_permissions := Perm.all_true;
                         Http.uv_isAdmin := true |}
                      {| Http.tv_id := "mock-tenant-acme"; Http.tv_slug := "acme";
                         Http.tv_name := "Acme Corporation";
                         Http.tv_plan := Tenant.free; Http.tv_noteLimit := 3;
                         Http.tv_hasUnlimitedNotes := false;
                         Http.tv_remainingNotes := Js.JNum 3;
                         Http.tv_canCreateNotes := true;
                         Http.tv_usage := [("currentNoteCount", 0)] |}
                      {| Http.accessToken := mock_admin_token;
                         Http.refreshToken :=
                           Jwt.generateRefreshToken Jwt.default_config
                             (Jwt.tokenPayload "mock-admin-acme" "admin@acme.test"
                                "mock-tenant-acme" "acme" User.admin Perm.all_true)
                             "a1" 0;
                         Http.expiresIn := "7d" |})
      by (vm_compute; reflexivity).
    rewrite Hj' in Hj. injection Hj as _ _ _ <-. reflexivity. }
  rewrite (H ltac:(rewrite Htk; reflexivity) eq_refl eq_refl
             ltac:(vm_compute; reflexivity) _ (or_intror eq_refl)).
  reflexivity.
Defined.

(** ** The decision list of the resolver *)

(** The headers for which [extractTokenFromHeader] returns a credential. *)
Lemma extract_bearer_iff (h t : string) :
  Jwt.extractTokenFromHeader (Some h) = Some t
  <-> h = String.append "Bearer " t /\ all_chars (not_sep " ") t = true.
Proof.
  split.
  - unfold Jwt.extractTokenFromHeader.
    destruct (negb (Js.truthy_str h)); [discriminate |].
    destruct (Js.split_on " " h) as [| a [| b [| c l]]] eqn:Hs; try discriminate.
    destruct (String.eqb a "Bearer") eqn:Ha; [| discriminate].
    intros [= <-]. apply String.eqb_eq in Ha. subst a.
    unfold Js.split_on in Hs.
    pose proof (join_split_from " " EmptyString h) as Hj.
    pose proof (split_from_pieces " " EmptyString h eq_refl) as Hp.
    rewrite Hs in Hj, Hp. simpl in Hj. rewrite append_empty in Hj.
    split; [symmetry; exact Hj |].
    inversion Hp as [| ? ? _ Hp']. inversion Hp' as [| ? ? Hb _]. exact Hb.
  - intros [-> Ht]. apply extract_bearer_credential. exact Ht.
Qed.

Lemma substring_whole (s : string) : String.substring 0 (String.length s) s = s.
Proof. induction s as [| c r IH]; simpl; [reflexivity | rewrite IH; reflexivity]. Qed.

(** The bearer credential as the specification has it: the header reads
    [Bearer], one space, and a credential that is not empty and holds no
    space; the credential is what follows the space. *)
Definition bearer_credential (h : option string) : option string :=
  match h with
  | Some s =>
      let c := String.substring 7 (String.length s - 7) s in
      if String.eqb s (String.append "Bearer " c)
         && Js.truthy_str c && all_chars (not_sep " ") c
      then Some c
      else None
  | None => None
  end.

Lemma bearer_credential_header (req : AuthRequest.t) :
  bearer_header req = bearer_credential (AuthRequest.authorization req).
Proof.
  unfold bearer_header, bearer_credential.
  destruct (AuthRequest.authorization req) as [s |]; [| reflexivity].
  cbv zeta.
  destruct (Jwt.extractTokenFromHeader (Some s)) as [t |] eqn:He.
  - apply extract_bearer_iff in He as [-> Ht].
    change (String.length (String.append "Bearer " t))
      with (7 + String.length t)%nat.
    replace (7 + String.length t - 7)%nat with (String.length t) by lia.
    change (String.substring 7 (String.length t) (String.append "Bearer " t))
      with (String.substring 0 (String.length t) t).
    rewrite substring_whole, String.eqb_refl, Ht, andb_true_r. reflexivity.
  - destruct (_ && _) eqn:Hc; [| reflexivity]. exfalso.
    apply andb_true_iff in Hc as [Hc Hns]. apply andb_true_iff in Hc as [Hc _].
    apply String.eqb_eq in Hc.
    assert (Some (String.substring 7 (String.length s - 7) s) = None) as [=].
    rewrite <- He. symmetry. apply extract_bearer_iff. split; assumption.
Qed.

(** The credential of the revision with the cookie channel: the bearer
    credential of the header, or else a cookie [authToken] that is not
    empty. *)
Definition header_or_cookie (req : AuthRequest.t) : option string :=
  match bearer_credential (AuthRequest.authorization req) with
  | Some c => Some c
  | None =>
      match AuthRequest.cookie_authToken req with
      | Some c => if Js.truthy_str c then Some c else None
      | None => None
      end
  end.

(** The token service's [verify] on the credential. *)
Definition verified (cfg : Jwt.config) (decodeCompact : string -> option Jwt.token)
  (now : Z) (credential : string) : option Jwt.obj :=
  match decodeCompact credential with
  | Some tk => Jwt.verifyToken cfg tk now
  | None => None
  end.



(** The development account that the claims name. *)
Definition development_user (d : Jwt.obj) : option (option UserObj.t) :=
  match d !! "userId" with
  | Some (Js.JStr id) =>
      Some (List.find (fun m => String.eqb (UserObj._id m) id) (Mock.accounts None))
  | _ => Some None
  end.


Lemma development_table (id : string) :
  AuthMiddleware2.mockUsers !! id
  = List.find (fun m => String.eqb (UserObj._id m) id) (Mock.accounts None).
Proof.
  destruct (String.eqb_spec "mock-admin-acme" id) as [<- | H1];
    [vm_compute; reflexivity |].
  destruct (String.eqb_spec "mock-user-acme" id) as [<- | H2];
    [vm_compute; reflexivity |].
  destruct (String.eqb_spec "mock-admin-globex" id) as [<- | H3];
    [vm_compute; reflexivity |].
  destruct (String.eqb_spec "mock-user-globex" id) as [<- | H4];
    [vm_compute; reflexivity |].
  unfold AuthMiddleware2.mockUsers, Mock.accounts.
  cbn [map list_to_map foldr fst snd Mock.account UserObj._id List.find uncurry].
  rewrite !lookup_insert_ne by assumption.
  apply String.eqb_neq in H1, H2, H3, H4. rewrite H1, H2, H3, H4.
  apply lookup_empty.
Qed.





Lemma bearer_or_cookie_spec (req : AuthRequest.t) :
  bearer_or_cookie req = header_or_cookie req.
Proof.
  unfold bearer_or_cookie, header_or_cookie.
  rewrite bearer_credential_header. reflexivity.
Qed.

(** X30.  The resolver with development accounts looks the tenant of a
    stored user up by slug.  For a verified access token that names no
    development account and whose [userId] casts to the identifier of an
    active stored user: without connection the answer is 401
    [USER_NOT_FOUND]; with connection the tenant is the document whose
    [slug] equals the user's tenant reference.  When there is none the
    answer is 401 [TENANT_INACTIVE], whatever the tenant with that [_id]
    is; when there is one, its [isActive] and [slug] decide and enter the
    principal, whose [tenantId] is the user's reference. *)
Theorem authenticate2_finds_tenant_by_slug (cfg : Jwt.config)
  (decodeCompact : string -> option Jwt.token)
  (castObjectId : Js.jval -> option string) (st : Store.t) (now : Z)
  (req : AuthRequest.t) (s uid id : string) (d : Jwt.obj) (u : User.t) :
  header_or_cookie req = Some s ->
  verified cfg decodeCompact now s = Some d ->
  d !! "tokenType" = Some (Js.JStr "access") ->
  d !! "userId" = Some (Js.JStr uid) ->
  development_user d = Some None ->
  castObjectId (Js.JStr uid) = Some id ->
  Store.findUserById st id = Some u ->
  User.isActive u = true ->
  let answer := fun dbConnected =>
    observed2 (AuthMiddleware2.authenticate cfg decodeCompact castObjectId
                 dbConnected st now req) in
  answer false = ResolverSpec.Reject 401 "USER_NOT_FOUND"
  /\ (Store.findTenantBySlug st (User.tenantId u) = None ->
      answer true = ResolverSpec.Reject 401 "TENANT_INACTIVE")
  /\ (forall tn,
        Store.findTenantBySlug st (User.tenantId u) = Some tn ->
        answer true
        = if negb (Tenant.isActive tn)
          then ResolverSpec.Reject 401 "TENANT_INACTIVE"
          else if negb (Js.strict_eq_str (d !! "tenantId") (User.tenantId u))
          then ResolverSpec.Reject 401 "TENANT_MISMATCH"
          else ResolverSpec.Principal
                 {| Http.userId := User._id u;
                    Http.tenantId := User.tenantId u;
                    Http.tenantSlug := Tenant.slug tn;
                    Http.role := User.role u;
                    Http.permissions := User.permissions u;
                    Http.isAdmin := User.isAdmin u |}).
Proof.
  intros Hs Hv Hty Hid Hdev Hcast Hu Hact answer.
  assert (Hmock : AuthMiddleware2.mockUsers !! uid = None).
  { unfold development_user in Hdev. rewrite Hid in Hdev.
    rewrite development_table. injection Hdev as Hdev. exact Hdev. }
  assert (Hstart : forall db,
             answer db
             = match AuthMiddleware2.loadUser castObjectId db st (Some (Js.JStr uid)) with
               | None => ResolverSpec.Reject 500 "AUTH_SERVICE_ERROR"
               | Some None => ResolverSpec.Reject 401 "USER_NOT_FOUND"
               | Some (Some user) =>
                   if negb (UserObj.isActive user)
                   then ResolverSpec.Reject 401 "USER_INACTIVE"
                   else
                     match embedded_tenant user with
                     | None => ResolverSpec.Reject 401 "TENANT_INACTIVE"
                     | Some tn =>
                         if negb (TenantObj.isActive tn)
                         then ResolverSpec.Reject 401 "TENANT_INACTIVE"
                         else if negb (Js.strict_eq_str (d !! "tenantId")
                                         (TenantObj._id tn))
                         then ResolverSpec.Reject 401 "TENANT_MISMATCH"
                         else ResolverSpec.Principal (object_principal user tn)
                     end
               end).
  { intros db. unfold answer. rewrite authenticate2_decided.
    unfold ResolverSpec.decide_outcome. rewrite bearer_or_cookie_spec, Hs.
    change (AuthMiddleware.verifyToken cfg decodeCompact now s)
      with (verified cfg decodeCompact now s).
    rewrite Hv, Hty, Hid. cbn [Js.strict_eq_str]. rewrite String.eqb_refl.
    reflexivity. }
  assert (Hload : forall db,
             AuthMiddleware2.loadUser castObjectId db st (Some (Js.JStr uid))
             = if db
               then match Store.findTenantBySlug st (User.tenantId u) with
                    | Some tn => Some (Some (UserObj.of_document u tn))
                    | None => Some (Some (UserObj.of_unresolved u))
                    end
               else Some None).
  { intros db. unfold AuthMiddleware2.loadUser, AuthMiddleware2.mockUser,
      AuthMiddleware.findById.
    rewrite Hmock, Hcast, Hu. reflexivity. }
  split; [| split].
  - rewrite Hstart, Hload. reflexivity.
  - intros Hnone. rewrite Hstart, Hload, Hnone.
    cbn [UserObj.of_unresolved UserObj.isActive]. rewrite Hact. reflexivity.
  - intros tn Hsome. rewrite Hstart, Hload, Hsome.
    cbn [UserObj.of_document UserObj.isActive]. rewrite Hact. cbn [negb].
    unfold embedded_tenant, object_principal. simpl.
    destruct (Tenant.isActive tn); cbn [negb]; [| reflexivity].
    destruct (Js.strict_eq_str (d !! "tenantId") (User.tenantId u));
      reflexivity.
Qed.

(** The request of the sample user: a principal in the store-only
    resolver, [TENANT_INACTIVE] in the resolver with development
    accounts. *)
Lemma authenticate2_finds_tenant_by_slug_witness :
  observed (AuthMiddleware.authenticate Jwt.default_config sample_decode
              sample_cast sample_store 1000 sample_request)
  = ResolverSpec.Principal
      (stored_principal (sample_user 0 None) (sample_tenant Tenant.free 3 0))
  /\ observed2 (AuthMiddleware2.authenticate Jwt.default_config sample_decode
                  sample_cast true sample_store 1000 sample_request)
     = ResolverSpec.Reject 401 "TENANT_INACTIVE".
Proof.
  split; [vm_compute; reflexivity |].
  apply (authenticate2_finds_tenant_by_slug Jwt.default_config sample_decode
           sample_cast sample_store 1000 sample_request
           "header.payload.signature" "u1" "u1" (Jwt.payload sample_token)
           (sample_user 0 None)); vm_compute; reflexivity.
Defined.

(** ** Updating a note *)

Lemma note_preSave_content (now : Z) (m : bool) (g : option string)
  (n n' : Note.t) :
  Note.preSave now m g n = Some n' ->
  Note.content n' = Note.content n
  /\ Note.title n' = Note.title n
  /\ Note.versions n' = Note.last_n 50 (Note.versions n)
  /\ (m = true ->
      Note.characterCount (Note.metadata n') = Schema.len (Note.content n)).
Proof.
  assert (Hvers : forall l : list Note.version_t,
             (if (50 <? List.length l)%nat then Note.last_n 50 l else l)
             = Note.last_n 50 l).
  { intros l. destruct (Nat.ltb_spec 50 (List.length l)); [reflexivity |].
    unfold Note.last_n. replace (List.length l - 50)%nat with 0%nat by lia.
    reflexivity. }
  unfold Note.preSave.
  destruct m; cbn [Note.tags Note.set_metadata Note.set_updatedAt];
    destruct (_ <? _)%nat;
    cbn [Note.sharing Note.set_tags Note.set_metadata Note.set_updatedAt];
    destruct (_ && _); try destruct g; try discriminate;
    intros [= <-];
    cbn [Note.versions Note.set_sharing Note.set_tags Note.set_metadata
         Note.set_updatedAt];
    specialize (Hvers (Note.versions n));
    destruct (50 <? List.length (Note.versions n))%nat;
    cbn [Note.versions Note.content Note.title Note.metadata Note.characterCount
         Note.set_versions Note.set_sharing Note.set_tags Note.set_metadata
         Note.set_updatedAt];
    repeat split; first [exact Hvers | reflexivity | discriminate].
Qed.

Lemma last_n_short {A} (k : nat) (l : list A) :
  (List.length l <= k)%nat -> Note.last_n k l = l.
Proof.
  intros H. unfold Note.last_n.
  replace (List.length l - k)%nat with 0%nat by lia. reflexivity.
Qed.

Lemma last_n_snoc {A} (k : nat) (l : list A) (x : A) :
  last (Note.last_n (S k) (l ++ [x])%list) = Some x.
Proof.
  unfold Note.last_n. rewrite length_app. simpl List.length.
  rewrite drop_app_le by lia. apply last_snoc.
Qed.

(** What [createVersion] stores. *)
Lemma createVersion_stores (now : Z) (g : option string) (d : string)
  (n n1 : Note.t) :
  Note.createVersion now g d n = Some n1 ->
  Note._id n1 = Note._id n
  /\ Note.tenantId n1 = Note.tenantId n
  /\ Note.userId n1 = Note.userId n
  /\ Note.isDeleted n1 = Note.isDeleted n
  /\ Note.content n1 = Note.content n
  /\ Note.title n1 = Note.title n
  /\ (List.length (Note.versions n1) <= 50)%nat
  /\ last (Note.versions n1)
     = Some {| Note.v_content := Note.content n; Note.v_title := Note.title n;
               Note.v_createdBy := Note.userId n;
               Note.v_changeDescription := d |}.
Proof.
  unfold Note.createVersion. intros H. apply note_save_some in H as [_ H].
  destruct (note_preSave_keeps _ _ _ _ _ H) as (H1 & H2 & H3 & H4).
  destruct (note_preSave_content _ _ _ _ _ H) as (H5 & H6 & H7 & _).
  simpl in H1, H2, H3, H4, H5, H6, H7.
  repeat split; try assumption.
  - rewrite H7. apply last_n_length.
  - rewrite H7.
    destruct (Nat.ltb_spec 50
                (List.length
                   (Note.versions n ++
                    [{| Note.v_content := Note.content n;
                        Note.v_title := Note.title n;
                        Note.v_createdBy := Note.userId n;
                        Note.v_changeDescription := d |}])%list)) as [Hlt | Hge].
    + rewrite last_n_short by apply last_n_length. apply (last_n_snoc 49).
    + rewrite last_n_short by exact Hge. apply last_snoc.
Qed.

(** Replacing one note by a note with the same identifier, among notes
    with unique identifiers: the live notes of each tenant. *)
Lemma live_after_replace (tid : string) (n n' : Note.t) (l : list Note.t) :
  NoDup (map Note._id l) ->
  n ∈ l ->
  Note._id n' = Note._id n ->
  live tid (Store.update_first (fun d => String.eqb (Note._id d) (Note._id n'))
              (fun _ => n') l)
  = live tid l - (if is_live tid n then 1 else 0) + (if is_live tid n' then 1 else 0).
Proof.
  intros Hnd Hin Hid. induction l as [| a l IH]; simpl.
  - apply elem_of_nil in Hin. destruct Hin.
  - simpl in Hnd. apply NoDup_cons in Hnd as [Hnotin Hnd].
    destruct (String.eqb (Note._id a) (Note._id n')) eqn:Ha.
    + apply String.eqb_eq in Ha.
      assert (Han : a = n).
      { apply elem_of_cons in Hin as [-> | Hin]; [reflexivity |].
        exfalso. apply Hnotin. rewrite Ha, Hid.
        apply list_elem_of_fmap. exists n. split; [reflexivity | exact Hin]. }
      subst a. rewrite !live_cons. lia.
    + apply String.eqb_neq in Ha.
      assert (Hin' : n ∈ l).
      { apply elem_of_cons in Hin as [-> | Hin]; [| exact Hin].
        exfalso. apply Ha. symmetry. exact Hid. }
      rewrite !live_cons, (IH Hnd Hin'). lia.
Qed.

(** What [updateNote] does when it answers with the updated note: the
    note it found, the note after the snapshot, and the note it saved. *)
Lemma updateNote_success (st : NoteStore.t) (now now' : Z) (g : option string)
  (id : string) (auth : Http.auth_t) (body : NoteBody.update)
  (m : string) (v : NotesHttp.note_view) :
  let res := NotesController.updateNote st now now' g id auth body in
  NotesHttp.json res.1 = NotesHttp.Updated m v ->
  exists n n1 saved author,
    List.find (NotesController.deletable id auth) (NoteStore.notes st) = Some n
    /\ (if NotesController.content_changes body n
        then Note.createVersion now g "Manual edit" n = Some n1
        else n1 = n)
    /\ Note.save now'
         (negb (String.eqb (Note.content (NotesController.assign body n1))
                  (Note.content n1)))
         g (NotesController.assign body n1) = Some saved
    /\ v = NotesController.note_view saved author
    /\ NotesHttp.status res.1 = 200
    /\ res.2 = NoteStore.replaceNote
                 (if NotesController.content_changes body n
                  then NoteStore.replaceNote st n1 else st) saved.
Proof.
  intros res. unfold res, NotesController.updateNote.
  destruct (List.find (NotesController.deletable id auth) (NoteStore.notes st))
    as [n |]; [| discriminate].
  destruct (NotesController.content_changes body n) eqn:Hcc.
  - destruct (Note.createVersion now g "Manual edit" n) as [n1 |] eqn:Hcv;
      [| discriminate].
    destruct (Note.save now' _ g (NotesController.assign body n1))
      as [saved |] eqn:Hp; [| discriminate].
    destruct (Store.findUserById _ _) as [author |]; [| discriminate].
    simpl. intros [= <- <-]. exists n, n1, saved, author. rewrite Hcc.
    repeat split; first [exact Hp | exact Hcv | reflexivity].
  - destruct (Note.save now' _ g (NotesController.assign body n))
      as [saved |] eqn:Hp; [| discriminate].
    destruct (Store.findUserById _ _) as [author |]; [| discriminate].
    simpl. intros [= <- <-]. exists n, n, saved, author. rewrite Hcc.
    repeat split; first [exact Hp | reflexivity].
Qed.

(** [updateNote] never writes a tenant or a user, and keeps the
    identifiers of the notes. *)
Lemma updateNote_frame (st : NoteStore.t) (now now' : Z) (g : option string)
  (id : string) (auth : Http.auth_t) (body : NoteBody.update) :
  let res := NotesController.updateNote st now now' g id auth body in
  NoteStore.db res.2 = NoteStore.db st
  /\ map Note._id (NoteStore.notes res.2) = map Note._id (NoteStore.notes st).
Proof.
  assert (Hrep : forall s n, map Note._id (NoteStore.notes (NoteStore.replaceNote s n))
                             = map Note._id (NoteStore.notes s)).
  { intros s n. unfold NoteStore.replaceNote. simpl. apply map_update_first.
    intros a Ha. apply String.eqb_eq in Ha. symmetry. exact Ha. }
  intros res. unfold res, NotesController.updateNote.
  destruct (List.find (NotesController.deletable id auth) (NoteStore.notes st))
    as [n |]; [| split; reflexivity].
  destruct (NotesController.content_changes body n).
  - destruct (Note.createVersion now g "Manual edit" n) as [n1 |];
      [| split; reflexivity].
    destruct (Note.save now' _ g (NotesController.assign body n1))
      as [saved |]; [| split; [reflexivity | apply Hrep]].
    destruct (Store.findUserById _ _) as [author |]; simpl;
      (split; [reflexivity |]);
      rewrite <- (Hrep st n1), <- (Hrep (NoteStore.replaceNote st n1) saved);
      reflexivity.
  - destruct (Note.save now' _ g (NotesController.assign body n))
      as [saved |]; [| split; reflexivity].
    destruct (Store.findUserById _ _) as [author |]; simpl;
      (split; [reflexivity |]); rewrite <- (Hrep st saved); reflexivity.
Qed.

(** X28.  [updateNote] writes what the body says and never a counter.
    It changes no tenant document and no user.  When it answers with the
    updated note, the stored note with the requested identifier carries
    the body's [tenantId], [userId] and [isDeleted] where the body has
    them, and the note's own otherwise; so, among notes with unique
    identifiers, the number of live notes of a tenant drops by one when
    the note leaves the tenant or is marked deleted, and rises by one for
    the tenant the note enters, while every [usage.currentNoteCount]
    stays as it was. *)
Theorem updateNote_bypasses_the_counter (st : NoteStore.t) (now now' : Z)
  (g : option string) (id : string) (auth : Http.auth_t)
  (body : NoteBody.update) :
  NoDup (map Note._id (NoteStore.notes st)) ->
  let res := NotesController.updateNote st now now' g id auth body in
  NoteStore.db res.2 = NoteStore.db st
  /\ (forall m v,
        NotesHttp.json res.1 = NotesHttp.Updated m v ->
        exists n n',
          List.find (NotesController.deletable id auth) (NoteStore.notes st) = Some n
          /\ Note.tenantId n = Http.tenantId auth
          /\ Note.isDeleted n = false
          /\ n' ∈ NoteStore.notes res.2
          /\ Note._id n' = id
          /\ Note.tenantId n' = default (Note.tenantId n) (NoteBody.u_tenantId body)
          /\ Note.userId n' = default (Note.userId n) (NoteBody.u_userId body)
          /\ Note.isDeleted n' = default false (NoteBody.u_isDeleted body)
          /\ forall k,
               live k (NoteStore.notes res.2)
               = live k (NoteStore.notes st)
                 - (if String.eqb (Http.tenantId auth) k then 1 else 0)
                 + (if is_live k n' then 1 else 0)).
Proof.
  intros Hnd res.
  split; [apply (updateNote_frame st now now' g id auth body) |].
  intros m v Hj.
  destruct (updateNote_success st now now' g id auth body m v Hj)
    as (n & n1 & saved & author & Hf & Hsnap & Hp & _ & _ & Hst).
  fold res in Hst. apply note_save_some in Hp as [_ Hp].
  pose proof (find_elem _ _ _ Hf) as [Hnin Hq].
  unfold NotesController.deletable in Hq.
  apply andb_true_iff in Hq as [Hq _]. apply andb_true_iff in Hq as [Hq Hlive].
  apply andb_true_iff in Hq as [Hid Hten].
  apply String.eqb_eq in Hid, Hten. apply negb_true_iff in Hlive.
  destruct (note_preSave_keeps _ _ _ _ _ Hp) as (Hsid & Hsten & Hsu & Hsdel).
  simpl in Hsid, Hsten, Hsu, Hsdel.
  assert (Hn1 : Note._id n1 = Note._id n /\ Note.tenantId n1 = Note.tenantId n
                /\ Note.userId n1 = Note.userId n
                /\ Note.isDeleted n1 = Note.isDeleted n).
  { destruct (NotesController.content_changes body n).
    - destruct (createVersion_stores _ _ _ _ _ Hsnap) as (H1 & H2 & H3 & H4 & _).
      repeat split; assumption.
    - subst n1. repeat split. }
  destruct Hn1 as (H1id & H1ten & H1u & H1del).
  assert (Hnotes : exists l1,
             NoDup (map Note._id l1) /\ n1 ∈ l1
             /\ (forall k, live k l1 = live k (NoteStore.notes st))
             /\ NoteStore.notes res.2
                = Store.update_first
                    (fun d => String.eqb (Note._id d) (Note._id saved))
                    (fun _ => saved) l1).
  { rewrite Hst. destruct (NotesController.content_changes body n).
    - exists (NoteStore.notes (NoteStore.replaceNote st n1)).
      unfold NoteStore.replaceNote. simpl. split; [| split; [| split]].
      + rewrite map_update_first; [exact Hnd |].
        intros a Ha. apply String.eqb_eq in Ha. symmetry. exact Ha.
      + apply (update_first_new _ n1 n); [exact Hnin |].
        rewrite H1id. apply String.eqb_refl.
      + intros k. rewrite (live_after_replace k n n1 _ Hnd Hnin H1id).
        unfold is_live. rewrite H1ten, H1del. lia.
      + reflexivity.
    - subst n1. exists (NoteStore.notes st). simpl.
      split; [exact Hnd |]. split; [exact Hnin |]. split; [reflexivity |].
      reflexivity. }
  destruct Hnotes as (l1 & Hnd1 & Hin1 & Hlive1 & Hres).
  assert (Hsid' : Note._id saved = Note._id n1) by exact Hsid.
  exists n, saved. rewrite Hres. repeat split; try assumption.
  - apply (update_first_new _ saved n1); [exact Hin1 |].
    rewrite Hsid'. apply String.eqb_refl.
  - congruence.
  - rewrite Hsten, H1ten. reflexivity.
  - rewrite Hsu, H1u. reflexivity.
  - rewrite Hsdel, H1del, Hlive. reflexivity.
  - intros k. rewrite (live_after_replace k n1 saved l1 Hnd1 Hin1 Hsid'), Hlive1.
    unfold is_live at 1. rewrite H1ten, H1del, Hlive, Hten. simpl.
    rewrite andb_true_r. reflexivity.
Qed.

(** The member moves the own note [n1] to the other tenant, and marks a
    second note deleted; the counters of both tenants stay. *)
Definition move_to_t2 : NoteBody.update :=
  {| NoteBody.u_title := None; NoteBody.u_content := None;
     NoteBody.u_category := None; NoteBody.u_tags := None;
     NoteBody.u_status := None; NoteBody.u_visibility := None;
     NoteBody.u_isPinned := None; NoteBody.u_isFavorite := None;
     NoteBody.u_isDeleted := None; NoteBody.u_tenantId := Some "t2";
     NoteBody.u_userId := None; NoteBody.u_metadata := None;
     NoteBody.u_sharing := None; NoteBody.u_versions := None;
     NoteBody.u_deletedAt := None; NoteBody.u_deletedBy := None;
     NoteBody.u_createdAt := None |}.

Lemma updateNote_bypasses_the_counter_witness :
  let st := handle_all two_tenants
              [CreateNote 10 "n1" None true member_auth (sample_body "one")] in
  let res := NotesController.updateNote st 20 21 None "n1" member_auth move_to_t2 in
  NotesHttp.status res.1 = 200
  /\ NoteStore.db res.2 = NoteStore.db st
  /\ live "t1" (NoteStore.notes st) = 1
  /\ live "t1" (NoteStore.notes res.2) = 0
  /\ live "t2" (NoteStore.notes res.2) = 2
  /\ map (fun t => Tenant.currentNoteCount (Tenant.usage t))
       (Store.tenants (NoteStore.db res.2)) = [1; 1].
Proof.
  cbv zeta.
  destruct (updateNote_bypasses_the_counter
              (handle_all two_tenants
                 [CreateNote 10 "n1" None true member_auth (sample_body "one")])
              20 21 None "n1" member_auth move_to_t2) as [Hdb _].
  - apply NoDup_keys. vm_compute. exact I.
  - split; [vm_compute; reflexivity |]. split; [exact Hdb |].
    repeat split; vm_compute; reflexivity.
Defined.

(** X29.  [updateNote] keeps the history, unless the body overwrites it.
    When the body carries a non-empty content that differs from the
    note's and no key [versions], and the answer is the updated note, the
    stored note has the new content, the length of the new content as
    character count, at most fifty versions, and as its last version the
    content and title the note had before, attributed to the note's owner
    with the description ['Manual edit'].  When the body does carry the
    key [versions], the stored note has the last fifty versions of the
    body and the snapshot of the old content is lost. *)
Theorem updateNote_keeps_history (st : NoteStore.t) (now now' : Z)
  (g : option string) (id : string) (auth : Http.auth_t)
  (body : NoteBody.update) (n : Note.t) (c : string) :
  NoDup (map Note._id (NoteStore.notes st)) ->
  List.find (NotesController.deletable id auth) (NoteStore.notes st) = Some n ->
  NoteBody.u_content body = Some c ->
  Js.truthy_str c = true ->
  String.eqb c (Note.content n) = false ->
  let res := NotesController.updateNote st now now' g id auth body in
  forall m v,
    NotesHttp.json res.1 = NotesHttp.Updated m v ->
    exists n',
      n' ∈ NoteStore.notes res.2
      /\ Note._id n' = id
      /\ Note.content n' = c
      /\ NotesHttp.nv_content v = c
      /\ Note.characterCount (Note.metadata n') = Schema.len c
      /\ (List.length (Note.versions n') <= 50)%nat
      /\ match NoteBody.u_versions body with
         | None =>
             last (Note.versions n')
             = Some {| Note.v_content := Note.content n;
                       Note.v_title := Note.title n;
                       Note.v_createdBy := Note.userId n;
                       Note.v_changeDescription := "Manual edit" |}
         | Some l => Note.versions n' = Note.last_n 50 l
         end.
Proof.
  intros Hnd Hf Hc Ht Hne res m v Hj.
  destruct (updateNote_success st now now' g id auth body m v Hj)
    as (n0 & n1 & saved & author & Hf0 & Hsnap & Hp & Hv & _ & Hst).
  apply note_save_some in Hp as [_ Hp].
  fold res in Hst. rewrite Hf in Hf0. injection Hf0 as <-.
  assert (Hch : NotesController.content_changes body n = true).
  { unfold NotesController.content_changes. rewrite Hc, Ht, Hne. reflexivity. }
  rewrite Hch in Hsnap, Hst.
  destruct (createVersion_stores _ _ _ _ _ Hsnap)
    as (H1id & _ & _ & _ & H1c & _ & H1len & H1last).
  assert (Hac : Note.content (NotesController.assign body n1) = c).
  { unfold NotesController.assign. simpl. rewrite Hc. reflexivity. }
  assert (Hmod : negb (String.eqb (Note.content (NotesController.assign body n1))
                         (Note.content n1)) = true).
  { rewrite Hac, H1c, Hne. reflexivity. }
  rewrite Hmod in Hp.
  destruct (note_preSave_keeps _ _ _ _ _ Hp) as (Hsid & _).
  destruct (note_preSave_content _ _ _ _ _ Hp) as (Hsc & _ & Hsv & Hsm).
  simpl in Hsid, Hsv. rewrite Hac in Hsc. rewrite Hac in Hsm.
  pose proof (find_elem _ _ _ Hf) as [Hnin Hq].
  unfold NotesController.deletable in Hq.
  do 3 (apply andb_true_iff in Hq as [Hq _]). apply String.eqb_eq in Hq.
  exists saved. rewrite Hst. unfold NoteStore.replaceNote. simpl.
  repeat split.
  - apply (update_first_new _ saved n1).
    + apply (update_first_new _ n1 n); [exact Hnin |].
      rewrite H1id. apply String.eqb_refl.
    + rewrite Hsid. apply String.eqb_refl.
  - congruence.
  - exact Hsc.
  - rewrite Hv. simpl. exact Hsc.
  - apply Hsm. reflexivity.
  - rewrite Hsv. apply last_n_length.
  - rewrite Hsv. unfold NotesController.assign. cbn [Note.versions].
    destruct (NoteBody.u_versions body) as [l |];
      cbv [default from_option Datatypes.id]; [reflexivity |].
    rewrite last_n_short by exact H1len. exact H1last.
Qed.

Definition new_content : NoteBody.update :=
  {| NoteBody.u_title := None; NoteBody.u_content := Some "Second draft";
     NoteBody.u_category := None; NoteBody.u_tags := None;
     NoteBody.u_status := None; NoteBody.u_visibility := None;
     NoteBody.u_isPinned := None; NoteBody.u_isFavorite := None;
     NoteBody.u_isDeleted := None; NoteBody.u_tenantId := None;
     NoteBody.u_userId := None; NoteBody.u_metadata := None;
     NoteBody.u_sharing := None; NoteBody.u_versions := None;
     NoteBody.u_deletedAt := None; NoteBody.u_deletedBy := None;
     NoteBody.u_createdAt := None |}.

Lemma updateNote_keeps_history_witness :
  let st := handle_all (sample_notes 0 [])
              [CreateNote 10 "n1" None true member_auth (sample_body "one")] in
  let res := NotesController.updateNote st 20 21 None "n1" member_auth new_content in
  exists n',
    n' ∈ NoteStore.notes res.2
    /\ Note.content n' = "Second draft"
    /\ map Note.v_content (Note.versions n') = ["# Minutes of the meeting"].
Proof.
  cbv zeta.
  set (st := handle_all (sample_notes 0 [])
               [CreateNote 10 "n1" None true member_auth (sample_body "one")]).
  assert (Hn : exists n, List.find (NotesController.deletable "n1" member_auth)
                           (NoteStore.notes st) = Some n
                         /\ Note.content n = "# Minutes of the meeting"
                         /\ Note.versions n = []).
  { eexists. split; [vm_compute; reflexivity |]. split; reflexivity. }
  destruct Hn as (n & Hf & Hcn & Hvn).
  assert (Hj : exists m v,
             NotesHttp.json
               (NotesController.updateNote st 20 21 None "n1" member_auth
                  new_content).1 = NotesHttp.Updated m v).
  { eexists. eexists. vm_compute. reflexivity. }
  destruct Hj as (m & v & Hj).
  destruct (updateNote_keeps_history st 20 21 None "n1" member_auth new_content n
              "Second draft") with (m := m) (v := v)
    as (n' & Hin & _ & Hc & _ & _ & Hlen & Hlast); try reflexivity; try assumption.
  - apply NoDup_keys. vm_compute. exact I.
  - rewrite Hcn. reflexivity.
  - exists n'. split; [exact Hin |]. split; [exact Hc |].
    revert Hin. vm_compute. intros Hin.
    apply list_elem_of_singleton in Hin. subst n'. reflexivity.
Defined.
